(** * TAOplicate: the copy-trading loop of [taoplicate.py]

    A shallow embedding of the trade path of [taoplicate.py]: the sizing
    expression, the low-balance governor, [mirror_stake], the ledger write,
    the realtime (queue) path and the polling path of [run], the loop body
    with its [try]/[except], [send_summary_embed] and the configuration
    written by [setup].

    Conventions of the model.
    - Python floats are idealised as rationals ([Q]); rounding, infinities
      and NaN are outside the model.  [1e-9] is [1 # 1000000000].
    - [state["last_stakes"]] is a dict of dicts keyed by [str(netuid)] and
      the hotkey; [str] is injective on integers, so the outer key is the
      integer itself.
    - Everything the program does to the outside (btcli processes, Discord
      posts, log lines, the state file) is appended to a trace; the SQLite
      table, the in-memory summary, the [paused] flag, the baseline map, the
      event queue and [last_balance.json] are fields of the world.
    - A Python exception is the [None] result of a computation; the world
      reached when it was raised is kept, as mutation is in Python. *)

From Stdlib Require Import QArith Qabs.
From stdpp Require Import gmap strings list fin_maps.

Open Scope Q_scope.
Open Scope stdpp_scope.

(** ** Rationals *)

Definition Qlt_bool (x y : Q) : bool := negb (Qle_bool y x).

(** [1e-9], the noise threshold of the poll path and of the trend line. *)
Definition eps : Q := 1 # 1000000000.

(** ** Data *)

(** The two values [action] takes: ["add"] and ["remove"]. *)
Inductive action := Add | Remove.

(** The configuration dict.  [fixed_amount] stands for
    [float(cfg["fixed_amount"])]: [None] when [float] raises. *)
Record config := {
  network : string;
  my_wallet : string;
  fixed_amount : option Q;
  hotkeys : list string;
  weights : list Q;
  poll_seconds : Z;
  trade_mode : string;
  live_webhook : string;
  summary_webhook : string;
  low_balance : Q;
  resume_balance : Q;
  btcli_path : string
}.

(** The [summary] dict of [run]. *)
Record summary := {
  trades : Z;
  add_tao : Q;
  rem_tao : Q;
  subnets : gset Z
}.

(** A row of table [trades], without [id] and [timestamp]. *)
Record trade_record := {
  tr_action : action;
  tr_netuid : Z;
  tr_hotkey : string;
  tr_amount : Q;
  tr_delta : Q;
  tr_balance : Q
}.

(** The two command lines the program builds for btcli. *)
Inductive btcli_cmd :=
| CmdBalance
| CmdStake (a : action) (netuid : Z) (amount : Q).

(** How a [subprocess.Popen] ... [communicate(timeout=120)] can end. *)
Inductive proc_outcome :=
| Exited (rc : Z) (out err : string)
| TimedOut
| NotFound.

Inductive log_line :=
| LCmd (cmd : btcli_cmd)
| LOut (s : string)
| LErr (s : string)
| LTimedOut
| LNotFound
| LFetchBalance
| LTrade (a : action) (amount : Q) (netuid : Z) (hk : string) (delta : Q)
| LDryRun (a : action) (amount : Q) (netuid : Z) (hk : string)
| LLoopError
| LSummaryNow
| LRunSetupFirst
| LSetupComplete.

Inductive trend := NoChange | Up (d : Q) | Down (d : Q).

(** The figures of the daily summary embed. *)
Record report := {
  rep_trades : Z;
  rep_subnets : nat;
  rep_add : Q;
  rep_rem : Q;
  rep_net : Q;
  rep_balance : Q;
  rep_delta_bal : Q;
  rep_trend : trend
}.

Inductive effect :=
| Log (l : log_line)
| Popen (cmd : btcli_cmd)
| TradeEmbed (a : action) (netuid : Z) (hk : string) (amount delta : Q)
| NotifyPaused (bal : Q)
| NotifyResumed (bal : Q)
| NotifyLoopError
| NotifySummaryAt
| NotifySetup (n : nat)
| NotifySummaryInit
| SummaryEmbed (r : report)
| SaveState (m : gmap Z (gmap string Q))
| SaveConfig (c : config).

(** What [last_balance.json] holds: missing, unreadable, or a JSON object
    with or without key ["balance"]. *)
Inductive trend_file :=
| TfMissing
| TfCorrupt
| TfJson (balance : option Q).

(** A realtime event as [events_handler] queues it. *)
Record push_event := {
  ev_action : action;
  ev_netuid : Z;
  ev_hk : string;
  ev_delta : Q
}.

(** What the outside answers while one intent is handled: the value
    [get_wallet_balance_via_btcli] returns, and how the [btcli stake]
    process ends if it is started. *)
Record reply := {
  reply_balance : Q;
  reply_stake : proc_outcome
}.

Record world := {
  paused : bool;
  summ : summary;
  last_stakes : gmap Z (gmap string Q);
  db : list trade_record;
  queue : list (push_event * reply);
  last_balance_json : trend_file;
  trace : list effect
}.

(** ** The monad of the loop: state, trace and exceptions *)

Definition M (A : Type) : Type := world -> option A * world.

#[global] Instance M_ret : MRet M := fun A (a : A) w => (Some a, w).

#[global] Instance M_bind : MBind M := fun A B (f : A -> M B) (m : M A) w =>
  match m w with
  | (Some a, w') => f a w'
  | (None, w') => (None, w')
  end.

(** Nothing is done: [pass], [return], [continue]. *)
Definition skip : M unit := mret tt.

(** [raise]: a Python exception leaves the block. *)
Definition raise {A : Type} : M A := fun w => (None, w).

(** [try: m except Exception: h]. *)
Definition try_except (m h : M unit) : M unit := fun w =>
  match m w with
  | (Some u, w') => (Some u, w')
  | (None, w') => h w'
  end.

(** Indexing and parsing that raise: [l[i]], [float(s)]. *)
Definition or_raise {A : Type} (o : option A) : M A :=
  match o with
  | Some a => mret a
  | None => raise
  end.

Definition exec {A : Type} (m : M A) (w : world) : world := snd (m w).

Definition modify (f : world -> world) : M unit := fun w => (Some tt, f w).

Definition with_paused (b : bool) (w : world) : world :=
  {| paused := b; summ := summ w; last_stakes := last_stakes w; db := db w;
     queue := queue w; last_balance_json := last_balance_json w;
     trace := trace w |}.

Definition with_summ (s : summary) (w : world) : world :=
  {| paused := paused w; summ := s; last_stakes := last_stakes w; db := db w;
     queue := queue w; last_balance_json := last_balance_json w;
     trace := trace w |}.

Definition with_last_stakes (m : gmap Z (gmap string Q)) (w : world) : world :=
  {| paused := paused w; summ := summ w; last_stakes := m; db := db w;
     queue := queue w; last_balance_json := last_balance_json w;
     trace := trace w |}.

Definition with_db (d : list trade_record) (w : world) : world :=
  {| paused := paused w; summ := summ w; last_stakes := last_stakes w; db := d;
     queue := queue w; last_balance_json := last_balance_json w;
     trace := trace w |}.

Definition with_queue (q : list (push_event * reply)) (w : world) : world :=
  {| paused := paused w; summ := summ w; last_stakes := last_stakes w;
     db := db w; queue := q; last_balance_json := last_balance_json w;
     trace := trace w |}.

Definition with_last_balance_json (t : trend_file) (w : world) : world :=
  {| paused := paused w; summ := summ w; last_stakes := last_stakes w;
     db := db w; queue := queue w; last_balance_json := t;
     trace := trace w |}.

Definition with_trace (t : list effect) (w : world) : world :=
  {| paused := paused w; summ := summ w; last_stakes := last_stakes w;
     db := db w; queue := queue w; last_balance_json := last_balance_json w;
     trace := t |}.

Definition emit (e : effect) : M unit :=
  modify (fun w => with_trace (trace w ++ [e]) w).

(** [log(msg)]: a line on stdout and in the log file. *)
Definition log (l : log_line) : M unit := emit (Log l).

Definition get_paused : M bool := fun w => (Some (paused w), w).
Definition set_paused (b : bool) : M unit := modify (with_paused b).
Definition get_queue : M (list (push_event * reply)) :=
  fun w => (Some (queue w), w).
Definition get_last_stakes : M (gmap Z (gmap string Q)) :=
  fun w => (Some (last_stakes w), w).

(** A string is falsy exactly when it is empty. *)
Definition truthy (s : string) : bool := negb (String.eqb s "").

(** [notify_text(webhook, content)] and [post_embed(webhook, embed)]:
    nothing is sent without a webhook. *)
Definition notify_text (webhook : string) (e : effect) : M unit :=
  if truthy webhook then emit e else skip.

Definition post_embed (webhook : string) (e : effect) : M unit :=
  if truthy webhook then emit e else skip.

(** [send_trade_embed(cfg, action, netuid, hk, amount, delta)]. *)
Definition send_trade_embed (cfg : config) (a : action) (netuid : Z)
    (hk : string) (amount delta : Q) : M unit :=
  if truthy (live_webhook cfg)
  then post_embed (live_webhook cfg) (TradeEmbed a netuid hk amount delta)
  else skip.

(** [log_trade_to_db(action, netuid, hk, amount, delta, balance)]. *)
Definition log_trade_to_db (a : action) (netuid : Z) (hk : string)
    (amount delta balance : Q) : M unit :=
  modify (fun w => with_db (db w ++ [{| tr_action := a; tr_netuid := netuid;
    tr_hotkey := hk; tr_amount := amount; tr_delta := delta;
    tr_balance := balance |}]) w).

(** [run_btcli(cmd)]: the command line is logged, the process started, its
    output logged; a timeout is reported as status 124 and a missing
    executable as status 127. *)
Definition run_btcli (cmd : btcli_cmd) (o : proc_outcome)
    : M (Z * string * string) :=
  log (LCmd cmd);;
  emit (Popen cmd);;
  match o with
  | Exited rc out err =>
      (if truthy out then log (LOut out) else skip);;
      (if truthy err then log (LErr err) else skip);;
      mret (rc, out, err)
  | TimedOut => log LTimedOut;; mret (124%Z, ""%string, "timeout"%string)
  | NotFound => log LNotFound;; mret (127%Z, ""%string, "not found"%string)
  end.

(** [get_wallet_balance_via_btcli(cfg)]: the parse of btcli's text is not
    modelled, [bal] is the float the function returns. *)
Definition get_wallet_balance_via_btcli (cfg : config) (bal : Q) : M Q :=
  log LFetchBalance;;
  log (LCmd CmdBalance);;
  emit (Popen CmdBalance);;
  mret bal.

(** [summary["trades"] += 1; summary["subnets"].add(netuid)] and the update
    of [add_tao] or [rem_tao]. *)
Definition bump (a : action) (netuid : Z) (amount : Q) (s : summary) : summary :=
  {| trades := trades s + 1;
     add_tao := match a with Add => add_tao s + amount | Remove => add_tao s end;
     rem_tao := match a with Add => rem_tao s | Remove => rem_tao s + amount end;
     subnets := {[netuid]} ∪ subnets s |}.

(** [mirror_stake(action, netuid, cfg, amount, hk, delta, summary)]. *)
Definition mirror_stake (a : action) (netuid : Z) (cfg : config) (amount : Q)
    (hk : string) (delta : Q) (o : proc_outcome) : M unit :=
  if Qle_bool amount 0 then skip
  else
    '(rc, out, err) ← run_btcli (CmdStake a netuid amount) o;
    log (LTrade a amount netuid hk delta);;
    send_trade_embed cfg a netuid hk amount delta;;
    modify (fun w => with_summ (bump a netuid amount (summ w)) w).

(** ** The body of [run] *)

(** [l.index(x)], [None] when [x not in l]. *)
Fixpoint index_of (x : string) (l : list string) : option nat :=
  match l with
  | [] => None
  | y :: l' => if String.eqb y x then Some 0%nat else S <$> index_of x l'
  end.

(** The sizing expression (lines 348 and 389):
    [float(cfg["fixed_amount"]) if cfg["trade_mode"] == "fixed"
     else abs(delta) * weight]. *)
Definition sizing (cfg : config) (delta weight : Q) : M Q :=
  if String.eqb (trade_mode cfg) "fixed"
  then or_raise (fixed_amount cfg)
  else mret (Qabs delta * weight).

(** The safety block (lines 351-360 and 391-400), after the balance has been
    fetched.  The result tells whether the intent goes on ([true]) or the
    loop [continue]s ([false]). *)
Definition governor (cfg : config) (current_balance : Q) : M bool :=
  p ← get_paused;
  (if negb p && Qlt_bool current_balance (low_balance cfg)
   then set_paused true;;
        notify_text (live_webhook cfg) (NotifyPaused current_balance)
   else skip);;
  p ← get_paused;
  if (p : bool)
  then
    if Qle_bool (resume_balance cfg) current_balance
    then set_paused false;;
         notify_text (live_webhook cfg) (NotifyResumed current_balance);;
         mret true
    else mret false
  else mret true.

(** Lines 362-366: the realtime path hands the event's own action on. *)
Definition execute_push (dry_run : bool) (cfg : config) (a : action)
    (netuid : Z) (hk : string) (amount delta current_balance : Q)
    (o : proc_outcome) : M unit :=
  if dry_run
  then log (LDryRun a amount netuid hk)
  else
    mirror_stake a netuid cfg amount hk delta o;;
    log_trade_to_db a netuid hk amount delta current_balance.

(** Lines 402-410: the poll path derives the action from the sign of the
    delta. *)
Definition execute_poll (dry_run : bool) (cfg : config) (netuid : Z)
    (hk : string) (amount delta current_balance : Q) (o : proc_outcome)
    : M unit :=
  if dry_run
  then log (LDryRun (if Qlt_bool 0 delta then Add else Remove) amount netuid hk)
  else
    if Qlt_bool 0 delta
    then mirror_stake Add netuid cfg amount hk delta o;;
         log_trade_to_db Add netuid hk amount delta current_balance
    else mirror_stake Remove netuid cfg amount hk delta o;;
         log_trade_to_db Remove netuid hk amount delta current_balance.

(** Lines 343-366: one event taken from the queue. *)
Definition process_event (dry_run : bool) (cfg : config) (ev : push_event)
    (r : reply) : M unit :=
  match index_of (ev_hk ev) (hotkeys cfg) with
  | None => skip
  | Some i =>
      weight ← or_raise (weights cfg !! i);
      amount ← sizing cfg (ev_delta ev) weight;
      current_balance ← get_wallet_balance_via_btcli cfg (reply_balance r);
      go ← governor cfg current_balance;
      if (go : bool)
      then execute_push dry_run cfg (ev_action ev) (ev_netuid ev) (ev_hk ev)
             amount (ev_delta ev) current_balance (reply_stake r)
      else skip
  end.

(** Lines 342-366: [while not event_queue.empty()]; [get()] removes the
    event before it is handled. *)
Fixpoint drain (dry_run : bool) (cfg : config) (q : list (push_event * reply))
    : M unit :=
  match q with
  | [] => skip
  | (ev, r) :: q' =>
      modify (with_queue q');;
      process_event dry_run cfg ev r;;
      drain dry_run cfg q'
  end.

(** What [subtensor.metagraph(netuid)] shows of a subnet. *)
Record metagraph := {
  mg_hotkeys : list string;
  mg_stake : list Q
}.

(** The chain as one poll pass sees it. *)
Record chain := {
  subnet_count : nat;
  metagraph_of : Z -> metagraph
}.

(** [state["last_stakes"].setdefault(str(netuid), {})] followed by
    [state["last_stakes"][str(netuid)].get(hk)] (lines 379-380). *)
Definition baseline (m : gmap Z (gmap string Q)) (netuid : Z) (hk : string)
    : option Q :=
  default ∅ (m !! netuid) !! hk.

(** [state["last_stakes"][str(netuid)][hk] = stake_val] (line 381), after
    the [setdefault]. *)
Definition set_baseline (m : gmap Z (gmap string Q)) (netuid : Z) (hk : string)
    (stake_val : Q) : gmap Z (gmap string Q) :=
  <[netuid := <[hk := stake_val]> (default ∅ (m !! netuid))]> m.

(** Lines 379-381: the old value is read, the new one stored. *)
Definition swap_baseline (netuid : Z) (hk : string) (stake_val : Q)
    : M (option Q) := fun w =>
  (Some (baseline (last_stakes w) netuid hk),
   with_last_stakes (set_baseline (last_stakes w) netuid hk stake_val) w).

(** Lines 375-410: one watched hotkey on one subnet. *)
Definition poll_hotkey (dry_run : bool) (cfg : config) (netuid : Z)
    (mg : metagraph) (i : nat) (hk : string) (r : reply) : M unit :=
  match index_of hk (mg_hotkeys mg) with
  | None => skip
  | Some idx =>
      stake_val ← or_raise (mg_stake mg !! idx);
      last ← swap_baseline netuid hk stake_val;
      match last with
      | None => skip
      | Some last =>
          let delta := stake_val - last in
          if Qlt_bool (Qabs delta) eps then skip
          else
            weight ← or_raise (weights cfg !! i);
            amount ← sizing cfg delta weight;
            current_balance ← get_wallet_balance_via_btcli cfg (reply_balance r);
            go ← governor cfg current_balance;
            if (go : bool)
            then execute_poll dry_run cfg netuid hk amount delta
                   current_balance (reply_stake r)
            else skip
      end
  end.

(** Lines 374-410: [for i, hk in enumerate(cfg["hotkeys"])], from index [i]. *)
Fixpoint poll_hotkeys (dry_run : bool) (cfg : config) (netuid : Z)
    (mg : metagraph) (rs : Z -> nat -> reply) (i : nat) (hks : list string)
    : M unit :=
  match hks with
  | [] => skip
  | hk :: hks' =>
      poll_hotkey dry_run cfg netuid mg i hk (rs netuid i);;
      poll_hotkeys dry_run cfg netuid mg rs (S i) hks'
  end.

(** Lines 371-410: one subnet; an empty metagraph is skipped. *)
Definition poll_subnet (dry_run : bool) (cfg : config) (ch : chain)
    (rs : Z -> nat -> reply) (netuid : Z) : M unit :=
  let mg := metagraph_of ch netuid in
  match mg_hotkeys mg with
  | [] => skip
  | _ :: _ => poll_hotkeys dry_run cfg netuid mg rs 0 (hotkeys cfg)
  end.

(** Lines 369-410: [for netuid in range(n_subnets)]. *)
Fixpoint poll_subnets (dry_run : bool) (cfg : config) (ch : chain)
    (rs : Z -> nat -> reply) (netuids : list Z) : M unit :=
  match netuids with
  | [] => skip
  | n :: ns =>
      poll_subnet dry_run cfg ch rs n;;
      poll_subnets dry_run cfg ch rs ns
  end.

Definition poll_pass (dry_run : bool) (cfg : config) (ch : chain)
    (rs : Z -> nat -> reply) : M unit :=
  poll_subnets dry_run cfg ch rs (Z.of_nat <$> seq 0 (subnet_count ch)).

(** Line 412: [save_json(STATE_PATH, state)]. *)
Definition save_state : M unit :=
  m ← get_last_stakes;
  emit (SaveState m).

(** Lines 340-416: one turn of [while True], without the sleep. *)
Definition iteration (dry_run : bool) (cfg : config) (ch : chain)
    (rs : Z -> nat -> reply) : M unit :=
  try_except
    (q ← get_queue;
     drain dry_run cfg q;;
     poll_pass dry_run cfg ch rs;;
     save_state)
    (log LLoopError;;
     notify_text (live_webhook cfg) NotifyLoopError).

(** What one turn of the loop meets: the events the listener thread has put
    on the queue since the last turn (each with the answers the outside will
    give when it is handled), the chain, and the answers for the poll pass,
    by subnet and position in [cfg["hotkeys"]]. *)
Record turn := {
  arrivals : list (push_event * reply);
  chain_now : chain;
  poll_replies : Z -> nat -> reply
}.

(** [event_queue.put(...)] by [events_handler]. *)
Definition enqueue (evs : list (push_event * reply)) : M unit :=
  modify (fun w => with_queue (queue w ++ evs) w).

(** The turns of [while True] that have run so far. *)
Fixpoint run_loop (dry_run : bool) (cfg : config) (ts : list turn) : M unit :=
  match ts with
  | [] => skip
  | t :: ts' =>
      enqueue (arrivals t);;
      iteration dry_run cfg (chain_now t) (poll_replies t);;
      run_loop dry_run cfg ts'
  end.

(** ** The daily summary *)

Definition get_last_balance_json : M trend_file :=
  fun w => (Some (last_balance_json w), w).

(** Lines 187-193: [last_balance] stays [0.0] unless the file can be read;
    [.get("balance", 0.0)] covers a file without the key. *)
Definition read_last_balance (tf : trend_file) : Q :=
  match tf with
  | TfJson (Some b) => b
  | TfJson None => 0
  | TfCorrupt => 0
  | TfMissing => 0
  end.

(** Lines 195-201. *)
Definition trend_of (delta_bal : Q) : trend :=
  if Qlt_bool (Qabs delta_bal) eps then NoChange
  else if Qlt_bool 0 delta_bal then Up delta_bal
  else Down delta_bal.

(** [send_summary_embed(cfg, summary)]; [bal] is what the balance query
    returns. *)
Definition send_summary_embed (cfg : config) (s : summary) (bal : Q) : M unit :=
  if truthy (summary_webhook cfg)
  then
    total_balance ← get_wallet_balance_via_btcli cfg bal;
    tf ← get_last_balance_json;
    let total_add := add_tao s in
    let total_rem := rem_tao s in
    let net := total_add - total_rem in
    let last_balance := read_last_balance tf in
    let delta_bal := total_balance - last_balance in
    modify (with_last_balance_json (TfJson (Some total_balance)));;
    post_embed (summary_webhook cfg)
      (SummaryEmbed {| rep_trades := trades s;
                       rep_subnets := size (subnets s);
                       rep_add := total_add;
                       rep_rem := total_rem;
                       rep_net := net;
                       rep_balance := total_balance;
                       rep_delta_bal := delta_bal;
                       rep_trend := trend_of delta_bal |})
  else skip.

(** ** [setup] and the start of [run] *)

(** The answers typed into [setup], after [strip] and the conversions the
    code applies; [None] is an empty line where the code has a default, and
    for [ans_amt] a text [float] will not take.  [ans_which] is
    [shutil.which("btcli")]. *)
Record answers := {
  ans_network : string;
  ans_wallet : string;
  ans_amt : option Q;
  ans_hotkeys : list (string * option Q);
  ans_poll : option Z;
  ans_mode : string;
  ans_live : string;
  ans_summary : string;
  ans_low : option Q;
  ans_resume : option Q;
  ans_which : option string
}.

(** [s or d] on strings. *)
Definition str_or (s d : string) : string := if truthy s then s else d.

(** Lines 270-301: the dict [setup] builds. *)
Definition setup_config (a : answers) : config :=
  {| network := str_or (ans_network a) "finney";
     my_wallet := ans_wallet a;
     fixed_amount := ans_amt a;
     hotkeys := fst <$> ans_hotkeys a;
     weights := (fun p => default 1 (snd p)) <$> ans_hotkeys a;
     poll_seconds := default 30%Z (ans_poll a);
     trade_mode := str_or (ans_mode a) "fixed";
     live_webhook := ans_live a;
     summary_webhook := ans_summary a;
     low_balance := default 1 (ans_low a);
     resume_balance := default 2 (ans_resume a);
     btcli_path := default "btcli"%string (ans_which a) |}.

Definition empty_summary : summary :=
  {| trades := 0; add_tao := 0; rem_tao := 0; subnets := ∅ |}.

(** Lines 302-309: what [setup] writes and sends. *)
Definition setup (a : answers) : M config :=
  let cfg := setup_config a in
  emit (SaveConfig cfg);;
  emit (SaveState ∅);;
  log LSetupComplete;;
  (if truthy (live_webhook cfg)
   then notify_text (live_webhook cfg) (NotifySetup (length (hotkeys cfg)))
   else skip);;
  (if truthy (summary_webhook cfg)
   then notify_text (summary_webhook cfg) NotifySummaryInit
   else skip);;
  mret cfg.

(** The files [run] finds: the configuration ([None] when it is missing,
    unreadable or empty), the baseline ([None] when missing or unreadable),
    the rows of the ledger and [last_balance.json]. *)
Record disk := {
  config_file : option config;
  state_file : option (gmap Z (gmap string Q));
  db_file : list trade_record;
  trend_json : trend_file
}.

(** Lines 320-325: the state [run] starts from. *)
Definition initial_world (d : disk) : world :=
  {| paused := false;
     summ := empty_summary;
     last_stakes := default ∅ (state_file d);
     db := db_file d;
     queue := [];
     last_balance_json := trend_json d;
     trace := [] |}.

(** [run()], for the turns of its loop that have run: [None] when it
    returns at "Run setup first.".  [bal] answers the balance query of
    [--summary-now]. *)
Definition run (dry_run summary_now : bool) (d : disk) (bal : Q)
    (ts : list turn) : option world :=
  match config_file d with
  | None => None
  | Some cfg =>
      Some (exec
        ((if truthy (summary_webhook cfg)
          then notify_text (summary_webhook cfg) NotifySummaryAt
          else skip);;
         (if summary_now
          then log LSummaryNow;;
               send_summary_embed cfg empty_summary bal
          else skip);;
         run_loop dry_run cfg ts)
        (initial_world d))
  end.

(** The [btcli stake] processes a trace has started. *)
Definition is_stake (e : effect) : bool :=
  match e with
  | Popen (CmdStake _ _ _) => true
  | _ => false
  end.

Definition stake_cmds (t : list effect) : list effect := List.filter is_stake t.

(** The per-trade Discord embeds of a trace. *)
Definition is_trade_embed (e : effect) : bool :=
  match e with
  | TradeEmbed _ _ _ _ _ => true
  | _ => false
  end.

Definition trade_embeds (t : list effect) : list effect :=
  List.filter is_trade_embed t.

(** ** Sample data *)

Definition cfg0 : config :=
  {| network := "finney"; my_wallet := "mine"; fixed_amount := Some (1 # 10);
     hotkeys := ["hkA"; "hkB"]%string; weights := [1 # 2; 1];
     poll_seconds := 30%Z; trade_mode := "proportional";
     live_webhook := "https://live"; summary_webhook := "https://sum";
     low_balance := 1; resume_balance := 2; btcli_path := "btcli" |}.

Definition w0 : world :=
  {| paused := false; summ := empty_summary; last_stakes := ∅; db := [];
     queue := []; last_balance_json := TfMissing; trace := [] |}.

Definition evA : push_event :=
  {| ev_action := Add; ev_netuid := 7%Z; ev_hk := "hkA"; ev_delta := 10 |}.

(** ** Comparisons of rationals *)

Lemma Qlt_bool_iff (x y : Q) : Qlt_bool x y = true <-> (x < y)%Q.
Proof.
  unfold Qlt_bool. rewrite negb_true_iff. split.
  - intros H. apply Qnot_le_lt. intros Hle.
    apply Qle_bool_iff in Hle. congruence.
  - intros H. destruct (Qle_bool y x) eqn:E; [|reflexivity].
    apply Qle_bool_iff in E. exfalso. exact (Qlt_not_le _ _ H E).
Qed.

Lemma Qlt_bool_false_iff (x y : Q) : Qlt_bool x y = false <-> (y <= x)%Q.
Proof.
  unfold Qlt_bool. rewrite negb_false_iff. apply Qle_bool_iff.
Qed.

Lemma Qle_bool_false_iff (x y : Q) : Qle_bool x y = false <-> (y < x)%Q.
Proof.
  rewrite <- Qlt_bool_iff. unfold Qlt_bool.
  destruct (Qle_bool x y); simpl; split; congruence.
Qed.

(** ** Running the monad *)

Lemma bind_some {A B : Type} (m : M A) (f : A -> M B) (w w' : world) (a : A) :
  m w = (Some a, w') -> (m ≫= f) w = f a w'.
Proof. intros H. unfold mbind, M_bind. now rewrite H. Qed.

Lemma bind_none {A B : Type} (m : M A) (f : A -> M B) (w w' : world) :
  m w = (None, w') -> (m ≫= f) w = (None, w').
Proof. intros H. unfold mbind, M_bind. now rewrite H. Qed.

Lemma exec_bind {A B : Type} (m : M A) (f : A -> M B) (w : world) :
  exec (m ≫= f) w =
  match fst (m w) with
  | Some a => exec (f a) (exec m w)
  | None => exec m w
  end.
Proof.
  unfold exec, mbind, M_bind. destruct (m w) as [[a|] w']; reflexivity.
Qed.

Lemma exec_try_except (m h : M unit) (w : world) :
  exec (try_except m h) w =
  match fst (m w) with
  | Some _ => exec m w
  | None => exec h (exec m w)
  end.
Proof.
  unfold exec, try_except. destruct (m w) as [[u|] w']; reflexivity.
Qed.

Ltac munfold :=
  unfold mbind, M_bind, mret, M_ret, skip, log, emit, modify, raise, or_raise,
    get_paused, set_paused, get_queue, get_last_stakes, get_last_balance_json,
    notify_text, post_embed, exec in *.

Lemma stake_cmds_snoc (t : list effect) (e : effect) :
  stake_cmds (t ++ [e]) = stake_cmds t ++ (if is_stake e then [e] else []).
Proof. unfold stake_cmds. now rewrite List.filter_app. Qed.

Lemma trade_embeds_snoc (t : list effect) (e : effect) :
  trade_embeds (t ++ [e]) = trade_embeds t ++ (if is_trade_embed e then [e] else []).
Proof. unfold trade_embeds. now rewrite List.filter_app. Qed.

Ltac trace_simpl :=
  repeat (rewrite ?stake_cmds_snoc, ?trade_embeds_snoc; simpl);
  rewrite ?app_nil_r.

(** ** Steps that leave the books alone *)

(** [quiet w w']: between [w] and [w'] no row was written, no counter
    moved, no [btcli stake] process was started and no trade embed sent. *)
Definition quiet (w w' : world) : Prop :=
  db w' = db w /\ summ w' = summ w /\
  stake_cmds (trace w') = stake_cmds (trace w) /\
  trade_embeds (trace w') = trade_embeds (trace w).

#[global] Instance quiet_preorder : PreOrder quiet.
Proof.
  split.
  - intros w. repeat split.
  - intros w1 w2 w3 (a1 & b1 & c1 & d1) (a2 & b2 & c2 & d2).
    repeat split; congruence.
Qed.

Section Frame.
(** An invariant [P] and a preorder [R] on worlds: [steps m] says that
    [m], raising or not, keeps [P] and moves the world along [R]. *)
Context (P : world -> Prop) (R : relation world) `{!PreOrder R}.

Definition steps {A : Type} (m : M A) : Prop :=
  forall w, P w -> P (exec m w) /\ R w (exec m w).

Lemma steps_ret {A : Type} (a : A) : steps (mret a).
Proof. intros w H. split; [exact H | reflexivity]. Qed.

Lemma steps_skip : steps skip.
Proof. apply steps_ret. Qed.

Lemma steps_raise {A : Type} : steps (@raise A).
Proof. intros w H. split; [exact H | reflexivity]. Qed.

Lemma steps_or_raise {A : Type} (o : option A) : steps (or_raise o).
Proof. destruct o; [apply steps_ret | apply steps_raise]. Qed.

Lemma steps_bind {A B : Type} (m : M A) (f : A -> M B) :
  steps m -> (forall a, steps (f a)) -> steps (m ≫= f).
Proof.
  intros Hm Hf w Hw. rewrite exec_bind.
  destruct (Hm w Hw) as [HP HR].
  destruct (fst (m w)) as [a|]; [|now split].
  destruct (Hf a _ HP) as [HP' HR']. split; [exact HP'|].
  now transitivity (exec m w).
Qed.

Lemma steps_try_except (m h : M unit) :
  steps m -> steps h -> steps (try_except m h).
Proof.
  intros Hm Hh w Hw. rewrite exec_try_except.
  destruct (Hm w Hw) as [HP HR].
  destruct (fst (m w)) as [u|]; [now split|].
  destruct (Hh _ HP) as [HP' HR']. split; [exact HP'|].
  now transitivity (exec m w).
Qed.

Lemma steps_modify (f : world -> world) :
  (forall w, P w -> P (f w) /\ R w (f w)) -> steps (modify f).
Proof. intros H w Hw. exact (H w Hw). Qed.
End Frame.

(** ** What each piece of the loop body does to the world *)

Lemma emit_quiet (e : effect) (w : world) :
  is_stake e = false -> is_trade_embed e = false -> quiet w (exec (emit e) w).
Proof.
  intros Hs He. munfold. unfold quiet. simpl.
  rewrite stake_cmds_snoc, trade_embeds_snoc, Hs, He, !app_nil_r. tauto.
Qed.

Lemma balance_run (cfg : config) (bal : Q) (w : world) :
  get_wallet_balance_via_btcli cfg bal w =
  (Some bal,
   with_trace (trace w ++ [Log LFetchBalance; Log (LCmd CmdBalance);
                           Popen CmdBalance]) w).
Proof.
  unfold get_wallet_balance_via_btcli. munfold. destruct w; simpl.
  unfold with_trace; simpl. now rewrite <- !app_assoc.
Qed.

(** The amount the sizing expression yields, when [float] does not raise. *)
Definition sized (cfg : config) (delta weight : Q) : option Q :=
  if String.eqb (trade_mode cfg) "fixed" then fixed_amount cfg
  else Some (Qabs delta * weight).

Lemma sizing_run (cfg : config) (delta weight : Q) (w : world) :
  sizing cfg delta weight w = (sized cfg delta weight, w).
Proof.
  unfold sizing, sized. destruct (String.eqb _ _); [|reflexivity].
  destruct (fixed_amount cfg); reflexivity.
Qed.

(** Whether the safety block lets the intent through, from the flag it
    finds and the balance. *)
Definition lets_through (cfg : config) (p : bool) (bal : Q) : bool :=
  if p then Qle_bool (resume_balance cfg) bal
  else negb (Qlt_bool bal (low_balance cfg)) || Qle_bool (resume_balance cfg) bal.

(** The notifications of the safety block. *)
Definition safety_notes (cfg : config) (p : bool) (bal : Q) : list effect :=
  (if negb p && Qlt_bool bal (low_balance cfg) && truthy (live_webhook cfg)
   then [NotifyPaused bal] else []) ++
  (if (p || Qlt_bool bal (low_balance cfg))
      && Qle_bool (resume_balance cfg) bal && truthy (live_webhook cfg)
   then [NotifyResumed bal] else []).

Lemma governor_run (cfg : config) (bal : Q) (w : world) :
  governor cfg bal w =
  (Some (lets_through cfg (paused w) bal),
   with_trace (trace w ++ safety_notes cfg (paused w) bal)
     (with_paused (negb (lets_through cfg (paused w) bal)) w)).
Proof.
  unfold governor, lets_through, safety_notes. munfold.
  destruct w as [p s l d q t tr]; simpl.
  destruct p; simpl.
  - destruct (Qle_bool (resume_balance cfg) bal); simpl;
      [destruct (truthy (live_webhook cfg))|]; simpl;
      unfold with_trace, with_paused; simpl; rewrite ?app_nil_r; reflexivity.
  - destruct (Qlt_bool bal (low_balance cfg)); simpl;
      [|unfold with_trace, with_paused; simpl; now rewrite app_nil_r].
    destruct (truthy (live_webhook cfg)); simpl;
      destruct (Qle_bool (resume_balance cfg) bal); simpl;
      unfold with_trace, with_paused; simpl;
      rewrite <- ?app_assoc, ?app_nil_r; reflexivity.
Qed.

Lemma safety_notes_quiet (cfg : config) (p : bool) (bal : Q) (t : list effect) :
  stake_cmds (t ++ safety_notes cfg p bal) = stake_cmds t /\
  trade_embeds (t ++ safety_notes cfg p bal) = trade_embeds t.
Proof.
  unfold stake_cmds, trade_embeds, safety_notes.
  rewrite !List.filter_app.
  destruct (negb p && _ && _), ((p || _) && _ && _); simpl;
    rewrite ?app_nil_r; split; reflexivity.
Qed.

(** The world after the balance query and the safety block. *)
Definition checked (cfg : config) (bal : Q) (w : world) : world :=
  with_trace
    ((trace w ++ [Log LFetchBalance; Log (LCmd CmdBalance); Popen CmdBalance])
       ++ safety_notes cfg (paused w) bal)
    (with_paused (negb (lets_through cfg (paused w) bal)) w).

Lemma check_run (cfg : config) (bal : Q) (w : world) :
  (get_wallet_balance_via_btcli cfg bal ≫= governor cfg) w =
  (Some (lets_through cfg (paused w) bal), checked cfg bal w).
Proof.
  rewrite (bind_some _ _ _ _ _ (balance_run cfg bal w)).
  rewrite governor_run. reflexivity.
Qed.

Lemma checked_quiet (cfg : config) (bal : Q) (w : world) :
  quiet w (checked cfg bal w).
Proof.
  unfold quiet, checked. simpl.
  destruct (safety_notes_quiet cfg (paused w) bal
    (trace w ++ [Log LFetchBalance; Log (LCmd CmdBalance); Popen CmdBalance]))
    as [Hs He].
  rewrite Hs, He. unfold stake_cmds, trade_embeds.
  rewrite !List.filter_app. simpl. rewrite !app_nil_r. tauto.
Qed.

Lemma checked_fields (cfg : config) (bal : Q) (w : world) :
  paused (checked cfg bal w) = negb (lets_through cfg (paused w) bal) /\
  last_stakes (checked cfg bal w) = last_stakes w /\
  queue (checked cfg bal w) = queue w /\
  last_balance_json (checked cfg bal w) = last_balance_json w.
Proof. unfold checked. simpl. tauto. Qed.

Lemma mirror_stake_skip (a : action) (netuid : Z) (cfg : config) (amount : Q)
    (hk : string) (delta : Q) (o : proc_outcome) (w : world) :
  Qle_bool amount 0 = true ->
  mirror_stake a netuid cfg amount hk delta o w = (Some tt, w).
Proof. intros H. unfold mirror_stake. now rewrite H. Qed.

Lemma mirror_stake_run (a : action) (netuid : Z) (cfg : config) (amount : Q)
    (hk : string) (delta : Q) (o : proc_outcome) (w : world) :
  Qle_bool amount 0 = false ->
  exists w',
    mirror_stake a netuid cfg amount hk delta o w = (Some tt, w') /\
    db w' = db w /\
    summ w' = bump a netuid amount (summ w) /\
    paused w' = paused w /\
    last_stakes w' = last_stakes w /\
    queue w' = queue w /\
    stake_cmds (trace w') =
      stake_cmds (trace w) ++ [Popen (CmdStake a netuid amount)] /\
    trade_embeds (trace w') =
      trade_embeds (trace w) ++
      (if truthy (live_webhook cfg)
       then [TradeEmbed a netuid hk amount delta] else []).
Proof.
  intros H. unfold mirror_stake. rewrite H.
  unfold run_btcli, send_trade_embed.
  destruct o as [rc out err| |]; munfold; simpl.
  - destruct (truthy out), (truthy err), (truthy (live_webhook cfg)); simpl;
      (eexists; split; [reflexivity|]); simpl; trace_simpl;
      rewrite <- ?app_assoc; simpl; tauto.
  - destruct (truthy (live_webhook cfg)); simpl;
      (eexists; split; [reflexivity|]); simpl; trace_simpl;
      rewrite <- ?app_assoc; simpl; tauto.
  - destruct (truthy (live_webhook cfg)); simpl;
      (eexists; split; [reflexivity|]); simpl; trace_simpl;
      rewrite <- ?app_assoc; simpl; tauto.
Qed.

Lemma baseline_set_same (m : gmap Z (gmap string Q)) (netuid : Z) (hk : string)
    (v : Q) :
  baseline (set_baseline m netuid hk v) netuid hk = Some v.
Proof.
  unfold baseline, set_baseline. rewrite lookup_insert_eq. simpl.
  apply lookup_insert_eq.
Qed.

Lemma baseline_set_other (m : gmap Z (gmap string Q)) (n n' : Z)
    (hk hk' : string) (v : Q) :
  (n, hk) <> (n', hk') ->
  baseline (set_baseline m n hk v) n' hk' = baseline m n' hk'.
Proof.
  intros Hne. unfold baseline, set_baseline.
  destruct (decide (n = n')) as [->|Hn].
  - rewrite lookup_insert_eq. simpl.
    rewrite lookup_insert_ne; [reflexivity|]. congruence.
  - now rewrite lookup_insert_ne.
Qed.

Lemma set_baseline_id (m : gmap Z (gmap string Q)) (netuid : Z) (hk : string)
    (v : Q) :
  baseline m netuid hk = Some v -> set_baseline m netuid hk v = m.
Proof.
  unfold baseline, set_baseline. intros H.
  destruct (m !! netuid) as [row|] eqn:E; simpl in *.
  - rewrite (insert_id row hk v H). now apply insert_id.
  - rewrite lookup_empty in H. discriminate H.
Qed.

Lemma no_change_is_noise (v : Q) : Qlt_bool (Qabs (v - v)) eps = true.
Proof.
  apply Qlt_bool_iff.
  assert (H : (Qabs (v - v) == 0)%Q).
  { rewrite (Qabs_wd (v - v) 0); [reflexivity|]. unfold Qminus.
    apply Qplus_opp_r. }
  rewrite H. reflexivity.
Qed.

(** The ledger row an executed intent leaves. *)
Definition row_of (a : action) (netuid : Z) (hk : string)
    (amount delta balance : Q) : trade_record :=
  {| tr_action := a; tr_netuid := netuid; tr_hotkey := hk;
     tr_amount := amount; tr_delta := delta; tr_balance := balance |}.

(** [mirror_stake] followed by [log_trade_to_db], the pair both paths call
    when they are not in dry-run. *)
Lemma mirror_and_log (a : action) (netuid : Z) (cfg : config) (amount : Q)
    (hk : string) (delta bal : Q) (o : proc_outcome) (w : world) :
  exists w',
    (mirror_stake a netuid cfg amount hk delta o;;
     log_trade_to_db a netuid hk amount delta bal) w = (Some tt, w') /\
    db w' = db w ++ [row_of a netuid hk amount delta bal] /\
    paused w' = paused w /\
    last_stakes w' = last_stakes w /\
    queue w' = queue w /\
    (if Qle_bool amount 0
     then summ w' = summ w /\ trace w' = trace w
     else summ w' = bump a netuid amount (summ w) /\
          stake_cmds (trace w') =
            stake_cmds (trace w) ++ [Popen (CmdStake a netuid amount)] /\
          trade_embeds (trace w') =
            trade_embeds (trace w) ++
            (if truthy (live_webhook cfg)
             then [TradeEmbed a netuid hk amount delta] else [])).
Proof.
  destruct (Qle_bool amount 0) eqn:E.
  - rewrite (bind_some _ _ _ _ _
      (mirror_stake_skip a netuid cfg amount hk delta o w E)).
    eexists. split; [reflexivity|]. simpl. tauto.
  - destruct (mirror_stake_run a netuid cfg amount hk delta o w E)
      as (w1 & Hrun & Hdb & Hs & Hp & Hl & Hq & Hst & Hem).
    rewrite (bind_some _ _ _ _ _ Hrun).
    eexists. split; [reflexivity|]. simpl. rewrite Hdb.
    unfold row_of. tauto.
Qed.

Lemma process_event_run (dry_run : bool) (cfg : config) (ev : push_event)
    (r : reply) (w : world) (i : nat) (weight amount : Q) :
  index_of (ev_hk ev) (hotkeys cfg) = Some i ->
  weights cfg !! i = Some weight ->
  sized cfg (ev_delta ev) weight = Some amount ->
  process_event dry_run cfg ev r w =
  (if lets_through cfg (paused w) (reply_balance r)
   then execute_push dry_run cfg (ev_action ev) (ev_netuid ev) (ev_hk ev)
          amount (ev_delta ev) (reply_balance r) (reply_stake r)
   else skip) (checked cfg (reply_balance r) w).
Proof.
  intros Hi Hw Hs. unfold process_event. rewrite Hi, Hw.
  unfold mbind, M_bind, or_raise, mret, M_ret.
  rewrite sizing_run, Hs, balance_run, governor_run. simpl.
  reflexivity.
Qed.

(** The realtime path either leaves the world as it is (hotkey not watched,
    or an exception before the balance query), or reaches the executor
    behind the safety block. *)
Lemma process_event_cases (dry_run : bool) (cfg : config) (ev : push_event)
    (r : reply) (w : world) :
  (exists res, process_event dry_run cfg ev r w = (res, w)) \/
  (exists i weight amount,
     index_of (ev_hk ev) (hotkeys cfg) = Some i /\
     weights cfg !! i = Some weight /\
     sized cfg (ev_delta ev) weight = Some amount /\
     process_event dry_run cfg ev r w =
     (if lets_through cfg (paused w) (reply_balance r)
      then execute_push dry_run cfg (ev_action ev) (ev_netuid ev) (ev_hk ev)
             amount (ev_delta ev) (reply_balance r) (reply_stake r)
      else skip) (checked cfg (reply_balance r) w)).
Proof.
  destruct (index_of (ev_hk ev) (hotkeys cfg)) as [i|] eqn:Hi.
  - destruct (weights cfg !! i) as [weight|] eqn:Hw.
    + destruct (sized cfg (ev_delta ev) weight) as [amount|] eqn:Hs.
      * right. exists i, weight, amount. repeat split; try assumption.
        now apply process_event_run with (i := i) (weight := weight).
      * left. exists None. unfold process_event. rewrite Hi, Hw.
        unfold mbind, M_bind, or_raise, mret, M_ret.
        now rewrite sizing_run, Hs.
    + left. exists None. unfold process_event. now rewrite Hi, Hw.
  - left. exists (Some tt). unfold process_event. now rewrite Hi.
Qed.

(** The world once the poll path has stored the new baseline. *)
Definition rebased (netuid : Z) (hk : string) (stake_val : Q) (w : world)
    : world :=
  with_last_stakes (set_baseline (last_stakes w) netuid hk stake_val) w.

Lemma rebased_quiet (netuid : Z) (hk : string) (v : Q) (w : world) :
  quiet w (rebased netuid hk v w).
Proof. unfold quiet, rebased. simpl. tauto. Qed.

Lemma poll_hotkey_run (dry_run : bool) (cfg : config) (netuid : Z)
    (mg : metagraph) (i : nat) (hk : string) (r : reply) (w : world)
    (idx : nat) (stake_val last weight amount : Q) :
  index_of hk (mg_hotkeys mg) = Some idx ->
  mg_stake mg !! idx = Some stake_val ->
  baseline (last_stakes w) netuid hk = Some last ->
  Qlt_bool (Qabs (stake_val - last)) eps = false ->
  weights cfg !! i = Some weight ->
  sized cfg (stake_val - last) weight = Some amount ->
  poll_hotkey dry_run cfg netuid mg i hk r w =
  (if lets_through cfg (paused w) (reply_balance r)
   then execute_poll dry_run cfg netuid hk amount (stake_val - last)
          (reply_balance r) (reply_stake r)
   else skip) (checked cfg (reply_balance r) (rebased netuid hk stake_val w)).
Proof.
  intros Hidx Hst Hb Hn Hw Hs. unfold poll_hotkey. rewrite Hidx, Hst.
  unfold mbind, M_bind, or_raise, mret, M_ret, swap_baseline.
  rewrite Hb, Hn, Hw. rewrite sizing_run, Hs, balance_run, governor_run.
  simpl. reflexivity.
Qed.

(** The poll path either leaves the world as it is (hotkey absent from the
    subnet), or only stores the new baseline (first sight, noise, or an
    exception after the store), or reaches the executor behind the safety
    block with the baseline already stored. *)
Lemma poll_hotkey_cases (dry_run : bool) (cfg : config) (netuid : Z)
    (mg : metagraph) (i : nat) (hk : string) (r : reply) (w : world) :
  (exists res, poll_hotkey dry_run cfg netuid mg i hk r w = (res, w)) \/
  (exists res stake_val,
     poll_hotkey dry_run cfg netuid mg i hk r w =
     (res, rebased netuid hk stake_val w)) \/
  (exists idx stake_val last weight amount,
     index_of hk (mg_hotkeys mg) = Some idx /\
     mg_stake mg !! idx = Some stake_val /\
     baseline (last_stakes w) netuid hk = Some last /\
     Qlt_bool (Qabs (stake_val - last)) eps = false /\
     weights cfg !! i = Some weight /\
     sized cfg (stake_val - last) weight = Some amount /\
     poll_hotkey dry_run cfg netuid mg i hk r w =
     (if lets_through cfg (paused w) (reply_balance r)
      then execute_poll dry_run cfg netuid hk amount (stake_val - last)
             (reply_balance r) (reply_stake r)
      else skip)
       (checked cfg (reply_balance r) (rebased netuid hk stake_val w))).
Proof.
  destruct (index_of hk (mg_hotkeys mg)) as [idx|] eqn:Hidx.
  2:{ left. exists (Some tt). unfold poll_hotkey. now rewrite Hidx. }
  destruct (mg_stake mg !! idx) as [v|] eqn:Hst.
  2:{ left. exists None. unfold poll_hotkey. now rewrite Hidx, Hst. }
  destruct (baseline (last_stakes w) netuid hk) as [last|] eqn:Hb.
  2:{ right. left. exists (Some tt), v. unfold poll_hotkey.
      rewrite Hidx, Hst.
      unfold mbind, M_bind, or_raise, mret, M_ret, swap_baseline.
      now rewrite Hb. }
  destruct (Qlt_bool (Qabs (v - last)) eps) eqn:Hn.
  { right. left. exists (Some tt), v. unfold poll_hotkey.
    rewrite Hidx, Hst.
    unfold mbind, M_bind, or_raise, mret, M_ret, swap_baseline.
    now rewrite Hb, Hn. }
  destruct (weights cfg !! i) as [weight|] eqn:Hw.
  2:{ right. left. exists None, v. unfold poll_hotkey.
      rewrite Hidx, Hst.
      unfold mbind, M_bind, or_raise, mret, M_ret, swap_baseline.
      now rewrite Hb, Hn, Hw. }
  destruct (sized cfg (v - last) weight) as [amount|] eqn:Hs.
  2:{ right. left. exists None, v. unfold poll_hotkey.
      rewrite Hidx, Hst.
      unfold mbind, M_bind, or_raise, mret, M_ret, swap_baseline.
      now rewrite Hb, Hn, Hw, sizing_run, Hs. }
  right. right. exists idx, v, last, weight, amount.
  repeat split; try assumption.
  now apply poll_hotkey_run with (idx := idx) (weight := weight).
Qed.

Lemma dry_push_run (cfg : config) (a : action) (netuid : Z) (hk : string)
    (amount delta bal : Q) (o : proc_outcome) (w : world) :
  execute_push true cfg a netuid hk amount delta bal o w =
  (Some tt, with_trace (trace w ++ [Log (LDryRun a amount netuid hk)]) w).
Proof. reflexivity. Qed.

Lemma dry_poll_run (cfg : config) (netuid : Z) (hk : string)
    (amount delta bal : Q) (o : proc_outcome) (w : world) :
  execute_poll true cfg netuid hk amount delta bal o w =
  (Some tt,
   with_trace (trace w ++
     [Log (LDryRun (if Qlt_bool 0 delta then Add else Remove) amount netuid hk)])
     w).
Proof. reflexivity. Qed.

Lemma log_quiet (l : log_line) (w : world) :
  quiet w (with_trace (trace w ++ [Log l]) w).
Proof.
  unfold quiet. simpl. rewrite stake_cmds_snoc, trade_embeds_snoc. simpl.
  rewrite !app_nil_r. tauto.
Qed.

(** ** Intents that are held back *)

(** While paused with a balance under the resume threshold, the safety
    block changes nothing and says no. *)
Lemma lets_through_paused (cfg : config) (bal : Q) :
  Qle_bool (resume_balance cfg) bal = false ->
  lets_through cfg true bal = false.
Proof. intros H. unfold lets_through. exact H. Qed.

Lemma skip_run (w : world) : skip w = (Some tt, w).
Proof. reflexivity. Qed.


Lemma process_event_dry (cfg : config) (ev : push_event) (r : reply)
    (w : world) :
  quiet w (exec (process_event true cfg ev r) w) /\
  queue (exec (process_event true cfg ev r) w) = queue w /\
  last_stakes (exec (process_event true cfg ev r) w) = last_stakes w.
Proof.
  unfold exec.
  destruct (process_event_cases true cfg ev r w)
    as [[res ->] | (i & wt & am & _ & _ & _ & ->)].
  - repeat split.
  - destruct (checked_fields cfg (reply_balance r) w) as (_ & Hcl & Hcq & _).
    destruct (lets_through cfg (paused w) (reply_balance r)).
    + rewrite dry_push_run. cbn [snd]. split; [|split; assumption].
      transitivity (checked cfg (reply_balance r) w).
      * apply checked_quiet.
      * apply log_quiet.
    + rewrite skip_run. cbn [snd].
      split; [apply checked_quiet | split; assumption].
Qed.


Lemma poll_hotkey_dry (cfg : config) (netuid : Z) (mg : metagraph) (i : nat)
    (hk : string) (r : reply) (w : world) :
  quiet w (exec (poll_hotkey true cfg netuid mg i hk r) w) /\
  queue (exec (poll_hotkey true cfg netuid mg i hk r) w) = queue w.
Proof.
  unfold exec.
  destruct (poll_hotkey_cases true cfg netuid mg i hk r w)
    as [[res ->] | [(res & v & ->) |
        (idx & v & last & wt & am & _ & _ & _ & _ & _ & _ & ->)]].
  - repeat split.
  - split; [apply rebased_quiet | reflexivity].
  - destruct (checked_fields cfg (reply_balance r) (rebased netuid hk v w))
      as (_ & _ & Hcq & _).
    assert (Hq : quiet w (checked cfg (reply_balance r) (rebased netuid hk v w))).
    { transitivity (rebased netuid hk v w);
        [apply rebased_quiet | apply checked_quiet]. }
    destruct (lets_through cfg (paused w) (reply_balance r)).
    + rewrite dry_poll_run. cbn [snd]. split; [|exact Hcq].
      etransitivity; [exact Hq | apply log_quiet].
    + rewrite skip_run. cbn [snd]. split; [exact Hq | exact Hcq].
Qed.

(** ** From one intent to the whole loop *)

Section Loop.
(** [P] is kept by every intent whose answers satisfy [fine], and says that
    the events waiting on the queue have such answers. *)
Context (P : world -> Prop) (fine : reply -> Prop).
Context (dry_run : bool) (cfg : config).

Hypothesis push_steps : forall ev r,
  fine r -> steps P quiet (process_event dry_run cfg ev r).
Hypothesis poll_steps : forall netuid mg i hk r,
  fine r -> steps P quiet (poll_hotkey dry_run cfg netuid mg i hk r).
Hypothesis P_queue : forall w,
  P w -> Forall (fun er => fine (snd er)) (queue w).
Hypothesis P_with_queue : forall w q,
  P w -> Forall (fun er => fine (snd er)) q -> P (with_queue q w).
Hypothesis P_with_trace : forall w t, P w -> P (with_trace t w).

Lemma steps_emit (e : effect) :
  is_stake e = false -> is_trade_embed e = false -> steps P quiet (emit e).
Proof.
  intros Hs He w Hw. split.
  - apply P_with_trace. exact Hw.
  - now apply emit_quiet.
Qed.

Lemma steps_drain (q : list (push_event * reply)) :
  Forall (fun er => fine (snd er)) q -> steps P quiet (drain dry_run cfg q).
Proof.
  induction q as [|[ev r] q IH]; intros Hq; simpl.
  - apply steps_skip. typeclasses eauto.
  - inversion Hq as [|? ? Hr Hq']; subst.
    apply steps_bind; [typeclasses eauto | | intros _].
    + apply steps_modify. intros w Hw. split.
      * now apply P_with_queue.
      * unfold quiet. simpl. tauto.
    + apply steps_bind; [typeclasses eauto | | intros _].
      * now apply push_steps.
      * now apply IH.
Qed.

Lemma steps_poll_hotkeys (netuid : Z) (mg : metagraph) (rs : Z -> nat -> reply)
    (hks : list string) (i : nat) :
  (forall n j, fine (rs n j)) ->
  steps P quiet (poll_hotkeys dry_run cfg netuid mg rs i hks).
Proof.
  intros Hrs. revert i. induction hks as [|hk hks IH]; intros i; simpl.
  - apply steps_skip. typeclasses eauto.
  - apply steps_bind; [typeclasses eauto | | intros _].
    + apply poll_steps, Hrs.
    + apply IH.
Qed.

Lemma steps_poll_subnets (ch : chain) (rs : Z -> nat -> reply)
    (netuids : list Z) :
  (forall n j, fine (rs n j)) ->
  steps P quiet (poll_subnets dry_run cfg ch rs netuids).
Proof.
  intros Hrs. induction netuids as [|n ns IH]; simpl.
  - apply steps_skip. typeclasses eauto.
  - apply steps_bind; [typeclasses eauto | | intros _; exact IH].
    unfold poll_subnet. destruct (mg_hotkeys (metagraph_of ch n)).
    + apply steps_skip. typeclasses eauto.
    + now apply steps_poll_hotkeys.
Qed.

Lemma steps_iteration (ch : chain) (rs : Z -> nat -> reply) :
  (forall n j, fine (rs n j)) ->
  steps P quiet (iteration dry_run cfg ch rs).
Proof.
  intros Hrs. unfold iteration. apply steps_try_except; [typeclasses eauto | |].
  - intros w Hw.
    assert (Hd : steps P quiet (drain dry_run cfg (queue w);;
                  poll_pass dry_run cfg ch rs;; save_state)).
    { apply steps_bind; [typeclasses eauto | | intros _].
      - apply steps_drain, P_queue, Hw.
      - apply steps_bind; [typeclasses eauto | | intros _].
        + now apply steps_poll_subnets.
        + intros w1 Hw1. apply (steps_emit (SaveState (last_stakes w1)));
            [reflexivity | reflexivity | exact Hw1]. }
    exact (Hd w Hw).
  - apply steps_bind; [typeclasses eauto | | intros _].
    + now apply steps_emit.
    + unfold notify_text. destruct (truthy (live_webhook cfg)).
      * now apply steps_emit.
      * apply steps_skip. typeclasses eauto.
Qed.

(** A turn whose events and poll answers are all [fine]. *)
Definition fine_turn (t : turn) : Prop :=
  Forall (fun er => fine (snd er)) (arrivals t) /\
  forall n j, fine (poll_replies t n j).

Lemma steps_run_loop (ts : list turn) :
  Forall fine_turn ts -> steps P quiet (run_loop dry_run cfg ts).
Proof.
  induction ts as [|t ts IH]; intros Hts; simpl.
  - apply steps_skip. typeclasses eauto.
  - inversion Hts as [|? ? [Ha Hr] Hts']; subst.
    apply steps_bind; [typeclasses eauto | | intros _].
    + apply steps_modify. intros w Hw. split.
      * apply P_with_queue; [exact Hw|].
        apply Forall_app. split; [now apply P_queue | exact Ha].
      * unfold quiet. simpl. tauto.
    + apply steps_bind; [typeclasses eauto | | intros _].
      * now apply steps_iteration.
      * now apply IH.
Qed.
End Loop.

(** ** The executor (claims C1 and C2) *)

Lemma execute_push_live (cfg : config) (a : action) (netuid : Z) (hk : string)
    (amount delta bal : Q) (o : proc_outcome) :
  execute_push false cfg a netuid hk amount delta bal o =
  (mirror_stake a netuid cfg amount hk delta o;;
   log_trade_to_db a netuid hk amount delta bal).
Proof. reflexivity. Qed.

(** In the poll path the executor is the one of the realtime path, called
    with the action the sign of the delta selects. *)
Lemma execute_poll_as_push (dry_run : bool) (cfg : config) (netuid : Z)
    (hk : string) (amount delta bal : Q) (o : proc_outcome) :
  execute_poll dry_run cfg netuid hk amount delta bal o =
  execute_push dry_run cfg (if Qlt_bool 0 delta then Add else Remove)
    netuid hk amount delta bal o.
Proof.
  unfold execute_poll, execute_push.
  destruct dry_run; [reflexivity|]. now destruct (Qlt_bool 0 delta).
Qed.

Definition sample_reply (bal : Q) (o : proc_outcome) : reply :=
  {| reply_balance := bal; reply_stake := o |}.

(** C1, counterexample: [btcli stake add] exits with status 1 (and likewise
    times out, or is not found), yet the row is written and the trade is
    counted. *)
Lemma C1_failed_tool_still_recorded :
  let failed (o : proc_outcome) :=
    exec (process_event false cfg0 evA (sample_reply 10 o)) w0 in
  (db (failed (Exited 1 "" "boom")) = [row_of Add 7 "hkA" (10 # 2) 10 10] /\
   trades (summ (failed (Exited 1 "" "boom"))) = 1%Z /\
   trade_embeds (trace (failed (Exited 1 "" "boom"))) =
     [TradeEmbed Add 7 "hkA" (10 # 2) 10]) /\
  (length (db (failed TimedOut)) = 1%nat /\
   trades (summ (failed TimedOut)) = 1%Z) /\
  (length (db (failed NotFound)) = 1%nat /\
   trades (summ (failed NotFound)) = 1%Z).
Proof. vm_compute. repeat split. Qed.

(** C1, as the code has it: for an intent with a positive amount that has
    reached the executor outside dry-run, in either path, the row is
    appended, the counters are moved and the trade embed is sent (when a
    live webhook is set) however the btcli process ends: exit status zero or
    not, timeout, executable not found. *)
Theorem C1_recorded_whatever_the_exit (cfg : config) (a : action) (netuid : Z)
    (hk : string) (amount delta bal : Q) (o : proc_outcome) (w : world) :
  (0 < amount)%Q ->
  let w' := exec (execute_push false cfg a netuid hk amount delta bal o) w in
  let a' := if Qlt_bool 0 delta then Add else Remove in
  let w'' := exec (execute_poll false cfg netuid hk amount delta bal o) w in
  (db w' = db w ++ [row_of a netuid hk amount delta bal] /\
   summ w' = bump a netuid amount (summ w) /\
   stake_cmds (trace w') =
     stake_cmds (trace w) ++ [Popen (CmdStake a netuid amount)] /\
   trade_embeds (trace w') =
     trade_embeds (trace w) ++
     (if truthy (live_webhook cfg)
      then [TradeEmbed a netuid hk amount delta] else [])) /\
  (db w'' = db w ++ [row_of a' netuid hk amount delta bal] /\
   summ w'' = bump a' netuid amount (summ w) /\
   stake_cmds (trace w'') =
     stake_cmds (trace w) ++ [Popen (CmdStake a' netuid amount)] /\
   trade_embeds (trace w'') =
     trade_embeds (trace w) ++
     (if truthy (live_webhook cfg)
      then [TradeEmbed a' netuid hk amount delta] else [])).
Proof.
  intros Hpos. apply Qle_bool_false_iff in Hpos.
  cbv zeta. rewrite execute_poll_as_push, !execute_push_live. unfold exec.
  split.
  - destruct (mirror_and_log a netuid cfg amount hk delta bal o w)
      as (w1 & -> & Hdb & _ & _ & _ & Hrest).
    rewrite Hpos in Hrest. simpl. tauto.
  - destruct (mirror_and_log (if Qlt_bool 0 delta then Add else Remove)
                netuid cfg amount hk delta bal o w)
      as (w1 & -> & Hdb & _ & _ & _ & Hrest).
    rewrite Hpos in Hrest. simpl. tauto.
Qed.

Lemma C1_recorded_whatever_the_exit_witness :
  (0 < 5)%Q /\
  db (exec (execute_push false cfg0 Add 7 "hkA" 5 10 10 TimedOut) w0) =
    [row_of Add 7 "hkA" 5 10 10].
Proof.
  split; [reflexivity|].
  exact (proj1 (proj1
    (C1_recorded_whatever_the_exit cfg0 Add 7 "hkA" 5 10 10 TimedOut w0
       eq_refl))).
Defined.

(** A configuration whose fixed amount is zero. *)
Definition cfg_zero : config :=
  {| network := "finney"; my_wallet := "mine"; fixed_amount := Some 0;
     hotkeys := ["hkA"; "hkB"]%string; weights := [1 # 2; 1];
     poll_seconds := 30%Z; trade_mode := "fixed";
     live_webhook := "https://live"; summary_webhook := "https://sum";
     low_balance := 1; resume_balance := 2; btcli_path := "btcli" |}.

(** An amount that is not positive stops [mirror_stake] at its first line,
    but not the ledger write that follows the call. *)
Lemma nonpositive_amount_is_logged (cfg : config) (a : action) (netuid : Z)
    (hk : string) (amount delta bal : Q) (o : proc_outcome) (w : world) :
  (amount <= 0)%Q ->
  let w' := exec (execute_push false cfg a netuid hk amount delta bal o) w in
  db w' = db w ++ [row_of a netuid hk amount delta bal] /\
  summ w' = summ w /\ trace w' = trace w.
Proof.
  intros Hle. apply Qle_bool_iff in Hle. cbv zeta.
  rewrite execute_push_live. unfold exec.
  destruct (mirror_and_log a netuid cfg amount hk delta bal o w)
    as (w1 & -> & Hdb & _ & _ & _ & Hrest).
  rewrite Hle in Hrest. simpl. tauto.
Qed.

(** C2, the code at the failing input: the fixed amount is 0, the event is
    for a watched hotkey and the balance is ample.  No [btcli stake] process
    is started, no trade embed is sent and the counters stay at zero, but a
    row with amount 0 is written to the ledger. *)
Theorem C2_row_written_for_zero_amount :
  let w' := exec (process_event false cfg_zero evA
                    (sample_reply 10 (Exited 0 "" ""))) w0 in
  stake_cmds (trace w') = [] /\
  trade_embeds (trace w') = [] /\
  summ w' = empty_summary /\
  db w' = [row_of Add 7 "hkA" 0 10 10].
Proof. vm_compute. repeat split. Qed.

(** ** The baseline (claim C3) *)

(** C3, counterexample: with no baseline at all, an event of the realtime
    channel for a watched hotkey is mirrored at once (a [btcli stake]
    process, a ledger row), and no baseline is recorded for its key. *)
Lemma C3_first_push_event_is_traded :
  let w' := exec (process_event false cfg0 evA
                    (sample_reply 10 (Exited 0 "" ""))) w0 in
  baseline (last_stakes w0) 7 "hkA" = None /\
  stake_cmds (trace w') = [Popen (CmdStake Add 7 (10 # 2))] /\
  db w' = [row_of Add 7 "hkA" (10 # 2) 10 10] /\
  baseline (last_stakes w') 7 "hkA" = None.
Proof. vm_compute. repeat split. Qed.

(** C3, as the code has it: in the poll path, the first stake seen for a
    (subnet, hotkey) key is stored as its baseline and nothing else happens:
    no balance query, no notification, no process, no row, no counter; the
    baseline of every other key is left as it was. *)
Theorem C3_first_poll_sight_sets_baseline (dry_run : bool) (cfg : config)
    (netuid : Z) (mg : metagraph) (i : nat) (hk : string) (r : reply)
    (w : world) (idx : nat) (stake_val : Q) :
  index_of hk (mg_hotkeys mg) = Some idx ->
  mg_stake mg !! idx = Some stake_val ->
  baseline (last_stakes w) netuid hk = None ->
  let w' := exec (poll_hotkey dry_run cfg netuid mg i hk r) w in
  fst (poll_hotkey dry_run cfg netuid mg i hk r w) = Some tt /\
  baseline (last_stakes w') netuid hk = Some stake_val /\
  (forall n' hk', (netuid, hk) <> (n', hk') ->
     baseline (last_stakes w') n' hk' = baseline (last_stakes w) n' hk') /\
  trace w' = trace w /\ db w' = db w /\ summ w' = summ w /\
  paused w' = paused w /\ queue w' = queue w.
Proof.
  intros Hidx Hst Hb. cbv zeta. unfold exec, poll_hotkey.
  rewrite Hidx, Hst.
  unfold mbind, M_bind, or_raise, mret, M_ret, swap_baseline.
  rewrite Hb. simpl. split; [reflexivity|].
  split; [apply baseline_set_same|].
  split; [intros n' hk' Hne; now apply baseline_set_other|].
  tauto.
Qed.

Definition mg7 : metagraph :=
  {| mg_hotkeys := ["hkZ"; "hkA"]%string; mg_stake := [3; 110] |}.

Lemma C3_first_poll_sight_sets_baseline_witness :
  baseline (last_stakes
    (exec (poll_hotkey false cfg0 7 mg7 0 "hkA"
             (sample_reply 10 (Exited 0 "" ""))) w0)) 7 "hkA" = Some 110.
Proof.
  exact (proj1 (proj2
    (C3_first_poll_sight_sets_baseline false cfg0 7 mg7 0 "hkA"
       (sample_reply 10 (Exited 0 "" "")) w0 1 110
       eq_refl eq_refl eq_refl))).
Defined.

(** ** Sizing and the action (claim C4) *)




(** A world whose baseline for [hkA] on subnet 7 is 100. *)
Definition w100 : world :=
  with_last_stakes (set_baseline ∅ 7 "hkA" 100) w0.

(** Scenario A of the specification: weight 0.5, mode proportional, observed
    delta +10: the mirrored amount is 5 and the action is add. *)
Example scenario_A :
  let w' := exec (poll_hotkey false cfg0 7 mg7 0 "hkA"
                    (sample_reply 10 (Exited 0 "" ""))) w100 in
  stake_cmds (trace w') = [Popen (CmdStake Add 7 (10 # 2))] /\
  (10 # 2 == 5)%Q.
Proof. split; [vm_compute; reflexivity | reflexivity]. Qed.

(** ** The safety block while paused (claim C5) *)






(** A chain of eight subnets; only subnet 7 lists hotkeys. *)
Definition chain7 : chain :=
  {| subnet_count := 8;
     metagraph_of := fun n =>
       if Z.eqb n 7 then mg7
       else {| mg_hotkeys := []; mg_stake := [] |} |}.

(** One turn: an event for [hkA] on the queue and a poll pass that sees its
    stake at 110, every balance query answering [bal]. *)
Definition turn_at (bal : Q) : turn :=
  {| arrivals := [(evA, sample_reply bal (Exited 0 "" ""))];
     chain_now := chain7;
     poll_replies := fun _ _ => sample_reply bal (Exited 0 "" "") |}.




(** Scenario B of the specification: balance 0.8 under low = 1.0 pauses the
    loop and the delta is dropped; a later delta with balance 2.5 over
    resume = 2.0 resumes it and is executed. *)
Example scenario_B :
  let w1 := exec (process_event false cfg0 evA
                    (sample_reply (8 # 10) (Exited 0 "" ""))) w0 in
  let w2 := exec (process_event false cfg0 evA
                    (sample_reply (25 # 10) (Exited 0 "" ""))) w1 in
  (paused w1 = true /\ db w1 = [] /\ stake_cmds (trace w1) = []) /\
  (paused w2 = false /\ db w2 = [row_of Add 7 "hkA" (10 # 2) 10 (25 # 10)] /\
   stake_cmds (trace w2) = [Popen (CmdStake Add 7 (10 # 2))]).
Proof. vm_compute. repeat split. Qed.

(** ** The trend of the first report (claim C6) *)

(** C6, counterexample: no [last_balance.json] exists and the balance is 5;
    the report shows a change of 5 ("+5.0000 TAO since last report"), not
    0. *)
Lemma C6_first_report_trend_not_zero :
  let w' := exec (send_summary_embed cfg0 empty_summary 5) w0 in
  last_balance_json w0 = TfMissing /\
  last (trace w') =
    Some (SummaryEmbed {| rep_trades := 0; rep_subnets := 0; rep_add := 0;
                          rep_rem := 0; rep_net := 0; rep_balance := 5;
                          rep_delta_bal := 5; rep_trend := Up 5 |}) /\
  ~ (5 == 0)%Q.
Proof.
  cbv zeta. split; [reflexivity|]. split; [vm_compute; reflexivity|].
  intros H. discriminate H.
Qed.

(** C6, as the code has it: when a report is sent and no earlier report has
    left a [last_balance.json], the last balance counts as 0, so the change
    reported is the balance itself; the balance is then stored for the next
    report. *)
Theorem C6_first_report_trend_is_balance (cfg : config) (s : summary)
    (bal : Q) (w : world) :
  truthy (summary_webhook cfg) = true ->
  last_balance_json w = TfMissing ->
  let w' := exec (send_summary_embed cfg s bal) w in
  exists rep,
    trace w' = trace w ++ [Log LFetchBalance; Log (LCmd CmdBalance);
                           Popen CmdBalance; SummaryEmbed rep] /\
    rep_balance rep = bal /\
    rep_delta_bal rep = bal - 0 /\
    (rep_delta_bal rep == bal)%Q /\
    rep_trend rep = trend_of (bal - 0) /\
    last_balance_json w' = TfJson (Some bal).
Proof.
  intros Hweb Hfile. cbv zeta. unfold exec, send_summary_embed.
  rewrite Hweb. unfold mbind, M_bind. rewrite balance_run.
  unfold get_last_balance_json, modify, post_embed, emit, modify.
  rewrite Hweb. simpl. rewrite Hfile. simpl.
  eexists. split; [rewrite <- app_assoc; reflexivity|]. simpl.
  repeat split. unfold Qminus. rewrite Qplus_0_r. reflexivity.
Qed.

Lemma C6_first_report_trend_is_balance_witness :
  exists rep,
    trace (exec (send_summary_embed cfg0 empty_summary 5) w0) =
      trace w0 ++ [Log LFetchBalance; Log (LCmd CmdBalance);
                   Popen CmdBalance; SummaryEmbed rep] /\
    rep_balance rep = 5 /\
    rep_delta_bal rep = 5 - 0 /\
    (rep_delta_bal rep == 5)%Q /\
    rep_trend rep = trend_of (5 - 0) /\
    last_balance_json (exec (send_summary_embed cfg0 empty_summary 5) w0) =
      TfJson (Some 5).
Proof.
  exact (C6_first_report_trend_is_balance cfg0 empty_summary 5 w0
           eq_refl eq_refl).
Defined.

(** ** Thresholds in [setup] and [run] (claim C7) *)

(** Answers to [setup] with the resume threshold under the low threshold. *)
Definition answers_flap : answers :=
  {| ans_network := ""; ans_wallet := "mine"; ans_amt := Some (1 # 10);
     ans_hotkeys := [("hkA"%string, Some (1 # 2)); ("hkB"%string, None)];
     ans_poll := None; ans_mode := "proportional";
     ans_live := "https://live"; ans_summary := "https://sum";
     ans_low := Some 2; ans_resume := Some 1; ans_which := None |}.

Definition disk_of (cfg : config) : disk :=
  {| config_file := Some cfg; state_file := Some ∅; db_file := [];
     trend_json := TfMissing |}.

(** C7, counterexample: [setup] is answered low = 2 and resume = 1.  It
    saves that configuration and logs only "Setup complete."; [run] starts
    from it, and trades with it: at balance 1.5 the loop pauses and resumes
    within one event, which is mirrored. *)
Lemma C7_inverted_thresholds_accepted :
  let cfg := setup_config answers_flap in
  (resume_balance cfg < low_balance cfg)%Q /\
  setup answers_flap w0 =
    (Some cfg,
     with_trace [SaveConfig cfg; SaveState ∅; Log LSetupComplete;
                 NotifySetup 2; NotifySummaryInit] w0) /\
  (db <$> run false false (disk_of cfg) 0 [turn_at (3 # 2)]) =
    Some [row_of Add 7 "hkA" (10 # 2) 10 (3 # 2)].
Proof.
  cbv zeta. split; [reflexivity|].
  split; vm_compute; reflexivity.
Qed.

(** ** Dry-run (claim C8) *)

(** In dry-run the loop, over any events and poll passes, writes no ledger
    row, moves no counter, starts no [btcli stake] process and sends no
    trade embed; where the other mode would call the executor, the only
    thing done is to log the action that would have been taken. *)
Lemma dry_run_loop_is_quiet (cfg : config) (ts : list turn) (w : world) :
  let w' := exec (run_loop true cfg ts) w in
  (db w' = db w /\ summ w' = summ w /\
   stake_cmds (trace w') = stake_cmds (trace w) /\
   trade_embeds (trace w') = trade_embeds (trace w)) /\
  (forall a netuid hk amount delta bal o w1,
     execute_push true cfg a netuid hk amount delta bal o w1 =
     (Some tt,
      with_trace (trace w1 ++ [Log (LDryRun a amount netuid hk)]) w1)) /\
  (forall netuid hk amount delta bal o w1,
     execute_poll true cfg netuid hk amount delta bal o w1 =
     (Some tt,
      with_trace
        (trace w1 ++
         [Log (LDryRun (if Qlt_bool 0 delta then Add else Remove)
                 amount netuid hk)]) w1)).
Proof.
  cbv zeta. split; [|split].
  - assert (Hloop : steps (fun _ => True) quiet (run_loop true cfg ts)).
    { apply steps_run_loop with (fine := fun _ => True).
      - intros ev r _ w1 _. split; [exact I|].
        apply process_event_dry.
      - intros netuid mg i hk r _ w1 _. split; [exact I|].
        apply poll_hotkey_dry.
      - intros w1 _. apply Forall_forall. intros; exact I.
      - intros; exact I.
      - intros; exact I.
      - apply Forall_forall. intros t _. split.
        + apply Forall_forall. intros; exact I.
        + intros; exact I. }
    exact (proj2 (Hloop w I)).
  - intros. apply dry_push_run.
  - intros. apply dry_poll_run.
Qed.

(** A configuration in mode "fixed" with amount 0.1. *)
Definition cfg_fixed : config :=
  {| network := "finney"; my_wallet := "mine"; fixed_amount := Some (1 # 10);
     hotkeys := ["hkA"; "hkB"]%string; weights := [1 # 2; 1];
     poll_seconds := 30%Z; trade_mode := "fixed";
     live_webhook := "https://live"; summary_webhook := "https://sum";
     low_balance := 1; resume_balance := 2; btcli_path := "btcli" |}.

(** Scenario C of the specification: dry-run, delta -3, fixed amount 0.1:
    the log has the intended "remove 0.1", no row is written and no
    [btcli stake] process is started. *)
Example scenario_C :
  let mg := {| mg_hotkeys := ["hkA"%string]; mg_stake := [97] |} in
  let w' := exec (poll_hotkey true cfg_fixed 7 mg 0 "hkA"
                    (sample_reply 10 (Exited 0 "" ""))) w100 in
  last (trace w') = Some (Log (LDryRun Remove (1 # 10) 7 "hkA")) /\
  db w' = [] /\ stake_cmds (trace w') = [] /\ summ w' = empty_summary.
Proof. vm_compute. repeat split. Qed.

(** ** The realtime path and the baseline (claim C9) *)

(** [blind m]: [m] runs the same whatever the baseline map holds, and
    leaves that map as it found it. *)
Definition blind {A : Type} (m : M A) : Prop :=
  forall g w,
    m (with_last_stakes g w) = (fst (m w), with_last_stakes g (snd (m w))).


Lemma blind_skip : blind skip.
Proof. intros g w. reflexivity. Qed.



Lemma blind_modify (f : world -> world) :
  (forall g w, f (with_last_stakes g w) = with_last_stakes g (f w)) ->
  blind (modify f).
Proof. intros H g w. unfold modify. simpl. now rewrite H. Qed.

Lemma blind_emit (e : effect) : blind (emit e).
Proof. apply blind_modify. reflexivity. Qed.

Lemma blind_notify (webhook : string) (e : effect) :
  blind (notify_text webhook e).
Proof.
  unfold notify_text. destruct (truthy webhook);
    [apply blind_emit | apply blind_skip].
Qed.





Lemma with_last_stakes_same (w : world) : with_last_stakes (last_stakes w) w = w.
Proof. now destruct w. Qed.



Lemma sizing_sized (cfg : config) (delta weight amount : Q) (w : world) :
  fst (sizing cfg delta weight w) = Some amount ->
  sized cfg delta weight = Some amount.
Proof. now rewrite sizing_run. Qed.



(** ** The intents at a transition (claim C10) *)

Definition cfg_flap : config := setup_config answers_flap.

(** C10, counterexample: low = 2 and resume = 1.  At balance 1.5 the loop,
    not paused, sets [paused] and sends the "Paused" notification, then
    resumes in the same pass; the event whose balance query set off the
    pause is mirrored, not dropped. *)
Lemma C10_pausing_intent_mirrored :
  let w' := exec (process_event false cfg_flap evA
                    (sample_reply (3 # 2) (Exited 0 "" ""))) w0 in
  paused w0 = false /\
  trace w' =
    [Log LFetchBalance; Log (LCmd CmdBalance); Popen CmdBalance;
     NotifyPaused (3 # 2); NotifyResumed (3 # 2);
     Log (LCmd (CmdStake Add 7 (10 # 2))); Popen (CmdStake Add 7 (10 # 2));
     Log (LTrade Add (10 # 2) 7 "hkA" 10);
     TradeEmbed Add 7 "hkA" (10 # 2) 10] /\
  db w' = [row_of Add 7 "hkA" (10 # 2) 10 (3 # 2)].
Proof. vm_compute. repeat split. Qed.

Lemma lets_through_pausing (cfg : config) (bal : Q) :
  (bal < low_balance cfg)%Q -> (bal < resume_balance cfg)%Q ->
  lets_through cfg false bal = false.
Proof.
  intros Hl Hr. unfold lets_through.
  apply Qlt_bool_iff in Hl. apply Qle_bool_false_iff in Hr.
  now rewrite Hl, Hr.
Qed.

Lemma lets_through_resuming (cfg : config) (bal : Q) :
  (resume_balance cfg <= bal)%Q -> lets_through cfg true bal = true.
Proof. intros Hr. unfold lets_through. now apply Qle_bool_iff. Qed.

(** C10, as the code has it, for both paths and outside dry-run.  An intent
    that finds the loop not paused and a balance under the low threshold is
    dropped, and the loop is left paused, when that balance is also under
    the resume threshold.  An intent that finds the loop paused and a
    balance at or over the resume threshold resumes it and, its amount being
    positive, is mirrored in the same pass. *)
Theorem C10_intents_at_transitions (cfg : config) (w : world) :
  (forall ev r i weight amount,
     index_of (ev_hk ev) (hotkeys cfg) = Some i ->
     weights cfg !! i = Some weight ->
     fst (sizing cfg (ev_delta ev) weight w) = Some amount ->
     let w' := exec (process_event false cfg ev r) w in
     (paused w = false ->
      (reply_balance r < low_balance cfg)%Q ->
      (reply_balance r < resume_balance cfg)%Q ->
      paused w' = true /\ db w' = db w /\ summ w' = summ w /\
      stake_cmds (trace w') = stake_cmds (trace w) /\
      trade_embeds (trace w') = trade_embeds (trace w)) /\
     (paused w = true ->
      (resume_balance cfg <= reply_balance r)%Q ->
      (0 < amount)%Q ->
      paused w' = false /\
      db w' = db w ++ [row_of (ev_action ev) (ev_netuid ev) (ev_hk ev) amount
                         (ev_delta ev) (reply_balance r)] /\
      summ w' = bump (ev_action ev) (ev_netuid ev) amount (summ w) /\
      stake_cmds (trace w') =
        stake_cmds (trace w) ++
        [Popen (CmdStake (ev_action ev) (ev_netuid ev) amount)])) /\
  (forall netuid mg i hk r idx stake_val last weight amount,
     index_of hk (mg_hotkeys mg) = Some idx ->
     mg_stake mg !! idx = Some stake_val ->
     baseline (last_stakes w) netuid hk = Some last ->
     (eps <= Qabs (stake_val - last))%Q ->
     weights cfg !! i = Some weight ->
     fst (sizing cfg (stake_val - last) weight w) = Some amount ->
     let w' := exec (poll_hotkey false cfg netuid mg i hk r) w in
     let a := if Qlt_bool 0 (stake_val - last) then Add else Remove in
     (paused w = false ->
      (reply_balance r < low_balance cfg)%Q ->
      (reply_balance r < resume_balance cfg)%Q ->
      paused w' = true /\ db w' = db w /\ summ w' = summ w /\
      stake_cmds (trace w') = stake_cmds (trace w) /\
      trade_embeds (trace w') = trade_embeds (trace w)) /\
     (paused w = true ->
      (resume_balance cfg <= reply_balance r)%Q ->
      (0 < amount)%Q ->
      paused w' = false /\
      db w' = db w ++ [row_of a netuid hk amount (stake_val - last)
                         (reply_balance r)] /\
      summ w' = bump a netuid amount (summ w) /\
      stake_cmds (trace w') =
        stake_cmds (trace w) ++ [Popen (CmdStake a netuid amount)])).
Proof.
  split.
  - intros ev r i weight amount Hi Hw Hs. cbv zeta.
    apply sizing_sized in Hs. unfold exec.
    rewrite (process_event_run false cfg ev r w i weight amount Hi Hw Hs).
    destruct (checked_quiet cfg (reply_balance r) w)
      as (Hcdb & Hcs & Hcst & Hcem).
    destruct (checked_fields cfg (reply_balance r) w) as (Hcp & _).
    split.
    + intros Hp Hl Hr. rewrite Hp in *.
      rewrite (lets_through_pausing cfg _ Hl Hr) in *.
      rewrite skip_run. cbn [snd]. rewrite Hcp. tauto.
    + intros Hp Hr Hpos. rewrite Hp in *.
      rewrite (lets_through_resuming cfg _ Hr) in *.
      apply Qle_bool_false_iff in Hpos. rewrite execute_push_live.
      destruct (mirror_and_log (ev_action ev) (ev_netuid ev) cfg amount
                  (ev_hk ev) (ev_delta ev) (reply_balance r) (reply_stake r)
                  (checked cfg (reply_balance r) w))
        as (w2 & -> & Hdb & Hp2 & _ & _ & Hrest).
      rewrite Hpos in Hrest. destruct Hrest as (Hs2 & Hst2 & _). cbn [snd].
      rewrite Hp2, Hcp, Hdb, Hcdb, Hs2, Hcs, Hst2, Hcst. tauto.
  - intros netuid mg i hk r idx v last weight amount Hidx Hst Hb Hn Hw Hs.
    cbv zeta. apply sizing_sized in Hs. apply Qlt_bool_false_iff in Hn.
    unfold exec.
    rewrite (poll_hotkey_run false cfg netuid mg i hk r w idx v last weight
               amount Hidx Hst Hb Hn Hw Hs).
    assert (Hq : quiet w (checked cfg (reply_balance r) (rebased netuid hk v w))).
    { transitivity (rebased netuid hk v w);
        [apply rebased_quiet | apply checked_quiet]. }
    destruct Hq as (Hcdb & Hcs & Hcst & Hcem).
    destruct (checked_fields cfg (reply_balance r) (rebased netuid hk v w))
      as (Hcp & _).
    change (paused (rebased netuid hk v w)) with (paused w) in Hcp.
    split.
    + intros Hp Hl Hr. rewrite Hp in *.
      rewrite (lets_through_pausing cfg _ Hl Hr) in *.
      rewrite skip_run. cbn [snd]. rewrite Hcp. tauto.
    + intros Hp Hr Hpos. rewrite Hp in *.
      rewrite (lets_through_resuming cfg _ Hr) in *.
      apply Qle_bool_false_iff in Hpos.
      rewrite execute_poll_as_push, execute_push_live.
      destruct (mirror_and_log (if Qlt_bool 0 (v - last) then Add else Remove)
                  netuid cfg amount hk (v - last) (reply_balance r)
                  (reply_stake r)
                  (checked cfg (reply_balance r) (rebased netuid hk v w)))
        as (w2 & -> & Hdb & Hp2 & _ & _ & Hrest).
      rewrite Hpos in Hrest. destruct Hrest as (Hs2 & Hst2 & _). cbn [snd].
      rewrite Hp2, Hcp, Hdb, Hcdb, Hs2, Hcs, Hst2, Hcst. tauto.
Qed.

Lemma C10_intents_at_transitions_witness :
  (let w' := exec (process_event false cfg0 evA
                     (sample_reply (8 # 10) (Exited 0 "" ""))) w0 in
   paused w' = true /\ db w' = db w0 /\ summ w' = summ w0 /\
   stake_cmds (trace w') = stake_cmds (trace w0) /\
   trade_embeds (trace w') = trade_embeds (trace w0)) /\
  (let w' := exec (process_event false cfg0 evA
                     (sample_reply (25 # 10) (Exited 0 "" "")))
               (with_paused true w0) in
   paused w' = false /\
   db w' = db (with_paused true w0) ++
           [row_of Add 7 "hkA" (10 # 2) 10 (25 # 10)] /\
   summ w' = bump Add 7 (10 # 2) (summ (with_paused true w0)) /\
   stake_cmds (trace w') =
     stake_cmds (trace (with_paused true w0)) ++
     [Popen (CmdStake Add 7 (10 # 2))]).
Proof.
  split.
  - refine (proj1 (proj1 (C10_intents_at_transitions cfg0 w0) evA
      (sample_reply (8 # 10) (Exited 0 "" "")) 0%nat (1 # 2) (10 # 2)
      _ _ _) _ _ _); reflexivity.
  - refine (proj2 (proj1 (C10_intents_at_transitions cfg0 (with_paused true w0))
      evA (sample_reply (25 # 10) (Exited 0 "" "")) 0%nat (1 # 2) (10 # 2)
      _ _ _) _ _ _); try reflexivity.
    vm_compute. discriminate.
Defined.

(** * Further properties of the loop *)

(** ** Lifting a property of the pieces to the whole loop *)

Section Atoms.
(** A preorder [R] that each piece of the loop body respects is respected
    by every turn and by the loop. *)
Context (R : relation world) `{!PreOrder R}.
Context (dry_run : bool) (cfg : config).

Hypothesis at_log : forall l, steps (fun _ => True) R (log l).
Hypothesis at_balance : forall bal,
  steps (fun _ => True) R (get_wallet_balance_via_btcli cfg bal).
Hypothesis at_governor : forall bal,
  steps (fun _ => True) R (governor cfg bal).
Hypothesis at_swap : forall n hk v,
  steps (fun _ => True) R (swap_baseline n hk v).
Hypothesis at_mirror : forall a n hk amount delta bal o,
  steps (fun _ => True) R
    (mirror_stake a n cfg amount hk delta o;;
     log_trade_to_db a n hk amount delta bal).
Hypothesis at_queue : forall q,
  steps (fun _ => True) R (modify (with_queue q)).
Hypothesis at_enqueue : forall evs, steps (fun _ => True) R (enqueue evs).
Hypothesis at_save : steps (fun _ => True) R save_state.
Hypothesis at_notify_error :
  steps (fun _ => True) R (notify_text (live_webhook cfg) NotifyLoopError).

Lemma all_sizing (delta weight : Q) :
  steps (fun _ => True) R (sizing cfg delta weight).
Proof.
  intros w _. split; [exact I|]. unfold exec. rewrite sizing_run. reflexivity.
Qed.

Lemma all_execute_push (a : action) (netuid : Z) (hk : string)
    (amount delta bal : Q) (o : proc_outcome) :
  steps (fun _ => True) R
    (execute_push dry_run cfg a netuid hk amount delta bal o).
Proof.
  unfold execute_push. destruct dry_run; [apply at_log | apply at_mirror].
Qed.

Lemma all_execute_poll (netuid : Z) (hk : string) (amount delta bal : Q)
    (o : proc_outcome) :
  steps (fun _ => True) R
    (execute_poll dry_run cfg netuid hk amount delta bal o).
Proof. rewrite execute_poll_as_push. apply all_execute_push. Qed.

Lemma all_process_event (ev : push_event) (r : reply) :
  steps (fun _ => True) R (process_event dry_run cfg ev r).
Proof.
  unfold process_event.
  destruct (index_of _ _) as [i|]; [|now apply steps_skip].
  apply steps_bind; [assumption | now apply steps_or_raise | intros weight].
  apply steps_bind; [assumption | apply all_sizing | intros amount].
  apply steps_bind; [assumption | apply at_balance | intros bal].
  apply steps_bind; [assumption | apply at_governor | intros [|]].
  - apply all_execute_push.
  - now apply steps_skip.
Qed.

Lemma all_poll_hotkey (netuid : Z) (mg : metagraph) (i : nat) (hk : string)
    (r : reply) :
  steps (fun _ => True) R (poll_hotkey dry_run cfg netuid mg i hk r).
Proof.
  unfold poll_hotkey.
  destruct (index_of _ _) as [idx|]; [|now apply steps_skip].
  apply steps_bind; [assumption | now apply steps_or_raise | intros v].
  apply steps_bind; [assumption | apply at_swap | intros [last|]];
    [|now apply steps_skip].
  destruct (Qlt_bool _ eps); [now apply steps_skip|].
  apply steps_bind; [assumption | now apply steps_or_raise | intros weight].
  apply steps_bind; [assumption | apply all_sizing | intros amount].
  apply steps_bind; [assumption | apply at_balance | intros bal].
  apply steps_bind; [assumption | apply at_governor | intros [|]].
  - apply all_execute_poll.
  - now apply steps_skip.
Qed.

Lemma all_drain (q : list (push_event * reply)) :
  steps (fun _ => True) R (drain dry_run cfg q).
Proof.
  induction q as [|[ev r] q IH]; simpl; [now apply steps_skip|].
  apply steps_bind; [assumption | apply at_queue | intros _].
  apply steps_bind; [assumption | apply all_process_event | intros _].
  exact IH.
Qed.

Lemma all_poll_hotkeys (netuid : Z) (mg : metagraph) (rs : Z -> nat -> reply)
    (hks : list string) (i : nat) :
  steps (fun _ => True) R (poll_hotkeys dry_run cfg netuid mg rs i hks).
Proof.
  revert i. induction hks as [|hk hks IH]; intros i; simpl;
    [now apply steps_skip|].
  apply steps_bind; [assumption | apply all_poll_hotkey | intros _].
  apply IH.
Qed.

Lemma all_poll_pass (ch : chain) (rs : Z -> nat -> reply) :
  steps (fun _ => True) R (poll_pass dry_run cfg ch rs).
Proof.
  unfold poll_pass.
  induction (Z.of_nat <$> seq 0 (subnet_count ch)) as [|n ns IH]; simpl;
    [now apply steps_skip|].
  apply steps_bind; [assumption | | intros _; exact IH].
  unfold poll_subnet. destruct (mg_hotkeys (metagraph_of ch n));
    [now apply steps_skip | apply all_poll_hotkeys].
Qed.

Lemma all_iteration (ch : chain) (rs : Z -> nat -> reply) :
  steps (fun _ => True) R (iteration dry_run cfg ch rs).
Proof.
  unfold iteration. apply steps_try_except; [assumption | |].
  - apply steps_bind; [assumption | | intros q].
    { intros w _. split; [exact I | reflexivity]. }
    apply steps_bind; [assumption | apply all_drain | intros _].
    apply steps_bind; [assumption | apply all_poll_pass | intros _].
    apply at_save.
  - apply steps_bind; [assumption | apply at_log | intros _].
    apply at_notify_error.
Qed.

Lemma all_run_loop (ts : list turn) :
  steps (fun _ => True) R (run_loop dry_run cfg ts).
Proof.
  induction ts as [|t ts IH]; simpl; [now apply steps_skip|].
  apply steps_bind; [assumption | apply at_enqueue | intros _].
  apply steps_bind; [assumption | apply all_iteration | intros _].
  exact IH.
Qed.
End Atoms.

(** ** The ledger and the counters over a run *)

(** The [btcli stake] processes started so far, and the rows written. *)
Definition n_stakes (w : world) : Z := Z.of_nat (length (stake_cmds (trace w))).
Definition n_rows (w : world) : Z := Z.of_nat (length (db w)).

(** [orderly w w']: from [w] to [w'] the ledger was only appended to, no
    counter of the summary went down, the trade counter rose by the number
    of [btcli stake] processes started, and at least as many rows were
    written. *)
Definition orderly (w w' : world) : Prop :=
  db w `prefix_of` db w' /\
  (trades (summ w) <= trades (summ w'))%Z /\
  (add_tao (summ w) <= add_tao (summ w'))%Q /\
  (rem_tao (summ w) <= rem_tao (summ w'))%Q /\
  subnets (summ w) ⊆ subnets (summ w') /\
  (trades (summ w') - trades (summ w) = n_stakes w' - n_stakes w)%Z /\
  (n_stakes w' - n_stakes w <= n_rows w' - n_rows w)%Z.

#[global] Instance orderly_preorder : PreOrder orderly.
Proof.
  split.
  - intros w. unfold orderly. repeat split; try reflexivity; try lia.
    + apply Qle_refl.
    + apply Qle_refl.
  - intros w1 w2 w3 (a1 & b1 & c1 & d1 & e1 & f1 & g1)
      (a2 & b2 & c2 & d2 & e2 & f2 & g2).
    unfold orderly. repeat split; try lia.
    + now transitivity (db w2).
    + now apply Qle_trans with (add_tao (summ w2)).
    + now apply Qle_trans with (rem_tao (summ w2)).
    + now transitivity (subnets (summ w2)).
Qed.

Lemma quiet_orderly (w w' : world) : quiet w w' -> orderly w w'.
Proof.
  intros (Hdb & Hs & Hst & _). unfold orderly, n_stakes, n_rows.
  rewrite Hdb, Hs, Hst. repeat split; try reflexivity; try lia;
    apply Qle_refl.
Qed.

Lemma governor_quiet (cfg : config) (bal : Q) (w : world) :
  quiet w (exec (governor cfg bal) w).
Proof.
  unfold exec. rewrite governor_run. unfold quiet. simpl.
  destruct (safety_notes_quiet cfg (paused w) bal (trace w)) as [-> ->].
  tauto.
Qed.

Lemma balance_quiet (cfg : config) (bal : Q) (w : world) :
  quiet w (exec (get_wallet_balance_via_btcli cfg bal) w).
Proof.
  unfold exec. rewrite balance_run. unfold quiet, stake_cmds, trade_embeds.
  simpl. rewrite !List.filter_app. simpl. rewrite !app_nil_r. tauto.
Qed.

Lemma mirror_and_log_orderly (a : action) (netuid : Z) (cfg : config)
    (amount : Q) (hk : string) (delta bal : Q) (o : proc_outcome) (w : world) :
  orderly w (exec (mirror_stake a netuid cfg amount hk delta o;;
                   log_trade_to_db a netuid hk amount delta bal) w).
Proof.
  unfold exec.
  destruct (mirror_and_log a netuid cfg amount hk delta bal o w)
    as (w' & -> & Hdb & _ & _ & _ & Hrest). cbn [snd].
  unfold orderly, n_stakes, n_rows. rewrite Hdb.
  split; [now apply prefix_app_r|].
  rewrite length_app. simpl.
  destruct (Qle_bool amount 0) eqn:E.
  - destruct Hrest as [-> ->]. repeat split; try reflexivity; try lia;
      apply Qle_refl.
  - destruct Hrest as (-> & -> & _). apply Qle_bool_false_iff in E.
    rewrite length_app. simpl.
    assert (Hup : forall x : Q, (x <= x + amount)%Q).
    { intros x. rewrite <- (Qplus_0_r x) at 1.
      apply Qplus_le_r. now apply Qlt_le_weak. }
    destruct a; simpl; repeat split; try lia; try apply Qle_refl;
      try apply Hup; set_solver.
Qed.

Lemma run_loop_orderly (dry_run : bool) (cfg : config) (ts : list turn)
    (w : world) :
  orderly w (exec (run_loop dry_run cfg ts) w).
Proof.
  refine (proj2 (all_run_loop orderly dry_run cfg _ _ _ _ _ _ _ _ _ ts w I)).
  - intros l w1 _. split; [exact I|]. apply quiet_orderly.
    now apply emit_quiet.
  - intros bal w1 _. split; [exact I|]. apply quiet_orderly, balance_quiet.
  - intros bal w1 _. split; [exact I|]. apply quiet_orderly, governor_quiet.
  - intros n hk v w1 _. split; [exact I|]. apply quiet_orderly.
    unfold quiet. simpl. tauto.
  - intros a n hk amount delta bal o w1 _. split; [exact I|].
    apply mirror_and_log_orderly.
  - intros q w1 _. split; [exact I|]. apply quiet_orderly.
    unfold quiet. simpl. tauto.
  - intros evs w1 _. split; [exact I|]. apply quiet_orderly.
    unfold quiet. simpl. tauto.
  - intros w1 _. split; [exact I|]. apply quiet_orderly.
    unfold save_state, get_last_stakes, mbind, M_bind.
    now apply (emit_quiet (SaveState (last_stakes w1))).
  - intros w1 _. split; [exact I|]. apply quiet_orderly.
    unfold notify_text. destruct (truthy (live_webhook cfg));
      [now apply emit_quiet | reflexivity].
Qed.

(** X1: over any run of the loop, in either mode, the ledger is only
    appended to: the rows present before are still there, in the same order,
    at the head of the table. *)
Theorem ledger_append_only (dry_run : bool) (cfg : config) (ts : list turn)
    (w : world) :
  db w `prefix_of` db (exec (run_loop dry_run cfg ts) w).
Proof. apply run_loop_orderly. Qed.

(** X2: over any run of the loop no counter of the summary goes down: the
    trade count, the staked and unstaked totals, and the set of subnets
    touched. *)
Theorem summary_counters_monotone (dry_run : bool) (cfg : config)
    (ts : list turn) (w : world) :
  let w' := exec (run_loop dry_run cfg ts) w in
  (trades (summ w) <= trades (summ w'))%Z /\
  (add_tao (summ w) <= add_tao (summ w'))%Q /\
  (rem_tao (summ w) <= rem_tao (summ w'))%Q /\
  subnets (summ w) ⊆ subnets (summ w').
Proof.
  cbv zeta. destruct (run_loop_orderly dry_run cfg ts w)
    as (_ & Ht & Ha & Hr & Hs & _). tauto.
Qed.

(** X3: over any run of the loop the trade counter rises by exactly the
    number of [btcli stake] processes started, and at least that many rows
    are added to the ledger. *)
Theorem trades_count_stake_processes (dry_run : bool) (cfg : config)
    (ts : list turn) (w : world) :
  let w' := exec (run_loop dry_run cfg ts) w in
  (trades (summ w') - trades (summ w) = n_stakes w' - n_stakes w)%Z /\
  (n_stakes w' - n_stakes w <= n_rows w' - n_rows w)%Z.
Proof.
  cbv zeta. destruct (run_loop_orderly dry_run cfg ts w)
    as (_ & _ & _ & _ & _ & Hc & Hr). tauto.
Qed.

(** ** What [mirror_stake] leaves on the trace *)

(** The log lines [run_btcli] writes after the process has ended. *)
Definition outcome_logs (o : proc_outcome) : list effect :=
  match o with
  | Exited _ out err =>
      (if truthy out then [Log (LOut out)] else []) ++
      (if truthy err then [Log (LErr err)] else [])
  | TimedOut => [Log LTimedOut]
  | NotFound => [Log LNotFound]
  end.

Lemma mirror_stake_trace (a : action) (netuid : Z) (cfg : config) (amount : Q)
    (hk : string) (delta : Q) (o : proc_outcome) (w : world) :
  Qle_bool amount 0 = false ->
  mirror_stake a netuid cfg amount hk delta o w =
  (Some tt,
   with_summ (bump a netuid amount (summ w))
     (with_trace
        (trace w ++
         [Log (LCmd (CmdStake a netuid amount));
          Popen (CmdStake a netuid amount)] ++
         outcome_logs o ++
         [Log (LTrade a amount netuid hk delta)] ++
         (if truthy (live_webhook cfg)
          then [TradeEmbed a netuid hk amount delta] else [])) w)).
Proof.
  intros H. unfold mirror_stake. rewrite H.
  unfold run_btcli, send_trade_embed, outcome_logs.
  destruct w as [p s l d q t tr].
  destruct o as [rc out err| |]; munfold; simpl.
  - destruct (truthy out), (truthy err), (truthy (live_webhook cfg)); simpl;
      unfold with_summ, with_trace; simpl;
      rewrite <- ?app_assoc; reflexivity.
  - destruct (truthy (live_webhook cfg)); simpl;
      unfold with_summ, with_trace; simpl;
      rewrite <- ?app_assoc; reflexivity.
  - destruct (truthy (live_webhook cfg)); simpl;
      unfold with_summ, with_trace; simpl;
      rewrite <- ?app_assoc; reflexivity.
Qed.

Lemma outcome_logs_are_logs (o : proc_outcome) :
  Forall (fun e => exists l, e = Log l) (outcome_logs o).
Proof.
  destruct o as [rc out err| |]; simpl.
  - destruct (truthy out), (truthy err); simpl; repeat constructor; eauto.
  - repeat constructor; eauto.
  - repeat constructor; eauto.
Qed.

(** A filter that lets no log line through lets none of [outcome_logs]
    through. *)
Lemma filter_outcome_logs (f : effect -> bool) (o : proc_outcome) :
  (forall l, f (Log l) = false) -> List.filter f (outcome_logs o) = [].
Proof.
  intros Hf. pose proof (outcome_logs_are_logs o) as H.
  induction H as [|e es [l ->] _ IH]; simpl; [reflexivity|].
  now rewrite Hf.
Qed.

(** ** Without a live webhook *)

(** The messages that go to the live webhook. *)
Definition is_live_post (e : effect) : bool :=
  match e with
  | TradeEmbed _ _ _ _ _ => true
  | NotifyPaused _ => true
  | NotifyResumed _ => true
  | NotifyLoopError => true
  | _ => false
  end.

Definition live_posts (t : list effect) : list effect :=
  List.filter is_live_post t.

Definition hushed (w w' : world) : Prop :=
  live_posts (trace w') = live_posts (trace w).

#[global] Instance hushed_preorder : PreOrder hushed.
Proof.
  split.
  - intros w. reflexivity.
  - intros w1 w2 w3 H1 H2. unfold hushed in *. congruence.
Qed.

Lemma hushed_emit (e : effect) (w : world) :
  is_live_post e = false -> hushed w (exec (emit e) w).
Proof.
  intros H. unfold hushed, live_posts, exec, emit, modify. simpl.
  rewrite List.filter_app. simpl. rewrite H. apply app_nil_r.
Qed.

(** X4: when no live webhook is configured ([live_webhook] empty), a run of
    the loop sends nothing that is meant for it: no trade embed, no
    "Paused", no "Resumed", no loop-error message. *)
Theorem no_live_webhook_no_posts (dry_run : bool) (cfg : config)
    (ts : list turn) (w : world) :
  live_webhook cfg = ""%string ->
  live_posts (trace (exec (run_loop dry_run cfg ts) w)) = live_posts (trace w).
Proof.
  intros Hweb.
  assert (Hno : truthy (live_webhook cfg) = false) by now rewrite Hweb.
  refine (proj2 (all_run_loop hushed dry_run cfg _ _ _ _ _ _ _ _ _ ts w I)).
  - intros l w1 _. split; [exact I|]. now apply hushed_emit.
  - intros bal w1 _. split; [exact I|]. unfold exec. rewrite balance_run.
    unfold hushed, live_posts. simpl. rewrite List.filter_app. simpl.
    apply app_nil_r.
  - intros bal w1 _. split; [exact I|]. unfold exec. rewrite governor_run.
    unfold hushed, live_posts, safety_notes. simpl. rewrite Hno.
    rewrite !andb_false_r. simpl. now rewrite app_nil_r.
  - intros n hk v w1 _. split; [exact I | reflexivity].
  - intros a n hk amount delta bal o w1 _. split; [exact I|].
    unfold exec, mbind, M_bind.
    destruct (Qle_bool amount 0) eqn:E.
    + rewrite mirror_stake_skip by exact E. reflexivity.
    + rewrite mirror_stake_trace by exact E. rewrite Hno.
      unfold hushed, live_posts. cbn [snd trace with_trace with_summ
        with_db db summ log_trade_to_db modify].
      rewrite !List.filter_app.
      rewrite filter_outcome_logs by reflexivity. simpl.
      now rewrite !app_nil_r.
  - intros q w1 _. split; [exact I | reflexivity].
  - intros evs w1 _. split; [exact I | reflexivity].
  - intros w1 _. split; [exact I|].
    unfold save_state, get_last_stakes, mbind, M_bind.
    now apply (hushed_emit (SaveState (last_stakes w1))).
  - intros w1 _. split; [exact I|]. unfold notify_text. rewrite Hno.
    reflexivity.
Qed.

Definition cfg_mute : config :=
  {| network := "finney"; my_wallet := "mine"; fixed_amount := Some (1 # 10);
     hotkeys := ["hkA"; "hkB"]%string; weights := [1 # 2; 1];
     poll_seconds := 30%Z; trade_mode := "proportional";
     live_webhook := ""; summary_webhook := "";
     low_balance := 1; resume_balance := 2; btcli_path := "btcli" |}.

Lemma no_live_webhook_no_posts_witness :
  live_posts (trace (exec (run_loop false cfg_mute
                             [turn_at (8 # 10); turn_at 10]) w100)) = [].
Proof.
  exact (no_live_webhook_no_posts false cfg_mute
           [turn_at (8 # 10); turn_at 10] w100 eq_refl).
Defined.

(** ** The safety block on its own *)

(** X5: the safety block never raises, and lets the intent go on exactly
    when it leaves the loop not paused.  When it leaves the loop paused the
    balance is under the resume threshold; when it leaves it not paused the
    balance is at or over the low threshold or at or over the resume
    threshold. *)
Theorem safety_block_verdict (cfg : config) (bal : Q) (w : world) :
  let w' := exec (governor cfg bal) w in
  fst (governor cfg bal w) = Some (negb (paused w')) /\
  (paused w' = true -> (bal < resume_balance cfg)%Q) /\
  (paused w' = false ->
   (low_balance cfg <= bal)%Q \/ (resume_balance cfg <= bal)%Q).
Proof.
  cbv zeta. unfold exec. rewrite governor_run. simpl.
  rewrite negb_involutive. split; [reflexivity|].
  unfold lets_through. destruct (paused w).
  - destruct (Qle_bool (resume_balance cfg) bal) eqn:Er; simpl; split;
      intros H; try discriminate H.
    + right. now apply Qle_bool_iff.
    + now apply Qle_bool_false_iff.
  - destruct (Qlt_bool bal (low_balance cfg)) eqn:El;
      destruct (Qle_bool (resume_balance cfg) bal) eqn:Er; simpl; split;
      intros H; try discriminate H.
    + right. now apply Qle_bool_iff.
    + now apply Qle_bool_false_iff.
    + left. now apply Qlt_bool_false_iff.
    + left. now apply Qlt_bool_false_iff.
Qed.

(** X6: with a live webhook and the resume threshold at or over the low
    threshold, the safety block adds to the trace exactly one "Paused"
    message when it sets the flag, exactly one "Resumed" message when it
    clears it, and nothing when the flag stays as it was. *)
Theorem one_message_per_flag_change (cfg : config) (bal : Q) (w : world) :
  (low_balance cfg <= resume_balance cfg)%Q ->
  live_webhook cfg <> ""%string ->
  let w' := exec (governor cfg bal) w in
  trace w' =
  trace w ++
  match paused w, paused w' with
  | false, true => [NotifyPaused bal]
  | true, false => [NotifyResumed bal]
  | _, _ => []
  end.
Proof.
  intros Hord Hweb. cbv zeta.
  assert (Hyes : truthy (live_webhook cfg) = true).
  { unfold truthy. destruct (String.eqb_spec (live_webhook cfg) "");
      [contradiction | reflexivity]. }
  unfold exec. rewrite governor_run. simpl.
  unfold lets_through, safety_notes. rewrite Hyes.
  destruct (paused w); simpl.
  - destruct (Qle_bool (resume_balance cfg) bal); reflexivity.
  - destruct (Qlt_bool bal (low_balance cfg)) eqn:El; simpl;
      [|reflexivity].
    destruct (Qle_bool (resume_balance cfg) bal) eqn:Er; simpl;
      [|reflexivity].
    exfalso. apply Qlt_bool_iff in El. apply Qle_bool_iff in Er.
    apply (Qlt_irrefl bal).
    apply Qlt_le_trans with (low_balance cfg); [exact El|].
    now apply Qle_trans with (resume_balance cfg).
Qed.

Lemma one_message_per_flag_change_witness :
  trace (exec (governor cfg0 (8 # 10)) w0) = trace w0 ++ [NotifyPaused (8 # 10)] /\
  trace (exec (governor cfg0 (15 # 10)) (with_paused true w0)) =
    trace (with_paused true w0) ++ [].
Proof.
  split.
  - refine (one_message_per_flag_change cfg0 (8 # 10) w0 _ _);
      [vm_compute; discriminate | discriminate].
  - refine (one_message_per_flag_change cfg0 (15 # 10) (with_paused true w0)
              _ _); [vm_compute; discriminate | discriminate].
Defined.

(** ** Events and stakes that are passed over *)

Lemma index_of_none (x : string) (l : list string) :
  index_of x l = None <-> ~ In x l.
Proof.
  induction l as [|y l IH]; simpl.
  - tauto.
  - destruct (String.eqb_spec y x) as [->|Hne].
    + split; [discriminate | intros H; exfalso; apply H; now left].
    + destruct (index_of x l) as [i|]; simpl.
      * split; [discriminate|]. intros H. exfalso.
        assert (Hnot : ~ In x l) by (intros Hin; apply H; now right).
        apply IH in Hnot. discriminate Hnot.
      * split; [|reflexivity]. intros _ [Heq|Hin]; [contradiction|].
        destruct IH as [IH _]. now apply IH.
Qed.

(** X7: an event for a hotkey that is not in [cfg["hotkeys"]] is taken off
    the queue and nothing else is done: no balance query, no log line, no
    change of state.  Likewise the poll pass does nothing for a watched
    hotkey that a subnet does not list. *)
Theorem unwatched_is_ignored (dry_run : bool) (cfg : config) (w : world) :
  (forall ev r, ~ In (ev_hk ev) (hotkeys cfg) ->
     process_event dry_run cfg ev r w = (Some tt, w)) /\
  (forall netuid mg i hk r, ~ In hk (mg_hotkeys mg) ->
     poll_hotkey dry_run cfg netuid mg i hk r w = (Some tt, w)).
Proof.
  split.
  - intros ev r H. apply index_of_none in H. unfold process_event.
    now rewrite H.
  - intros netuid mg i hk r H. apply index_of_none in H. unfold poll_hotkey.
    now rewrite H.
Qed.

Lemma unwatched_is_ignored_witness :
  process_event false cfg0
    {| ev_action := Add; ev_netuid := 7; ev_hk := "hkQ"; ev_delta := 10 |}
    (sample_reply 10 TimedOut) w0 = (Some tt, w0).
Proof.
  apply (proj1 (unwatched_is_ignored false cfg0 w0)).
  simpl. intros [H|[H|[]]]; discriminate H.
Defined.

(** X8: in the poll path a change of less than 1e-9 against the stored
    baseline is not mirrored, and the baseline moves to the new stake all
    the same; nothing else happens (no balance query, no log line).  So a
    later change is measured from the new stake, not from the old one. *)
Theorem noise_moves_the_baseline (dry_run : bool) (cfg : config) (netuid : Z)
    (mg : metagraph) (i : nat) (hk : string) (r : reply) (w : world)
    (idx : nat) (stake_val last : Q) :
  index_of hk (mg_hotkeys mg) = Some idx ->
  mg_stake mg !! idx = Some stake_val ->
  baseline (last_stakes w) netuid hk = Some last ->
  (Qabs (stake_val - last) < eps)%Q ->
  let w' := exec (poll_hotkey dry_run cfg netuid mg i hk r) w in
  fst (poll_hotkey dry_run cfg netuid mg i hk r w) = Some tt /\
  baseline (last_stakes w') netuid hk = Some stake_val /\
  trace w' = trace w /\ db w' = db w /\ summ w' = summ w /\
  paused w' = paused w /\ queue w' = queue w.
Proof.
  intros Hidx Hst Hb Hn. apply Qlt_bool_iff in Hn. cbv zeta.
  unfold exec, poll_hotkey. rewrite Hidx, Hst.
  unfold mbind, M_bind, or_raise, mret, M_ret, swap_baseline.
  rewrite Hb, Hn. simpl. split; [reflexivity|].
  split; [apply baseline_set_same | tauto].
Qed.

(** Scenario D of the specification: a delta of 5e-10 is passed over. *)
Lemma noise_moves_the_baseline_witness :
  let mg := {| mg_hotkeys := ["hkA"%string];
               mg_stake := [100 + (5 # 10000000000)] |} in
  let w' := exec (poll_hotkey false cfg0 7 mg 0 "hkA"
                    (sample_reply 10 (Exited 0 "" ""))) w100 in
  baseline (last_stakes w') 7 "hkA" = Some (100 + (5 # 10000000000)) /\
  trace w' = trace w100.
Proof.
  cbv zeta.
  pose proof (noise_moves_the_baseline false cfg0 7
    {| mg_hotkeys := ["hkA"%string];
       mg_stake := [100 + (5 # 10000000000)] |} 0 "hkA"
    (sample_reply 10 (Exited 0 "" "")) w100 0
    (100 + (5 # 10000000000)) 100 eq_refl eq_refl eq_refl eq_refl) as H.
  cbv zeta in H. tauto.
Defined.

(** ** How a turn of the loop ends *)

(** The writes of the state file on a trace. *)
Definition is_save (e : effect) : bool :=
  match e with
  | SaveState _ => true
  | _ => false
  end.

Definition saves (t : list effect) : list effect := List.filter is_save t.

(** [calm w w']: the queue and [last_balance.json] are as they were and the
    state file has not been written. *)
Definition calm (w w' : world) : Prop :=
  queue w' = queue w /\
  last_balance_json w' = last_balance_json w /\
  saves (trace w') = saves (trace w).

#[global] Instance calm_preorder : PreOrder calm.
Proof.
  split.
  - intros w. repeat split.
  - intros w1 w2 w3 (a1 & b1 & c1) (a2 & b2 & c2). unfold calm.
    repeat split; congruence.
Qed.

Lemma calm_emit (e : effect) (w : world) :
  is_save e = false -> calm w (exec (emit e) w).
Proof.
  intros H. unfold calm, saves, exec, emit, modify. simpl.
  rewrite List.filter_app. simpl. rewrite H, app_nil_r. tauto.
Qed.

Lemma calm_balance (cfg : config) (bal : Q) (w : world) :
  calm w (exec (get_wallet_balance_via_btcli cfg bal) w).
Proof.
  unfold exec. rewrite balance_run. unfold calm, saves. simpl.
  rewrite List.filter_app. simpl. rewrite app_nil_r. tauto.
Qed.

Lemma calm_governor (cfg : config) (bal : Q) (w : world) :
  calm w (exec (governor cfg bal) w).
Proof.
  unfold exec. rewrite governor_run. unfold calm, saves, safety_notes. simpl.
  rewrite !List.filter_app.
  destruct (negb (paused w) && _ && _), ((paused w || _) && _ && _); simpl;
    rewrite ?app_nil_r; tauto.
Qed.

Lemma calm_mirror (a : action) (netuid : Z) (cfg : config) (amount : Q)
    (hk : string) (delta bal : Q) (o : proc_outcome) (w : world) :
  calm w (exec (mirror_stake a netuid cfg amount hk delta o;;
                log_trade_to_db a netuid hk amount delta bal) w).
Proof.
  unfold exec, mbind, M_bind. destruct (Qle_bool amount 0) eqn:E.
  - rewrite mirror_stake_skip by exact E. unfold calm. simpl. tauto.
  - rewrite mirror_stake_trace by exact E.
    unfold calm, saves. cbn [snd trace with_trace with_summ with_db db summ
      queue last_balance_json log_trade_to_db modify].
    rewrite !List.filter_app.
    rewrite filter_outcome_logs by reflexivity.
    destruct (truthy (live_webhook cfg)); simpl; rewrite ?app_nil_r; tauto.
Qed.

Lemma process_event_calm (dry_run : bool) (cfg : config) (ev : push_event)
    (r : reply) (w : world) :
  calm w (exec (process_event dry_run cfg ev r) w).
Proof.
  refine (proj2 (all_process_event calm dry_run cfg _ _ _ _ ev r w I)).
  - intros l w1 _. split; [exact I|]. now apply calm_emit.
  - intros bal w1 _. split; [exact I|]. apply calm_balance.
  - intros bal w1 _. split; [exact I|]. apply calm_governor.
  - intros a n hk amount delta bal o w1 _. split; [exact I|]. apply calm_mirror.
Qed.

Lemma poll_pass_calm (dry_run : bool) (cfg : config) (ch : chain)
    (rs : Z -> nat -> reply) (w : world) :
  calm w (exec (poll_pass dry_run cfg ch rs) w).
Proof.
  refine (proj2 (all_poll_pass calm dry_run cfg _ _ _ _ _ ch rs w I)).
  - intros l w1 _. split; [exact I|]. now apply calm_emit.
  - intros bal w1 _. split; [exact I|]. apply calm_balance.
  - intros bal w1 _. split; [exact I|]. apply calm_governor.
  - intros n hk v w1 _. split; [exact I|]. unfold calm. simpl. tauto.
  - intros a n hk amount delta bal o w1 _. split; [exact I|]. apply calm_mirror.
Qed.

(** Draining the queue: what is left is a tail of what was there, nothing
    when no exception was raised; the state file is not written. *)
Lemma drain_outcome (dry_run : bool) (cfg : config)
    (q : list (push_event * reply)) (w : world) :
  queue w = q ->
  let w' := exec (drain dry_run cfg q) w in
  queue w' `suffix_of` q /\
  (fst (drain dry_run cfg q w) = Some tt -> queue w' = []) /\
  last_balance_json w' = last_balance_json w /\
  saves (trace w') = saves (trace w).
Proof.
  revert w. induction q as [|[ev r] q IH]; intros w Hq; cbv zeta.
  - change (exec (drain dry_run cfg []) w) with w. rewrite Hq.
    split; [reflexivity|]. split; [reflexivity|]. split; reflexivity.
  - simpl drain. unfold exec, mbind, M_bind, modify. 
    destruct (process_event_calm dry_run cfg ev r (with_queue q w))
      as (Hq1 & Hl1 & Hs1).
    unfold exec in Hq1, Hl1, Hs1.
    destruct (process_event dry_run cfg ev r (with_queue q w))
      as [[u|] w1] eqn:E; cbn [fst snd] in *.
    + destruct (IH w1 Hq1) as (Hsuf & Hemp & Hl2 & Hs2).
      unfold exec in Hsuf, Hemp, Hl2, Hs2.
      split; [now apply suffix_cons_r|]. split; [exact Hemp|].
      split; [now rewrite Hl2, Hl1 | now rewrite Hs2, Hs1].
    + split; [rewrite Hq1; simpl; now apply suffix_cons_r|].
      split; [discriminate|]. split; assumption.
Qed.

(** The world after the [except] branch of the loop. *)
Definition after_error (cfg : config) (w : world) : world :=
  with_trace
    (trace w ++ Log LLoopError ::
     (if truthy (live_webhook cfg) then [NotifyLoopError] else [])) w.

Lemma iteration_run (dry_run : bool) (cfg : config) (ch : chain)
    (rs : Z -> nat -> reply) (w : world) :
  iteration dry_run cfg ch rs w =
  match drain dry_run cfg (queue w) w with
  | (Some _, w1) =>
      match poll_pass dry_run cfg ch rs w1 with
      | (Some _, w2) =>
          (Some tt, with_trace (trace w2 ++ [SaveState (last_stakes w2)]) w2)
      | (None, w2) => (Some tt, after_error cfg w2)
      end
  | (None, w1) => (Some tt, after_error cfg w1)
  end.
Proof.
  assert (Herr : forall w1,
    (log LLoopError;; notify_text (live_webhook cfg) NotifyLoopError) w1 =
    (Some tt, after_error cfg w1)).
  { intros w1. unfold after_error, log, notify_text, emit, modify, mbind,
      M_bind, skip, mret, M_ret.
    destruct (truthy (live_webhook cfg)); destruct w1; simpl;
      unfold with_trace; simpl; rewrite <- ?app_assoc; reflexivity. }
  unfold iteration, try_except.
  unfold mbind at 1, M_bind at 1, get_queue.
  unfold mbind at 1, M_bind at 1.
  destruct (drain dry_run cfg (queue w) w) as [[[]|] w1]; [|apply Herr].
  unfold mbind at 1, M_bind at 1.
  destruct (poll_pass dry_run cfg ch rs w1) as [[[]|] w2]; [|apply Herr].
  reflexivity.
Qed.

(** X9: a turn of the loop never lets an exception out.  It leaves on the
    queue a tail of what was there and does not touch [last_balance.json].
    Either it has run to its end: the queue is empty and its last act was to
    write the state file once, with the baseline as it stands in memory; or
    an exception stopped it: the state file was not written, and the trace
    ends with the "Loop error" log line and, with a live webhook, the error
    message. *)
Theorem turn_outcome (dry_run : bool) (cfg : config) (ch : chain)
    (rs : Z -> nat -> reply) (w : world) :
  let w' := exec (iteration dry_run cfg ch rs) w in
  fst (iteration dry_run cfg ch rs w) = Some tt /\
  queue w' `suffix_of` queue w /\
  last_balance_json w' = last_balance_json w /\
  ((queue w' = [] /\
    saves (trace w') = saves (trace w) ++ [SaveState (last_stakes w')] /\
    last (trace w') = Some (SaveState (last_stakes w'))) \/
   (saves (trace w') = saves (trace w) /\
    exists t,
      trace w' = t ++ Log LLoopError ::
                 (if truthy (live_webhook cfg) then [NotifyLoopError] else []))).
Proof.
  cbv zeta. unfold exec. rewrite iteration_run.
  destruct (drain_outcome dry_run cfg (queue w) w eq_refl)
    as (Hsuf & Hemp & Hl1 & Hs1).
  unfold exec in Hsuf, Hemp, Hl1, Hs1.
  assert (Herr : forall w1, saves (trace w1) = saves (trace w) ->
    saves (trace (after_error cfg w1)) = saves (trace w) /\
    exists t,
      trace (after_error cfg w1) =
      t ++ Log LLoopError ::
           (if truthy (live_webhook cfg) then [NotifyLoopError] else [])).
  { intros w1 H. split; [|now exists (trace w1)].
    unfold after_error, saves. simpl. rewrite List.filter_app.
    fold (saves (trace w1)). rewrite H.
    destruct (truthy (live_webhook cfg)); simpl; apply app_nil_r. }
  destruct (drain dry_run cfg (queue w) w) as [[[]|] w1] eqn:Ed;
    cbn [fst snd] in *.
  - specialize (Hemp eq_refl).
    destruct (poll_pass_calm dry_run cfg ch rs w1) as (Hq2 & Hl2 & Hs2).
    unfold exec in Hq2, Hl2, Hs2.
    destruct (poll_pass dry_run cfg ch rs w1) as [[[]|] w2] eqn:Ep;
      cbn [fst snd] in *.
    + split; [reflexivity|].
      split; [simpl; rewrite Hq2, Hemp; apply suffix_nil|].
      split; [simpl; now rewrite Hl2, Hl1|]. left.
      split; [simpl; now rewrite Hq2|]. split.
      * simpl. unfold saves. rewrite List.filter_app. simpl.
        fold (saves (trace w2)). now rewrite Hs2, Hs1.
      * simpl. apply last_snoc.
    + split; [reflexivity|].
      split; [simpl; rewrite Hq2, Hemp; apply suffix_nil|].
      split; [simpl; now rewrite Hl2, Hl1|]. right.
      apply Herr. now rewrite Hs2.
  - split; [reflexivity|]. split; [exact Hsuf|]. split; [exact Hl1|].
    right. now apply Herr.
Qed.

(** ** A second look at an unchanged chain *)

(** The stored baseline of a key agrees with the chain. *)
Definition settled_at (ch : chain) (m : gmap Z (gmap string Q)) (netuid : Z)
    (hk : string) : Prop :=
  forall idx,
    index_of hk (mg_hotkeys (metagraph_of ch netuid)) = Some idx ->
    exists v, mg_stake (metagraph_of ch netuid) !! idx = Some v /\
              baseline m netuid hk = Some v.

Lemma execute_poll_last_stakes (dry_run : bool) (cfg : config) (netuid : Z)
    (hk : string) (amount delta bal : Q) (o : proc_outcome) (w : world) :
  last_stakes (snd (execute_poll dry_run cfg netuid hk amount delta bal o w)) =
  last_stakes w.
Proof.
  rewrite execute_poll_as_push. destruct dry_run.
  - rewrite dry_push_run. reflexivity.
  - rewrite execute_push_live.
    destruct (mirror_and_log (if Qlt_bool 0 delta then Add else Remove)
                netuid cfg amount hk delta bal o w)
      as (w' & -> & _ & _ & Hl & _). exact Hl.
Qed.

(** What the poll path does to the baseline map. *)
Lemma poll_hotkey_baseline (dry_run : bool) (cfg : config) (netuid : Z)
    (mg : metagraph) (i : nat) (hk : string) (r : reply) (w : world) :
  match index_of hk (mg_hotkeys mg) with
  | None => poll_hotkey dry_run cfg netuid mg i hk r w = (Some tt, w)
  | Some idx =>
      match mg_stake mg !! idx with
      | None => poll_hotkey dry_run cfg netuid mg i hk r w = (None, w)
      | Some v =>
          last_stakes (snd (poll_hotkey dry_run cfg netuid mg i hk r w)) =
          set_baseline (last_stakes w) netuid hk v
      end
  end.
Proof.
  unfold poll_hotkey.
  destruct (index_of hk (mg_hotkeys mg)) as [idx|]; [|reflexivity].
  destruct (mg_stake mg !! idx) as [v|]; [|reflexivity].
  unfold mbind, M_bind, or_raise, mret, M_ret, swap_baseline.
  destruct (baseline (last_stakes w) netuid hk) as [last|]; [|reflexivity].
  destruct (Qlt_bool _ eps); [reflexivity|].
  destruct (weights cfg !! i) as [weight|]; [|reflexivity].
  rewrite sizing_run.
  destruct (sized cfg _ weight) as [amount|]; [|reflexivity].
  rewrite balance_run, governor_run.
  destruct (lets_through cfg _ _).
  - rewrite execute_poll_last_stakes. reflexivity.
  - reflexivity.
Qed.

(** A key whose baseline agrees with the chain is passed over without a
    trace. *)
Lemma poll_hotkey_settled (dry_run : bool) (cfg : config) (ch : chain)
    (netuid : Z) (i : nat) (hk : string) (r : reply) (w : world) :
  settled_at ch (last_stakes w) netuid hk ->
  poll_hotkey dry_run cfg netuid (metagraph_of ch netuid) i hk r w =
  (Some tt, w).
Proof.
  intros Hs. unfold poll_hotkey.
  destruct (index_of hk (mg_hotkeys (metagraph_of ch netuid))) as [idx|] eqn:E;
    [|reflexivity].
  destruct (Hs idx E) as (v & Hst & Hb). rewrite Hst.
  unfold mbind, M_bind, or_raise, mret, M_ret, swap_baseline.
  rewrite Hb, (set_baseline_id _ _ _ _ Hb), with_last_stakes_same.
  now rewrite no_change_is_noise.
Qed.

(** One key handled without exception: its baseline agrees with the chain
    afterwards, and so does every baseline that did before. *)
Lemma poll_hotkey_settles (dry_run : bool) (cfg : config) (ch : chain)
    (netuid : Z) (i : nat) (hk : string) (r : reply) (w : world) :
  fst (poll_hotkey dry_run cfg netuid (metagraph_of ch netuid) i hk r w) =
    Some tt ->
  let m' := last_stakes
    (snd (poll_hotkey dry_run cfg netuid (metagraph_of ch netuid) i hk r w)) in
  settled_at ch m' netuid hk /\
  (forall n' hk', settled_at ch (last_stakes w) n' hk' ->
                  settled_at ch m' n' hk').
Proof.
  intros Hok. cbv zeta.
  pose proof (poll_hotkey_baseline dry_run cfg netuid
                (metagraph_of ch netuid) i hk r w) as H.
  destruct (index_of hk (mg_hotkeys (metagraph_of ch netuid)))
    as [idx|] eqn:E.
  - destruct (mg_stake (metagraph_of ch netuid) !! idx) as [v|] eqn:Est.
    + rewrite H. split.
      * intros idx' E'. rewrite E in E'. injection E' as <-.
        exists v. split; [exact Est | apply baseline_set_same].
      * intros n' hk' Hs idx' E'.
        destruct (decide ((netuid, hk) = (n', hk'))) as [Heq|Hne].
        -- injection Heq as <- <-. rewrite E in E'. injection E' as <-.
           exists v. split; [exact Est | apply baseline_set_same].
        -- destruct (Hs idx' E') as (v' & Hst' & Hb').
           exists v'. split; [exact Hst'|].
           now rewrite baseline_set_other.
    + rewrite H in Hok. discriminate Hok.
  - rewrite H. split; [|tauto].
    intros idx' E'. rewrite E in E'. discriminate E'.
Qed.

Lemma poll_hotkeys_settles (dry_run : bool) (cfg : config) (ch : chain)
    (netuid : Z) (rs : Z -> nat -> reply) (hks : list string) (i : nat)
    (w : world) :
  fst (poll_hotkeys dry_run cfg netuid (metagraph_of ch netuid) rs i hks w) =
    Some tt ->
  let m' := last_stakes
    (snd (poll_hotkeys dry_run cfg netuid (metagraph_of ch netuid) rs i hks w))
  in
  (forall hk, In hk hks -> settled_at ch m' netuid hk) /\
  (forall n' hk', settled_at ch (last_stakes w) n' hk' ->
                  settled_at ch m' n' hk').
Proof.
  revert i w. induction hks as [|hk hks IH]; intros i w Hok; cbv zeta.
  - simpl. split; [intros hk []|tauto].
  - simpl in *. unfold mbind, M_bind in *.
    pose proof (poll_hotkey_settles dry_run cfg ch netuid i hk (rs netuid i) w)
      as Hstep.
    destruct (poll_hotkey dry_run cfg netuid (metagraph_of ch netuid) i hk
                (rs netuid i) w) as [[[]|] w1]; [|discriminate Hok].
    destruct (Hstep eq_refl) as [Hhere Hkeep]. cbn [snd] in *.
    destruct (IH (S i) w1 Hok) as [Hrest Hkeep']. split.
    + intros hk' [<-|Hin]; [now apply Hkeep' | now apply Hrest].
    + intros n' hk' Hs. now apply Hkeep', Hkeep.
Qed.

Lemma poll_subnets_settles (dry_run : bool) (cfg : config) (ch : chain)
    (rs : Z -> nat -> reply) (ns : list Z) (w : world) :
  fst (poll_subnets dry_run cfg ch rs ns w) = Some tt ->
  let m' := last_stakes (snd (poll_subnets dry_run cfg ch rs ns w)) in
  (forall n hk, In n ns -> In hk (hotkeys cfg) -> settled_at ch m' n hk) /\
  (forall n' hk', settled_at ch (last_stakes w) n' hk' ->
                  settled_at ch m' n' hk').
Proof.
  revert w. induction ns as [|n ns IH]; intros w Hok; cbv zeta.
  - simpl. split; [intros n hk []|tauto].
  - simpl in *. unfold mbind, M_bind in *.
    assert (Hsub :
      fst (poll_subnet dry_run cfg ch rs n w) = Some tt ->
      (forall hk, In hk (hotkeys cfg) ->
         settled_at ch (last_stakes (snd (poll_subnet dry_run cfg ch rs n w)))
           n hk) /\
      (forall n' hk', settled_at ch (last_stakes w) n' hk' ->
         settled_at ch (last_stakes (snd (poll_subnet dry_run cfg ch rs n w)))
           n' hk')).
    { unfold poll_subnet.
      destruct (mg_hotkeys (metagraph_of ch n)) as [|h hs] eqn:Emg.
      - intros _. simpl. split; [|tauto].
        intros hk _ idx E. rewrite Emg in E. discriminate E.
      - intros H. apply (poll_hotkeys_settles dry_run cfg ch n rs
                           (hotkeys cfg) 0 w H). }
    destruct (poll_subnet dry_run cfg ch rs n w) as [[[]|] w1];
      [|discriminate Hok].
    destruct (Hsub eq_refl) as [Hhere Hkeep]. cbn [snd] in *.
    destruct (IH w1 Hok) as [Hrest Hkeep']. split.
    + intros n' hk [<-|Hin] Hhk; [now apply Hkeep', Hhere | now apply Hrest].
    + intros n' hk' Hs. now apply Hkeep', Hkeep.
Qed.

Lemma poll_subnets_settled (dry_run : bool) (cfg : config) (ch : chain)
    (rs : Z -> nat -> reply) (ns : list Z) (w : world) :
  (forall n hk, In n ns -> In hk (hotkeys cfg) ->
     settled_at ch (last_stakes w) n hk) ->
  poll_subnets dry_run cfg ch rs ns w = (Some tt, w).
Proof.
  intros Hs. induction ns as [|n ns IH]; [reflexivity|].
  simpl. unfold mbind, M_bind.
  assert (Hsub : poll_subnet dry_run cfg ch rs n w = (Some tt, w)).
  { unfold poll_subnet. destruct (mg_hotkeys (metagraph_of ch n)) eqn:Emg;
      [reflexivity|].
    assert (Hall : forall hks i, (forall hk, In hk hks -> In hk (hotkeys cfg)) ->
      poll_hotkeys dry_run cfg n (metagraph_of ch n) rs i hks w = (Some tt, w)).
    { induction hks as [|hk hks IHh]; intros i Hin; [reflexivity|].
      simpl. unfold mbind, M_bind.
      rewrite (poll_hotkey_settled dry_run cfg ch n i hk (rs n i) w).
      - apply IHh. intros hk' H. apply Hin. now right.
      - apply Hs; [now left | apply Hin; now left]. }
    apply Hall. tauto. }
  rewrite Hsub. apply IH. intros n' hk Hn Hhk. apply Hs; [now right | exact Hhk].
Qed.

(** X10: a poll pass that has run to its end leaves every baseline it has
    looked at equal to the stake on the chain.  A second pass over the same
    chain then does nothing at all, in either mode and whatever the balance
    would be: no trade, no balance query, no log line, no change of the
    baseline. *)
Theorem second_poll_pass_does_nothing (dry_run : bool) (cfg : config)
    (ch : chain) (rs : Z -> nat -> reply) (w : world) :
  fst (poll_pass dry_run cfg ch rs w) = Some tt ->
  forall dry_run' rs',
    poll_pass dry_run' cfg ch rs' (exec (poll_pass dry_run cfg ch rs) w) =
    (Some tt, exec (poll_pass dry_run cfg ch rs) w).
Proof.
  intros Hok dry_run' rs'. unfold poll_pass in *.
  apply poll_subnets_settled.
  apply (poll_subnets_settles dry_run cfg ch rs _ w Hok).
Qed.

Lemma second_poll_pass_does_nothing_witness :
  poll_pass true cfg0 chain7 (fun _ _ => sample_reply 0 NotFound)
    (exec (poll_pass false cfg0 chain7
             (fun _ _ => sample_reply 10 (Exited 0 "" ""))) w100) =
  (Some tt,
   exec (poll_pass false cfg0 chain7
           (fun _ _ => sample_reply 10 (Exited 0 "" ""))) w100).
Proof.
  apply second_poll_pass_does_nothing. vm_compute. reflexivity.
Defined.

(** ** Restarting from the state file *)

Lemma after_error_last (cfg : config) (w : world)
    (m : gmap Z (gmap string Q)) :
  last (trace (after_error cfg w)) <> Some (SaveState m).
Proof.
  unfold after_error. simpl. destruct (truthy (live_webhook cfg)).
  - change (trace w ++ [Log LLoopError; NotifyLoopError])
      with (trace w ++ [Log LLoopError] ++ [NotifyLoopError]).
    rewrite app_assoc, last_snoc. discriminate.
  - rewrite last_snoc. discriminate.
Qed.

(** X11: when a turn of the loop has ended by writing the state file, a
    process started from that file tracks the same baseline as the one that
    wrote it, and its first turn over the same chain, with nothing on the
    queue, does nothing but write the state file again: no trade, no balance
    query, in either mode. *)
Theorem restart_from_saved_state (dry_run : bool) (cfg : config) (ch : chain)
    (rs : Z -> nat -> reply) (w : world) (m : gmap Z (gmap string Q)) :
  last (trace (exec (iteration dry_run cfg ch rs) w)) = Some (SaveState m) ->
  forall dry_run' rs' rows tf,
    let w0' := initial_world {| config_file := Some cfg; state_file := Some m;
                                db_file := rows; trend_json := tf |} in
    last_stakes w0' = last_stakes (exec (iteration dry_run cfg ch rs) w) /\
    iteration dry_run' cfg ch rs' w0' =
    (Some tt, with_trace [SaveState m] w0').
Proof.
  intros Hlast dry_run' rs' rows tf. cbv zeta.
  unfold exec in *. rewrite iteration_run in Hlast |- *.
  destruct (drain dry_run cfg (queue w) w) as [[[]|] w1];
    [|now apply after_error_last in Hlast].
  pose proof (poll_subnets_settles dry_run cfg ch rs
                (Z.of_nat <$> seq 0 (subnet_count ch)) w1) as Hset.
  fold (poll_pass dry_run cfg ch rs) in Hset.
  destruct (poll_pass dry_run cfg ch rs w1) as [[[]|] w2];
    [|now apply after_error_last in Hlast].
  cbn [snd trace with_trace] in Hlast. rewrite last_snoc in Hlast.
  injection Hlast as <-.
  destruct (Hset eq_refl) as [Hall _]. cbn [snd] in Hall.
  split; [reflexivity|].
  set (w0' := initial_world _).
  rewrite iteration_run.
  change (queue w0') with (@nil (push_event * reply)).
  change (drain dry_run' cfg [] w0') with (Some tt, w0').
  cbn iota. unfold poll_pass.
  rewrite poll_subnets_settled; [reflexivity|]. exact Hall.
Qed.

Lemma restart_from_saved_state_witness :
  let w1 := exec (iteration false cfg0 chain7
                    (fun _ _ => sample_reply 10 (Exited 0 "" ""))) w100 in
  let w0' := initial_world {| config_file := Some cfg0;
                              state_file := Some (last_stakes w1);
                              db_file := db w1; trend_json := TfMissing |} in
  last_stakes w0' = last_stakes w1 /\
  iteration true cfg0 chain7 (fun _ _ => sample_reply 0 NotFound) w0' =
  (Some tt, with_trace [SaveState (last_stakes w1)] w0').
Proof.
  cbv zeta.
  apply (restart_from_saved_state false cfg0 chain7
           (fun _ _ => sample_reply 10 (Exited 0 "" "")) w100).
  vm_compute. reflexivity.
Defined.

(** ** The daily summary thread *)

(** [_seconds_until_next_utc_midnight()].  [now_us] is the time of day of
    [utcnow()], in microseconds since 00:00:00; [next_midnight - now] is
    then [86400000000 - now_us] microseconds, and [int(total_seconds())]
    drops what is less than a second. *)
Definition _seconds_until_next_utc_midnight (now_us : Z) : Z :=
  Z.max 1 ((86400000000 - now_us) / 1000000).

(** X12: the sleep before a summary is between 1 and 86400 seconds.  When a
    second or more is left in the day it ends within the last second before
    midnight, never after midnight; when less than a second is left it is
    one second, which ends after midnight. *)
Theorem sleep_until_midnight_bounds (now_us : Z) :
  (0 <= now_us < 86400000000)%Z ->
  let s := _seconds_until_next_utc_midnight now_us in
  (1 <= s <= 86400)%Z /\
  ((now_us <= 86399000000)%Z ->
   (86399000000 < now_us + s * 1000000 <= 86400000000)%Z) /\
  ((86399000000 < now_us)%Z -> s = 1%Z).
Proof.
  intros Hrange. cbv zeta. unfold _seconds_until_next_utc_midnight.
  pose proof (Z.div_mod (86400000000 - now_us) 1000000 ltac:(lia)) as Hdm.
  pose proof (Z.mod_pos_bound (86400000000 - now_us) 1000000 ltac:(lia))
    as Hmod.
  lia.
Qed.

Lemma sleep_until_midnight_bounds_witness :
  (1 <= _seconds_until_next_utc_midnight 86398500000 <= 86400)%Z /\
  (86399000000 <
   86398500000 + _seconds_until_next_utc_midnight 86398500000 * 1000000
   <= 86400000000)%Z.
Proof.
  pose proof (sleep_until_midnight_bounds 86398500000 ltac:(lia)) as H.
  cbv zeta in H. destruct H as (H1 & H2 & _). split; [exact H1|].
  apply H2. lia.
Defined.

Definition get_summ : M summary := fun w => (Some (summ w), w).

(** One round of [summary_scheduler] after its sleep (lines 226-227): the
    report on a copy of the counters, then their reset.  [bal] is what the
    balance query of the report returns. *)
Definition summary_round (cfg : config) (bal : Q) : M unit :=
  s ← get_summ;
  send_summary_embed cfg s bal;;
  modify (with_summ empty_summary).

Lemma send_summary_run (cfg : config) (s : summary) (bal : Q) (w : world) :
  truthy (summary_webhook cfg) = true ->
  send_summary_embed cfg s bal w =
  (Some tt,
   with_trace
     (trace w ++
      [Log LFetchBalance; Log (LCmd CmdBalance); Popen CmdBalance;
       SummaryEmbed
         {| rep_trades := trades s;
            rep_subnets := size (subnets s);
            rep_add := add_tao s;
            rep_rem := rem_tao s;
            rep_net := add_tao s - rem_tao s;
            rep_balance := bal;
            rep_delta_bal := bal - read_last_balance (last_balance_json w);
            rep_trend :=
              trend_of (bal - read_last_balance (last_balance_json w)) |}])
     (with_last_balance_json (TfJson (Some bal)) w)).
Proof.
  intros Hweb. unfold send_summary_embed. rewrite Hweb.
  unfold mbind, M_bind. rewrite balance_run.
  unfold get_last_balance_json, modify, post_embed, emit, modify.
  rewrite Hweb. destruct w; simpl. unfold with_trace; simpl.
  now rewrite <- app_assoc.
Qed.

Lemma iteration_keeps_trend_file (dry_run : bool) (cfg : config) (ch : chain)
    (rs : Z -> nat -> reply) (w : world) :
  last_balance_json (exec (iteration dry_run cfg ch rs) w) =
  last_balance_json w.
Proof.
  unfold exec. rewrite iteration_run.
  destruct (drain_outcome dry_run cfg (queue w) w eq_refl) as (_ & _ & Hl1 & _).
  unfold exec in Hl1.
  destruct (drain dry_run cfg (queue w) w) as [[[]|] w1]; cbn [snd] in *;
    [|exact Hl1].
  destruct (poll_pass_calm dry_run cfg ch rs w1) as (_ & Hl2 & _).
  unfold exec in Hl2.
  destruct (poll_pass dry_run cfg ch rs w1) as [[[]|] w2]; cbn [snd] in *;
    simpl; now rewrite Hl2.
Qed.

Lemma run_loop_keeps_trend_file (dry_run : bool) (cfg : config)
    (ts : list turn) (w : world) :
  last_balance_json (exec (run_loop dry_run cfg ts) w) = last_balance_json w.
Proof.
  revert w. induction ts as [|t ts IH]; intros w; [reflexivity|].
  simpl. unfold exec, mbind, M_bind, enqueue, modify.
  pose proof (iteration_keeps_trend_file dry_run cfg (chain_now t)
                (poll_replies t) (with_queue (queue w ++ arrivals t) w)) as Hl.
  unfold exec in Hl.
  destruct (iteration dry_run cfg (chain_now t) (poll_replies t)
              (with_queue (queue w ++ arrivals t) w)) as [[[]|] w1];
    cbn [fst snd] in *.
  - fold (exec (run_loop dry_run cfg ts) w1). now rewrite IH, Hl.
  - exact Hl.
Qed.

(** X13: two reports with any run of the loop between them, the rounds
    falling between turns.  The second report shows as trend the difference
    of the two balances, and as trade count the number of [btcli stake]
    processes started since the first report; after it the counters are
    back at zero. *)
Theorem report_after_report (dry_run : bool) (cfg : config) (ts : list turn)
    (b1 b2 : Q) (w : world) :
  summary_webhook cfg <> ""%string ->
  let w1 := exec (summary_round cfg b1) w in
  let w2 := exec (run_loop dry_run cfg ts) w1 in
  let w3 := exec (summary_round cfg b2) w2 in
  exists rep,
    last (trace w3) = Some (SummaryEmbed rep) /\
    rep_delta_bal rep = b2 - b1 /\
    rep_balance rep = b2 /\
    rep_trades rep = (n_stakes w2 - n_stakes w1)%Z /\
    summ w3 = empty_summary /\
    last_balance_json w3 = TfJson (Some b2).
Proof.
  intros Hweb. cbv zeta.
  assert (Hyes : truthy (summary_webhook cfg) = true).
  { unfold truthy. destruct (String.eqb_spec (summary_webhook cfg) "");
      [contradiction | reflexivity]. }
  assert (Hround : forall b w0,
    exec (summary_round cfg b) w0 =
    with_summ empty_summary (snd (send_summary_embed cfg (summ w0) b w0))).
  { intros b w0. unfold exec, summary_round, mbind, M_bind, get_summ.
    now rewrite (send_summary_run cfg (summ w0) b w0 Hyes). }
  set (w1 := exec (summary_round cfg b1) w).
  set (w2 := exec (run_loop dry_run cfg ts) w1).
  assert (Hs1 : summ w1 = empty_summary).
  { unfold w1. now rewrite Hround. }
  assert (Hl1 : last_balance_json w1 = TfJson (Some b1)).
  { unfold w1. rewrite Hround, (send_summary_run cfg _ b1 w Hyes).
    reflexivity. }
  assert (Hl2 : last_balance_json w2 = TfJson (Some b1)).
  { unfold w2. now rewrite run_loop_keeps_trend_file. }
  destruct (run_loop_orderly dry_run cfg ts w1)
    as (_ & _ & _ & _ & _ & Hcount & _).
  fold w2 in Hcount. rewrite Hs1 in Hcount. simpl in Hcount.
  rewrite Hround, (send_summary_run cfg _ b2 w2 Hyes). cbn [snd].
  eexists. split; [simpl; rewrite last_app; reflexivity|].
  simpl. rewrite Hl2. simpl.
  repeat split. lia.
Qed.

Lemma report_after_report_witness :
  exists rep,
    last (trace (exec (summary_round cfg0 12)
                   (exec (run_loop false cfg0 [turn_at 10])
                      (exec (summary_round cfg0 10) w100)))) =
      Some (SummaryEmbed rep) /\
    rep_delta_bal rep = 12 - 10 /\
    rep_balance rep = 12 /\
    rep_trades rep =
      (n_stakes (exec (run_loop false cfg0 [turn_at 10])
                   (exec (summary_round cfg0 10) w100)) -
       n_stakes (exec (summary_round cfg0 10) w100))%Z /\
    summ (exec (summary_round cfg0 12)
            (exec (run_loop false cfg0 [turn_at 10])
               (exec (summary_round cfg0 10) w100))) = empty_summary /\
    last_balance_json
      (exec (summary_round cfg0 12)
         (exec (run_loop false cfg0 [turn_at 10])
            (exec (summary_round cfg0 10) w100))) = TfJson (Some 12).
Proof.
  refine (report_after_report false cfg0 [turn_at 10] 10 12 w100 _).
  discriminate.
Defined.

(** X14: with no summary webhook a round of the scheduler makes no balance
    query, sends nothing and leaves [last_balance.json] alone, and still
    resets the counters. *)
Theorem round_without_summary_webhook (cfg : config) (bal : Q) (w : world) :
  summary_webhook cfg = ""%string ->
  let w' := exec (summary_round cfg bal) w in
  trace w' = trace w /\
  last_balance_json w' = last_balance_json w /\
  summ w' = empty_summary /\
  db w' = db w /\ paused w' = paused w /\ last_stakes w' = last_stakes w.
Proof.
  intros Hweb. cbv zeta.
  unfold exec, summary_round, send_summary_embed, mbind, M_bind, get_summ.
  rewrite Hweb. simpl. tauto.
Qed.

Lemma round_without_summary_webhook_witness :
  let w' := exec (summary_round cfg_mute 10) w100 in
  trace w' = trace w100 /\
  last_balance_json w' = last_balance_json w100 /\
  summ w' = empty_summary /\
  db w' = db w100 /\ paused w' = paused w100 /\
  last_stakes w' = last_stakes w100.
Proof.
  exact (round_without_summary_webhook cfg_mute 10 w100 eq_refl).
Defined.

(** ** A cold start *)

(** Every baseline that is stored equals the stake the chain shows. *)
Definition agrees (ch : chain) (m : gmap Z (gmap string Q)) : Prop :=
  forall n hk v idx v',
    baseline m n hk = Some v ->
    index_of hk (mg_hotkeys (metagraph_of ch n)) = Some idx ->
    mg_stake (metagraph_of ch n) !! idx = Some v' ->
    v = v'.

Lemma agrees_set (ch : chain) (m : gmap Z (gmap string Q)) (n : Z)
    (hk : string) (idx : nat) (v : Q) :
  agrees ch m ->
  index_of hk (mg_hotkeys (metagraph_of ch n)) = Some idx ->
  mg_stake (metagraph_of ch n) !! idx = Some v ->
  agrees ch (set_baseline m n hk v).
Proof.
  intros Ha Hidx Hst n' hk' v1 idx' v2 Hb Hidx' Hst'.
  destruct (decide ((n, hk) = (n', hk'))) as [Heq|Hne].
  - injection Heq as <- <-. rewrite baseline_set_same in Hb.
    injection Hb as <-. rewrite Hidx in Hidx'. injection Hidx' as <-.
    rewrite Hst in Hst'. now injection Hst'.
  - rewrite baseline_set_other in Hb by exact Hne.
    now apply (Ha n' hk' v1 idx' v2).
Qed.

Lemma poll_hotkey_agreeing (dry_run : bool) (cfg : config) (ch : chain)
    (n : Z) (i : nat) (hk : string) (r : reply) (w : world) :
  agrees ch (last_stakes w) ->
  exists res m',
    poll_hotkey dry_run cfg n (metagraph_of ch n) i hk r w =
    (res, with_last_stakes m' w) /\ agrees ch m'.
Proof.
  intros Ha. unfold poll_hotkey.
  destruct (index_of hk (mg_hotkeys (metagraph_of ch n))) as [idx|] eqn:Hidx.
  2:{ exists (Some tt), (last_stakes w). now rewrite with_last_stakes_same. }
  destruct (mg_stake (metagraph_of ch n) !! idx) as [v|] eqn:Hst.
  2:{ exists None, (last_stakes w). now rewrite with_last_stakes_same. }
  unfold mbind, M_bind, or_raise, mret, M_ret, swap_baseline.
  exists (Some tt), (set_baseline (last_stakes w) n hk v).
  split; [|now apply agrees_set with (idx := idx)].
  destruct (baseline (last_stakes w) n hk) as [last|] eqn:Hb; [|reflexivity].
  rewrite (Ha n hk last idx v Hb Hidx Hst).
  now rewrite no_change_is_noise.
Qed.

Lemma poll_subnets_agreeing (dry_run : bool) (cfg : config) (ch : chain)
    (rs : Z -> nat -> reply) (ns : list Z) (w : world) :
  agrees ch (last_stakes w) ->
  exists res m',
    poll_subnets dry_run cfg ch rs ns w = (res, with_last_stakes m' w) /\
    agrees ch m'.
Proof.
  assert (Hkeys : forall n hks i w0, agrees ch (last_stakes w0) ->
    exists res m',
      poll_hotkeys dry_run cfg n (metagraph_of ch n) rs i hks w0 =
      (res, with_last_stakes m' w0) /\ agrees ch m').
  { intros n hks. induction hks as [|hk hks IH]; intros i w0 Ha.
    - exists (Some tt), (last_stakes w0). now rewrite with_last_stakes_same.
    - simpl. unfold mbind, M_bind.
      destruct (poll_hotkey_agreeing dry_run cfg ch n i hk (rs n i) w0 Ha)
        as (res & m1 & -> & Ha1).
      destruct res as [[]|]; [|now exists None, m1].
      destruct (IH (S i) (with_last_stakes m1 w0) Ha1)
        as (res2 & m2 & -> & Ha2).
      now exists res2, m2. }
  revert w. induction ns as [|n ns IH]; intros w Ha.
  - exists (Some tt), (last_stakes w). now rewrite with_last_stakes_same.
  - simpl. unfold mbind, M_bind, poll_subnet.
    destruct (mg_hotkeys (metagraph_of ch n)) as [|h hs] eqn:Emg.
    + simpl. apply IH, Ha.
    + destruct (Hkeys n (hotkeys cfg) 0%nat w Ha) as (res & m1 & -> & Ha1).
      destruct res as [[]|]; [|now exists None, m1].
      destruct (IH (with_last_stakes m1 w) Ha1) as (res2 & m2 & -> & Ha2).
      now exists res2, m2.
Qed.

(** X15: when every stored baseline equals the stake the chain shows, and
    so in particular when none is stored (first run, or a state file that is
    missing or unreadable), a poll pass makes no trade and no balance query
    and writes no log line: apart from the baseline map the world is as it
    was. *)
Theorem pass_over_agreeing_baseline (dry_run : bool) (cfg : config)
    (ch : chain) (rs : Z -> nat -> reply) (w : world) :
  agrees ch (last_stakes w) ->
  let w' := exec (poll_pass dry_run cfg ch rs) w in
  trace w' = trace w /\ db w' = db w /\ summ w' = summ w /\
  paused w' = paused w /\ queue w' = queue w /\
  agrees ch (last_stakes w').
Proof.
  intros Ha. cbv zeta. unfold exec, poll_pass.
  destruct (poll_subnets_agreeing dry_run cfg ch rs
              (Z.of_nat <$> seq 0 (subnet_count ch)) w Ha)
    as (res & m' & -> & Ha'). simpl. tauto.
Qed.

Definition disk_lost : disk :=
  {| config_file := Some cfg0; state_file := None; db_file := [];
     trend_json := TfMissing |}.

Lemma pass_over_agreeing_baseline_witness :
  let w' := exec (poll_pass false cfg0 chain7
                    (fun _ _ => sample_reply 10 (Exited 0 "" "")))
              (initial_world disk_lost) in
  trace w' = [] /\ db w' = [] /\ summ w' = empty_summary /\
  paused w' = false /\ queue w' = [] /\
  agrees chain7 (last_stakes w').
Proof.
  refine (pass_over_agreeing_baseline false cfg0 chain7
            (fun _ _ => sample_reply 10 (Exited 0 "" ""))
            (initial_world disk_lost) _).
  intros n hk v idx v' Hb. unfold baseline in Hb. simpl in Hb.
  rewrite lookup_empty in Hb. simpl in Hb. rewrite lookup_empty in Hb.
  discriminate Hb.
Defined.

(** ** A configuration written by [setup] *)

Lemma index_of_lt (x : string) (l : list string) (i : nat) :
  index_of x l = Some i -> (i < length l)%nat.
Proof.
  revert i. induction l as [|y l IH]; intros i; simpl; [discriminate|].
  destruct (String.eqb y x).
  - intros H. injection H as <-. lia.
  - destruct (index_of x l) as [j|]; simpl; [|discriminate].
    intros H. injection H as <-. specialize (IH j eq_refl). lia.
Qed.

(** X16: [setup] writes one weight for every hotkey, so with a
    configuration as it builds it the lookup [cfg["weights"][i]] cannot
    raise, neither for the index the realtime path takes from
    [cfg["hotkeys"].index(hk)] nor for the positions the poll path
    enumerates; and when the amount typed is one [float] accepts, or the
    mode is not "fixed", the sizing expression cannot raise either. *)
Theorem setup_config_lookups_succeed (a : answers) :
  (str_or (ans_mode a) "fixed" = "fixed"%string -> ans_amt a <> None) ->
  let cfg := setup_config a in
  length (weights cfg) = length (hotkeys cfg) /\
  (forall hk i, index_of hk (hotkeys cfg) = Some i ->
     is_Some (weights cfg !! i)) /\
  (forall i, (i < length (hotkeys cfg))%nat -> is_Some (weights cfg !! i)) /\
  (forall delta weight w, is_Some (fst (sizing cfg delta weight w))).
Proof.
  intros Hamt. cbv zeta.
  assert (Hlen : length (weights (setup_config a)) =
                 length (hotkeys (setup_config a))).
  { simpl. now rewrite !length_fmap. }
  split; [exact Hlen|]. split; [|split].
  - intros hk i Hi. apply index_of_lt in Hi.
    apply lookup_lt_is_Some_2. lia.
  - intros i Hi. apply lookup_lt_is_Some_2. lia.
  - intros delta weight w. rewrite sizing_run. unfold sized.
    change (trade_mode (setup_config a)) with (str_or (ans_mode a) "fixed").
    change (fixed_amount (setup_config a)) with (ans_amt a).
    destruct (String.eqb_spec (str_or (ans_mode a) "fixed") "fixed") as [E|E].
    + specialize (Hamt E). cbn [fst].
      destruct (ans_amt a); [eauto | contradiction].
    + cbn [fst]. eauto.
Qed.

Lemma setup_config_lookups_succeed_witness :
  let cfg := setup_config answers_flap in
  length (weights cfg) = length (hotkeys cfg) /\
  (forall hk i, index_of hk (hotkeys cfg) = Some i ->
     is_Some (weights cfg !! i)) /\
  (forall i, (i < length (hotkeys cfg))%nat -> is_Some (weights cfg !! i)) /\
  (forall delta weight w, is_Some (fst (sizing cfg delta weight w))).
Proof.
  refine (setup_config_lookups_succeed answers_flap _).
  intros _. discriminate.
Defined.

(** ** A balance query that gets no output *)

Section BalanceQuery.
(** [scan] stands for lines 143-152 of [get_wallet_balance_via_btcli], the
    search of a non-empty output for a number. *)
Variable scan : string -> Q.

(** [get_wallet_balance_via_btcli(cfg)] with its btcli process: the output
    of the process is logged by [run_btcli], and an empty output is read as
    [0.0] before any scan. *)
Definition wallet_balance_query (cfg : config) (o : proc_outcome) : M Q :=
  log LFetchBalance;;
  '(rc, out, err) ← run_btcli CmdBalance o;
  if truthy out then mret (scan out) else mret 0.

(** The process has printed nothing on its standard output. *)
Definition mute (o : proc_outcome) : Prop :=
  match o with
  | Exited _ out _ => out = ""%string
  | TimedOut => True
  | NotFound => True
  end.

Lemma wallet_balance_query_mute (cfg : config) (o : proc_outcome) (w : world) :
  mute o -> fst (wallet_balance_query cfg o w) = Some 0.
Proof.
  intros Hm. unfold wallet_balance_query, run_btcli. munfold.
  destruct o as [rc out err| |]; simpl in *.
  - subst out. simpl. destruct (truthy err); reflexivity.
  - reflexivity.
  - reflexivity.
Qed.

(** X17: when the btcli process of a balance query times out, is not found
    or prints nothing, the balance is read as 0, whatever the exit status.
    With both thresholds above 0 an intent that meets this balance is
    dropped and leaves the loop paused, in both paths: no [btcli stake]
    process, no row, no counter. *)
Theorem mute_btcli_pauses (cfg : config) (o : proc_outcome) (w : world) :
  mute o ->
  (0 < low_balance cfg)%Q ->
  (0 < resume_balance cfg)%Q ->
  forall bal, fst (wallet_balance_query cfg o w) = Some bal ->
  bal = 0 /\
  forall dry_run os,
    (forall ev i weight amount,
       index_of (ev_hk ev) (hotkeys cfg) = Some i ->
       weights cfg !! i = Some weight ->
       fst (sizing cfg (ev_delta ev) weight w) = Some amount ->
       let w' := exec (process_event dry_run cfg ev (sample_reply bal os)) w in
       paused w' = true /\ quiet w w') /\
    (forall netuid mg i hk idx stake_val last weight amount,
       index_of hk (mg_hotkeys mg) = Some idx ->
       mg_stake mg !! idx = Some stake_val ->
       baseline (last_stakes w) netuid hk = Some last ->
       (eps <= Qabs (stake_val - last))%Q ->
       weights cfg !! i = Some weight ->
       fst (sizing cfg (stake_val - last) weight w) = Some amount ->
       let w' := exec (poll_hotkey dry_run cfg netuid mg i hk
                         (sample_reply bal os)) w in
       paused w' = true /\ quiet w w').
Proof.
  intros Hm Hlow Hres bal Hbal.
  rewrite (wallet_balance_query_mute cfg o w Hm) in Hbal.
  injection Hbal as <-. split; [reflexivity|].
  assert (Hno : forall p, lets_through cfg p 0 = false).
  { intros [|]; [now apply lets_through_paused, Qle_bool_false_iff|].
    now apply lets_through_pausing. }
  intros dry_run os. split.
  - intros ev i weight amount Hi Hw Hs. cbv zeta.
    apply sizing_sized in Hs. unfold exec.
    rewrite (process_event_run dry_run cfg ev _ w i weight amount Hi Hw Hs).
    simpl reply_balance. rewrite Hno, skip_run. cbn [snd].
    destruct (checked_fields cfg 0 w) as (-> & _). rewrite Hno.
    split; [reflexivity | apply checked_quiet].
  - intros netuid mg i hk idx v last weight amount Hidx Hst Hb Hn Hw Hs.
    cbv zeta. apply sizing_sized in Hs. apply Qlt_bool_false_iff in Hn.
    unfold exec.
    rewrite (poll_hotkey_run dry_run cfg netuid mg i hk _ w idx v last weight
               amount Hidx Hst Hb Hn Hw Hs).
    simpl reply_balance. rewrite Hno, skip_run. cbn [snd].
    destruct (checked_fields cfg 0 (rebased netuid hk v w)) as (-> & _).
    rewrite Hno. split; [reflexivity|].
    transitivity (rebased netuid hk v w);
      [apply rebased_quiet | apply checked_quiet].
Qed.
End BalanceQuery.

Lemma mute_btcli_pauses_witness :
  let w' := exec (process_event false cfg0 evA (sample_reply 0 TimedOut)) w0 in
  paused w' = true /\ quiet w0 w'.
Proof.
  refine (proj1 (proj2 (mute_btcli_pauses (fun _ => 5) cfg0 NotFound w0
    I eq_refl eq_refl 0 eq_refl) false TimedOut)
    evA 0%nat (1 # 2) (10 # 2) _ _ _); reflexivity.
Defined.

(** ** Dry-run as a rehearsal *)

(** What steers the loop: the flag, the baseline map and the queue. *)
Definition control (w : world) :
    bool * gmap Z (gmap string Q) * list (push_event * reply) :=
  (paused w, last_stakes w, queue w).

(** [alike m1 m2]: from worlds with the same control, [m1] and [m2] give the
    same result, raise alike, and leave worlds with the same control. *)
Definition alike {A : Type} (m1 m2 : M A) : Prop :=
  forall w1 w2, control w1 = control w2 ->
    fst (m1 w1) = fst (m2 w2) /\ control (snd (m1 w1)) = control (snd (m2 w2)).

(** [inert m]: [m] returns without raising and leaves the control alone. *)
Definition inert (m : M unit) : Prop :=
  forall w, fst (m w) = Some tt /\ control (snd (m w)) = control w.

Lemma alike_inert (m1 m2 : M unit) : inert m1 -> inert m2 -> alike m1 m2.
Proof.
  intros H1 H2 w1 w2 Hc. destruct (H1 w1) as [-> ->].
  destruct (H2 w2) as [-> ->]. now split.
Qed.

Lemma alike_ret {A : Type} (a : A) : alike (mret a) (mret a).
Proof. intros w1 w2 Hc. now split. Qed.

Lemma alike_or_raise {A : Type} (o : option A) :
  alike (or_raise o) (or_raise o).
Proof. intros w1 w2 Hc. destruct o; now split. Qed.

Lemma alike_bind {A B : Type} (m1 m2 : M A) (f1 f2 : A -> M B) :
  alike m1 m2 -> (forall a, alike (f1 a) (f2 a)) ->
  alike (m1 ≫= f1) (m2 ≫= f2).
Proof.
  intros Hm Hf w1 w2 Hc. unfold mbind, M_bind.
  destruct (Hm w1 w2 Hc) as [Hres Hc'].
  destruct (m1 w1) as [[a|] w1'], (m2 w2) as [[a'|] w2']; simpl in *;
    try discriminate Hres.
  - injection Hres as <-. now apply Hf.
  - now split.
Qed.

Lemma alike_try_except (m1 m2 h1 h2 : M unit) :
  alike m1 m2 -> alike h1 h2 -> alike (try_except m1 h1) (try_except m2 h2).
Proof.
  intros Hm Hh w1 w2 Hc. unfold try_except.
  destruct (Hm w1 w2 Hc) as [Hres Hc'].
  destruct (m1 w1) as [[u|] w1'], (m2 w2) as [[u'|] w2']; simpl in *;
    try discriminate Hres.
  - now split.
  - now apply Hh.
Qed.

Lemma inert_emit (e : effect) : inert (emit e).
Proof. intros w. now split. Qed.

Lemma inert_mirror_and_log (a : action) (netuid : Z) (cfg : config)
    (amount : Q) (hk : string) (delta bal : Q) (o : proc_outcome) :
  inert (mirror_stake a netuid cfg amount hk delta o;;
         log_trade_to_db a netuid hk amount delta bal).
Proof.
  intros w.
  destruct (mirror_and_log a netuid cfg amount hk delta bal o w)
    as (w' & -> & _ & Hp & Hl & Hq & _).
  split; [reflexivity|]. unfold control. simpl. now rewrite Hp, Hl, Hq.
Qed.

Lemma alike_execute_push (d1 d2 : bool) (cfg : config) (a : action)
    (netuid : Z) (hk : string) (amount delta bal : Q) (o : proc_outcome) :
  alike (execute_push d1 cfg a netuid hk amount delta bal o)
        (execute_push d2 cfg a netuid hk amount delta bal o).
Proof.
  apply alike_inert; unfold execute_push.
  - destruct d1; [apply inert_emit | apply inert_mirror_and_log].
  - destruct d2; [apply inert_emit | apply inert_mirror_and_log].
Qed.

Lemma alike_governor (cfg : config) (bal : Q) :
  alike (governor cfg bal) (governor cfg bal).
Proof.
  intros w1 w2 Hc. rewrite !governor_run. unfold control in *. simpl.
  injection Hc as Hp Hl Hq. now rewrite Hp, Hl, Hq.
Qed.

Lemma alike_balance (cfg : config) (bal : Q) :
  alike (get_wallet_balance_via_btcli cfg bal)
        (get_wallet_balance_via_btcli cfg bal).
Proof.
  intros w1 w2 Hc. rewrite !balance_run. now split.
Qed.

(** The part both paths share behind the sizing. *)
Lemma alike_checked_execute (d1 d2 : bool) (cfg : config) (a : action)
    (netuid : Z) (hk : string) (amount delta : Q) (r : reply) :
  alike
    (current_balance ← get_wallet_balance_via_btcli cfg (reply_balance r);
     go ← governor cfg current_balance;
     if (go : bool)
     then execute_push d1 cfg a netuid hk amount delta current_balance
            (reply_stake r)
     else skip)
    (current_balance ← get_wallet_balance_via_btcli cfg (reply_balance r);
     go ← governor cfg current_balance;
     if (go : bool)
     then execute_push d2 cfg a netuid hk amount delta current_balance
            (reply_stake r)
     else skip).
Proof.
  apply alike_bind; [apply alike_balance | intros bal].
  apply alike_bind; [apply alike_governor | intros [|]].
  - apply alike_execute_push.
  - apply alike_ret.
Qed.

Lemma alike_sizing (cfg : config) (delta weight : Q) :
  alike (sizing cfg delta weight) (sizing cfg delta weight).
Proof. intros w1 w2 Hc. rewrite !sizing_run. now split. Qed.

Lemma alike_process_event (d1 d2 : bool) (cfg : config) (ev : push_event)
    (r : reply) :
  alike (process_event d1 cfg ev r) (process_event d2 cfg ev r).
Proof.
  unfold process_event.
  destruct (index_of (ev_hk ev) (hotkeys cfg)) as [i|]; [|apply alike_ret].
  apply alike_bind; [apply alike_or_raise | intros weight].
  apply alike_bind; [apply alike_sizing | intros amount].
  apply alike_checked_execute.
Qed.

Lemma alike_poll_hotkey (d1 d2 : bool) (cfg : config) (netuid : Z)
    (mg : metagraph) (i : nat) (hk : string) (r : reply) :
  alike (poll_hotkey d1 cfg netuid mg i hk r)
        (poll_hotkey d2 cfg netuid mg i hk r).
Proof.
  unfold poll_hotkey.
  destruct (index_of hk (mg_hotkeys mg)) as [idx|]; [|apply alike_ret].
  apply alike_bind; [apply alike_or_raise | intros v].
  apply alike_bind; [|intros [last|]; [|apply alike_ret]].
  { intros w1 w2 Hc. unfold swap_baseline, control in *. simpl.
    injection Hc as Hp Hl Hq. now rewrite Hp, Hl, Hq. }
  destruct (Qlt_bool _ eps); [apply alike_ret|].
  apply alike_bind; [apply alike_or_raise | intros weight].
  apply alike_bind; [apply alike_sizing | intros amount].
  apply alike_bind; [apply alike_balance | intros bal].
  apply alike_bind; [apply alike_governor | intros [|]]; [|apply alike_ret].
  rewrite !execute_poll_as_push. apply alike_execute_push.
Qed.

Lemma alike_drain (d1 d2 : bool) (cfg : config)
    (q : list (push_event * reply)) :
  alike (drain d1 cfg q) (drain d2 cfg q).
Proof.
  induction q as [|[ev r] q IH]; [apply alike_ret|].
  simpl. apply alike_bind; [|intros _].
  { intros w1 w2 Hc. unfold modify, control in *. simpl.
    injection Hc as Hp Hl Hq. now rewrite Hp, Hl. }
  apply alike_bind; [apply alike_process_event | intros _; exact IH].
Qed.

Lemma alike_poll_pass (d1 d2 : bool) (cfg : config) (ch : chain)
    (rs : Z -> nat -> reply) :
  alike (poll_pass d1 cfg ch rs) (poll_pass d2 cfg ch rs).
Proof.
  assert (Hkeys : forall n hks i,
    alike (poll_hotkeys d1 cfg n (metagraph_of ch n) rs i hks)
          (poll_hotkeys d2 cfg n (metagraph_of ch n) rs i hks)).
  { intros n hks. induction hks as [|hk hks IH]; intros i; [apply alike_ret|].
    simpl. apply alike_bind; [apply alike_poll_hotkey | intros _; apply IH]. }
  unfold poll_pass.
  induction (Z.of_nat <$> seq 0 (subnet_count ch)) as [|n ns IH];
    [apply alike_ret|].
  simpl. apply alike_bind; [|intros _; exact IH].
  unfold poll_subnet. destruct (mg_hotkeys (metagraph_of ch n));
    [apply alike_ret | apply Hkeys].
Qed.

Lemma alike_iteration (d1 d2 : bool) (cfg : config) (ch : chain)
    (rs : Z -> nat -> reply) :
  alike (iteration d1 cfg ch rs) (iteration d2 cfg ch rs).
Proof.
  unfold iteration. apply alike_try_except.
  - intros w1 w2 Hc.
    assert (Hq : queue w1 = queue w2) by (now injection Hc).
    assert (H : alike (drain d1 cfg (queue w2);; poll_pass d1 cfg ch rs;;
                       save_state)
                      (drain d2 cfg (queue w2);; poll_pass d2 cfg ch rs;;
                       save_state)).
    { apply alike_bind; [apply alike_drain | intros _].
      apply alike_bind; [apply alike_poll_pass | intros _].
      intros w3 w4 Hc'. unfold save_state, get_last_stakes, mbind, M_bind.
      now split. }
    specialize (H w1 w2 Hc). rewrite <- Hq in H at 1 3.
    exact H.
  - apply alike_inert.
    + intros w. unfold log, notify_text, mbind, M_bind.
      destruct (truthy (live_webhook cfg)); now split.
    + intros w. unfold log, notify_text, mbind, M_bind.
      destruct (truthy (live_webhook cfg)); now split.
Qed.

(** X18: a run of the loop in dry-run steers exactly as the same run would
    outside dry-run: after any turns over the same events, chain and
    balances, the paused flag, the baseline map and the queue are the same
    in both.  The two differ only in the ledger, the counters and what is
    sent and logged. *)
Theorem dry_run_steers_alike (cfg : config) (ts : list turn) (w : world) :
  control (exec (run_loop true cfg ts) w) =
  control (exec (run_loop false cfg ts) w).
Proof.
  assert (H : alike (run_loop true cfg ts) (run_loop false cfg ts)).
  { induction ts as [|t ts IH]; [apply alike_ret|].
    simpl. apply alike_bind; [|intros _].
    { intros w1 w2 Hc. unfold enqueue, modify, control in *. simpl.
      injection Hc as Hp Hl Hq. now rewrite Hp, Hl, Hq. }
    apply alike_bind; [apply alike_iteration | intros _; exact IH]. }
  exact (proj2 (H w w eq_refl)).
Qed.

(** ** A weight that is not positive *)

Lemma nonpositive_product (a b : Q) :
  (0 <= a)%Q -> (b <= 0)%Q -> (a * b <= 0)%Q.
Proof.
  intros Ha Hb.
  assert (H : (0 <= a * - b)%Q).
  { apply Qmult_le_0_compat; [exact Ha|].
    apply (Qopp_le_compat b 0) in Hb. exact Hb. }
  apply (Qopp_le_compat 0 (a * - b)) in H.
  assert (E : (- (a * - b) == a * b)%Q) by ring.
  rewrite E in H. exact H.
Qed.

(** X19: in a mode other than "fixed", a hotkey whose weight is zero or
    negative is never mirrored: whatever the delta, in both paths, no
    [btcli stake] process is started, no trade embed is sent and no counter
    moves. *)
Theorem nonpositive_weight_never_mirrors (dry_run : bool) (cfg : config)
    (w : world) :
  trade_mode cfg <> "fixed"%string ->
  (forall ev r i weight,
     index_of (ev_hk ev) (hotkeys cfg) = Some i ->
     weights cfg !! i = Some weight ->
     (weight <= 0)%Q ->
     let w' := exec (process_event dry_run cfg ev r) w in
     stake_cmds (trace w') = stake_cmds (trace w) /\
     trade_embeds (trace w') = trade_embeds (trace w) /\
     summ w' = summ w) /\
  (forall netuid mg i hk r weight,
     weights cfg !! i = Some weight ->
     (weight <= 0)%Q ->
     let w' := exec (poll_hotkey dry_run cfg netuid mg i hk r) w in
     stake_cmds (trace w') = stake_cmds (trace w) /\
     trade_embeds (trace w') = trade_embeds (trace w) /\
     summ w' = summ w).
Proof.
  intros Hmode.
  assert (Hsized : forall d weight, (weight <= 0)%Q ->
    exists amount, sized cfg d weight = Some amount /\
                   Qle_bool amount 0 = true).
  { intros d weight Hw. unfold sized.
    destruct (String.eqb_spec (trade_mode cfg) "fixed") as [E|_];
      [contradiction|].
    eexists. split; [reflexivity|]. apply Qle_bool_iff.
    apply nonpositive_product; [apply Qabs_nonneg | exact Hw]. }
  assert (Hexec : forall a netuid hk amount delta bal o w0,
    Qle_bool amount 0 = true ->
    let w1 := snd (execute_push dry_run cfg a netuid hk amount delta bal o w0)
    in stake_cmds (trace w1) = stake_cmds (trace w0) /\
       trade_embeds (trace w1) = trade_embeds (trace w0) /\
       summ w1 = summ w0).
  { intros a netuid hk amount delta bal o w0 Hle. cbv zeta.
    destruct dry_run.
    - rewrite dry_push_run. destruct (log_quiet (LDryRun a amount netuid hk) w0)
        as (_ & Hs & Hst & Hem). cbn [snd]. tauto.
    - rewrite execute_push_live.
      destruct (mirror_and_log a netuid cfg amount hk delta bal o w0)
        as (w1 & -> & _ & _ & _ & _ & Hrest).
      rewrite Hle in Hrest. cbn [snd]. destruct Hrest as [-> ->]. tauto. }
  split.
  - intros ev r i weight Hi Hw Hle. cbv zeta.
    destruct (Hsized (ev_delta ev) weight Hle) as (amount & Hs & Hamt).
    unfold exec.
    rewrite (process_event_run dry_run cfg ev r w i weight amount Hi Hw Hs).
    destruct (checked_quiet cfg (reply_balance r) w) as (_ & Hcs & Hcst & Hcem).
    destruct (lets_through cfg (paused w) (reply_balance r)).
    + destruct (Hexec (ev_action ev) (ev_netuid ev) (ev_hk ev) amount
                  (ev_delta ev) (reply_balance r) (reply_stake r)
                  (checked cfg (reply_balance r) w) Hamt) as (H1 & H2 & H3).
      rewrite H1, H2, H3. tauto.
    + rewrite skip_run. cbn [snd]. tauto.
  - intros netuid mg i hk r weight Hw Hle. cbv zeta. unfold exec.
    destruct (poll_hotkey_cases dry_run cfg netuid mg i hk r w)
      as [[res ->] | [(res & v & ->) |
          (idx & v & last & wt & am & _ & _ & _ & _ & Hw' & Hs & ->)]].
    + cbn [snd]. tauto.
    + cbn [snd]. unfold rebased. simpl. tauto.
    + rewrite Hw in Hw'. injection Hw' as <-.
      destruct (Hsized (v - last) weight Hle) as (amount & Hs' & Hamt).
      rewrite Hs in Hs'. injection Hs' as ->.
      assert (Hq : quiet w (checked cfg (reply_balance r)
                              (rebased netuid hk v w))).
      { transitivity (rebased netuid hk v w);
          [apply rebased_quiet | apply checked_quiet]. }
      destruct Hq as (_ & Hcs & Hcst & Hcem).
      destruct (lets_through cfg (paused w) (reply_balance r)).
      * rewrite execute_poll_as_push.
        destruct (Hexec (if Qlt_bool 0 (v - last) then Add else Remove)
                    netuid hk amount (v - last) (reply_balance r)
                    (reply_stake r)
                    (checked cfg (reply_balance r) (rebased netuid hk v w))
                    Hamt) as (H1 & H2 & H3).
        rewrite H1, H2, H3. tauto.
      * rewrite skip_run. cbn [snd]. tauto.
Qed.

Definition cfg_weightless : config :=
  {| network := "finney"; my_wallet := "mine"; fixed_amount := Some (1 # 10);
     hotkeys := ["hkA"; "hkB"]%string; weights := [0; 1];
     poll_seconds := 30%Z; trade_mode := "proportional";
     live_webhook := "https://live"; summary_webhook := "https://sum";
     low_balance := 1; resume_balance := 2; btcli_path := "btcli" |}.

Lemma nonpositive_weight_never_mirrors_witness :
  let w' := exec (process_event false cfg_weightless evA
                    (sample_reply 10 (Exited 0 "" ""))) w0 in
  stake_cmds (trace w') = stake_cmds (trace w0) /\
  trade_embeds (trace w') = trade_embeds (trace w0) /\
  summ w' = summ w0.
Proof.
  refine (proj1 (nonpositive_weight_never_mirrors false cfg_weightless w0 _)
            evA (sample_reply 10 (Exited 0 "" "")) 0%nat 0 _ _ _).
  - discriminate.
  - reflexivity.
  - reflexivity.
  - vm_compute. discriminate.
Defined.

(** ** The listener's handler *)

(** An attribute of a chain event, by what [int], [str] and [float] make of
    it; [None] where the conversion raises. *)
Record attribute := {
  as_int : option Z;
  as_str : string;
  as_float : option Q
}.

(** The dict under key ["event"]: [module_id] and [event_id] are [None] when
    the key is missing, [attributes] is empty when it is. *)
Record chain_event := {
  module_id : option string;
  event_id : option string;
  attributes : list attribute
}.

(** What [events_handler] does with an event: it puts a tuple on the queue,
    passes the event over, or logs "Event parse error". *)
Inductive handled :=
| Queued (ev : push_event)
| Ignored
| ParseError.

(** [events_handler(event, update_nr, subscription_id)] (lines 247-260). *)
Definition events_handler (e : chain_event) : handled :=
  if bool_decide (module_id e = Some "SubtensorModule"%string) &&
     (bool_decide (event_id e = Some "StakeAdded"%string) ||
      bool_decide (event_id e = Some "StakeRemoved"%string))
  then
    match attributes e with
    | a0 :: a1 :: a2 :: _ =>
        match as_int a0 with
        | None => ParseError
        | Some netuid =>
            match as_float a2 with
            | None => ParseError
            | Some delta =>
                Queued {| ev_action :=
                            if bool_decide (event_id e = Some "StakeAdded"%string)
                            then Add else Remove;
                          ev_netuid := netuid;
                          ev_hk := as_str a1;
                          ev_delta := delta |}
            end
        end
    | _ => Ignored
    end
  else Ignored.

(** X20: the handler queues a tuple only for an event of module
    "SubtensorModule" whose id is "StakeAdded" or "StakeRemoved" and that
    has at least three attributes; the action is "add" for the former and
    "remove" for the latter, and subnet, hotkey and delta are the first
    three attributes, the delta with the sign the event carries. *)
Theorem handler_queues_only_stake_events (e : chain_event) (ev : push_event) :
  events_handler e = Queued ev ->
  module_id e = Some "SubtensorModule"%string /\
  ((event_id e = Some "StakeAdded"%string /\ ev_action ev = Add) \/
   (event_id e = Some "StakeRemoved"%string /\ ev_action ev = Remove)) /\
  exists a0 a1 a2 rest,
    attributes e = a0 :: a1 :: a2 :: rest /\
    as_int a0 = Some (ev_netuid ev) /\
    as_str a1 = ev_hk ev /\
    as_float a2 = Some (ev_delta ev).
Proof.
  unfold events_handler. intros H.
  destruct (bool_decide (module_id e = Some "SubtensorModule"%string))
    eqn:Em; [|discriminate H].
  apply bool_decide_eq_true in Em. simpl in H.
  destruct (attributes e) as [|a0 [|a1 [|a2 rest]]] eqn:Ea;
    try (destruct (_ || _); discriminate H).
  destruct (bool_decide (event_id e = Some "StakeAdded"%string)) eqn:Eadd;
    simpl in H.
  - apply bool_decide_eq_true in Eadd.
    destruct (as_int a0) as [n|] eqn:En; [|discriminate H].
    destruct (as_float a2) as [d|] eqn:Ed; [|discriminate H].
    injection H as <-. simpl. split; [exact Em|]. split; [now left|].
    exists a0, a1, a2, rest. repeat split; assumption.
  - destruct (bool_decide (event_id e = Some "StakeRemoved"%string)) eqn:Erem;
      [|discriminate H].
    apply bool_decide_eq_true in Erem.
    destruct (as_int a0) as [n|] eqn:En; [|discriminate H].
    destruct (as_float a2) as [d|] eqn:Ed; [|discriminate H].
    injection H as <-. simpl. split; [exact Em|]. split; [now right|].
    exists a0, a1, a2, rest. repeat split; assumption.
Qed.

Definition removal_event : chain_event :=
  {| module_id := Some "SubtensorModule"%string;
     event_id := Some "StakeRemoved"%string;
     attributes :=
       [{| as_int := Some 7%Z; as_str := "7"; as_float := Some 7 |};
        {| as_int := None; as_str := "hkA"; as_float := None |};
        {| as_int := Some 3%Z; as_str := "3.0"; as_float := Some 3 |}] |}.

Lemma handler_queues_only_stake_events_witness :
  module_id removal_event = Some "SubtensorModule"%string /\
  ((event_id removal_event = Some "StakeAdded"%string /\
    ev_action {| ev_action := Remove; ev_netuid := 7; ev_hk := "hkA";
                 ev_delta := 3 |} = Add) \/
   (event_id removal_event = Some "StakeRemoved"%string /\
    ev_action {| ev_action := Remove; ev_netuid := 7; ev_hk := "hkA";
                 ev_delta := 3 |} = Remove)) /\
  exists a0 a1 a2 rest,
    attributes removal_event = a0 :: a1 :: a2 :: rest /\
    as_int a0 = Some 7%Z /\ as_str a1 = "hkA"%string /\ as_float a2 = Some 3.
Proof.
  exact (handler_queues_only_stake_events removal_event
           {| ev_action := Remove; ev_netuid := 7; ev_hk := "hkA";
              ev_delta := 3 |} eq_refl).
Defined.

(** ** Thresholds out of order (claim C7) *)

Lemma iteration_orderly (dry_run : bool) (cfg : config) (ch : chain)
    (rs : Z -> nat -> reply) (w : world) :
  orderly w (exec (iteration dry_run cfg ch rs) w).
Proof.
  refine (proj2 (all_iteration orderly dry_run cfg _ _ _ _ _ _ _ _ ch rs w I)).
  - intros l w1 _. split; [exact I|]. apply quiet_orderly.
    now apply emit_quiet.
  - intros bal w1 _. split; [exact I|]. apply quiet_orderly, balance_quiet.
  - intros bal w1 _. split; [exact I|]. apply quiet_orderly, governor_quiet.
  - intros n hk v w1 _. split; [exact I|]. apply quiet_orderly.
    unfold quiet. simpl. tauto.
  - intros a n hk amount delta bal o w1 _. split; [exact I|].
    apply mirror_and_log_orderly.
  - intros q w1 _. split; [exact I|]. apply quiet_orderly.
    unfold quiet. simpl. tauto.
  - intros w1 _. split; [exact I|]. apply quiet_orderly.
    unfold save_state, get_last_stakes, mbind, M_bind.
    now apply (emit_quiet (SaveState (last_stakes w1))).
  - intros w1 _. split; [exact I|]. apply quiet_orderly.
    unfold notify_text. destruct (truthy (live_webhook cfg));
      [now apply emit_quiet | reflexivity].
Qed.

(** A loop that is not paused lets an intent through as soon as the balance
    reaches either threshold. *)
Lemma lets_through_unpaused (cfg : config) (bal : Q) :
  (low_balance cfg <= bal)%Q \/ (resume_balance cfg <= bal)%Q ->
  lets_through cfg false bal = true.
Proof.
  intros [H|H]; unfold lets_through, Qlt_bool; apply Qle_bool_iff in H;
    rewrite H; [reflexivity | apply orb_true_r].
Qed.

(** A turn that finds one event for a watched hotkey on the queue, in a loop
    that is not paused, with a balance that reaches either threshold: the
    event is mirrored, whatever the poll pass of that turn does. *)
Lemma arrival_is_mirrored (cfg : config) (ev : push_event) (r : reply)
    (ch : chain) (rs : Z -> nat -> reply) (i : nat) (weight amount : Q)
    (w : world) :
  paused w = false -> queue w = [] ->
  index_of (ev_hk ev) (hotkeys cfg) = Some i ->
  weights cfg !! i = Some weight ->
  sized cfg (ev_delta ev) weight = Some amount ->
  lets_through cfg false (reply_balance r) = true ->
  let w' := exec (run_loop false cfg
                    [{| arrivals := [(ev, r)]; chain_now := ch;
                        poll_replies := rs |}]) w in
  (db w ++ [row_of (ev_action ev) (ev_netuid ev) (ev_hk ev) amount
              (ev_delta ev) (reply_balance r)]) `prefix_of` db w' /\
  ((0 < amount)%Q -> (n_stakes w < n_stakes w')%Z).
Proof.
  intros Hp Hq Hi Hw Hs Hgo. cbv zeta.
  set (wa := with_queue [(ev, r)] w).
  set (wb := with_queue [] w).
  assert (Hloop : exec (run_loop false cfg
                    [{| arrivals := [(ev, r)]; chain_now := ch;
                        poll_replies := rs |}]) w =
                  exec (iteration false cfg ch rs) wa).
  { simpl run_loop. unfold exec, mbind at 1, M_bind at 1, enqueue, modify.
    cbn [arrivals chain_now poll_replies]. rewrite Hq. cbn [app]. fold wa.
    unfold mbind, M_bind.
    destruct (iteration false cfg ch rs wa) as [[u|] w2]; reflexivity. }
  rewrite Hloop. clear Hloop.
  destruct (mirror_and_log (ev_action ev) (ev_netuid ev) cfg amount (ev_hk ev)
              (ev_delta ev) (reply_balance r) (reply_stake r)
              (checked cfg (reply_balance r) wb))
    as (wc & Hrun & Hdb & _ & _ & Hqc & Hrest).
  assert (Hpe : process_event false cfg ev r wb = (Some tt, wc)).
  { rewrite (process_event_run false cfg ev r wb i weight amount Hi Hw Hs).
    change (paused wb) with (paused w). rewrite Hp, Hgo. exact Hrun. }
  assert (Hqc' : queue wc = []).
  { rewrite Hqc. apply (checked_fields cfg (reply_balance r) wb). }
  assert (Hsame : iteration false cfg ch rs wa = iteration false cfg ch rs wc).
  { rewrite !iteration_run. rewrite Hqc'.
    change (queue wa) with [(ev, r)].
    change (drain false cfg [] wc) with (Some tt, wc).
    change (drain false cfg [(ev, r)] wa)
      with ((process_event false cfg ev r;; drain false cfg []) wb).
    unfold mbind at 1, M_bind at 1. rewrite Hpe. reflexivity. }
  unfold exec. rewrite Hsame.
  destruct (iteration_orderly false cfg ch rs wc)
    as (Hpre & Htr & _ & _ & _ & Hcount & _).
  unfold exec in Hpre, Htr, Hcount.
  destruct (checked_quiet cfg (reply_balance r) wb) as (Hcdb & Hcs & Hcst & _).
  split.
  - rewrite Hdb, Hcdb in Hpre. exact Hpre.
  - intros Hpos.
    assert (E : Qle_bool amount 0 = false)
      by (now apply Qle_bool_false_iff).
    rewrite E in Hrest. destruct Hrest as (_ & Hst & _).
    assert (Hn : n_stakes wc = (n_stakes w + 1)%Z).
    { unfold n_stakes. rewrite Hst, Hcst, length_app. simpl.
      change (trace wb) with (trace w). lia. }
    lia.
Qed.

(** C7, as the code has it: the two thresholds are never compared with each
    other, neither by [setup] nor by [run].  [setup], whatever is answered,
    stores the thresholds as typed (1.0 and 2.0 for empty lines); it saves
    the configuration and the empty state file, logs the line
    "Setup complete." and sends one message for each webhook given, and
    nothing else is logged or sent: nothing is said of the thresholds.
    [run], with whatever configuration it finds
    on disk, goes into its loop after at most the start-up message of the
    summary webhook.  And in that loop, with the thresholds in any order, an
    event for a watched hotkey that meets a balance at or over either
    threshold is mirrored in the first turn: its row is in the ledger and,
    when the amount is positive, a [btcli stake] process has been started. *)
Theorem C7_thresholds_never_checked (a : answers) (cfg : config) (w : world) :
  (setup a w =
     (Some (setup_config a),
      with_trace
        (trace w ++
         [SaveConfig (setup_config a); SaveState ∅; Log LSetupComplete] ++
         (if truthy (ans_live a)
          then [NotifySetup (length (hotkeys (setup_config a)))] else []) ++
         (if truthy (ans_summary a) then [NotifySummaryInit] else [])) w) /\
   low_balance (setup_config a) = default 1 (ans_low a) /\
   resume_balance (setup_config a) = default 2 (ans_resume a)) /\
  (forall dry_run st rows tf bal ts,
     run dry_run false
       {| config_file := Some cfg; state_file := st; db_file := rows;
          trend_json := tf |} bal ts =
     Some (exec (run_loop dry_run cfg ts)
             (with_trace
                (if truthy (summary_webhook cfg) then [NotifySummaryAt] else [])
                (initial_world
                   {| config_file := Some cfg; state_file := st;
                      db_file := rows; trend_json := tf |})))) /\
  (forall st rows tf bal ev r ch rs i weight amount,
     index_of (ev_hk ev) (hotkeys cfg) = Some i ->
     weights cfg !! i = Some weight ->
     fst (sizing cfg (ev_delta ev) weight w) = Some amount ->
     (low_balance cfg <= reply_balance r)%Q \/
     (resume_balance cfg <= reply_balance r)%Q ->
     exists w',
       run false false
         {| config_file := Some cfg; state_file := st; db_file := rows;
            trend_json := tf |} bal
         [{| arrivals := [(ev, r)]; chain_now := ch; poll_replies := rs |}] =
       Some w' /\
       (rows ++ [row_of (ev_action ev) (ev_netuid ev) (ev_hk ev) amount
                   (ev_delta ev) (reply_balance r)]) `prefix_of` db w' /\
       ((0 < amount)%Q -> (1 <= n_stakes w')%Z)).
Proof.
  assert (Hrun : forall dry_run st rows tf bal ts,
     run dry_run false
       {| config_file := Some cfg; state_file := st; db_file := rows;
          trend_json := tf |} bal ts =
     Some (exec (run_loop dry_run cfg ts)
             (with_trace
                (if truthy (summary_webhook cfg) then [NotifySummaryAt] else [])
                (initial_world
                   {| config_file := Some cfg; state_file := st;
                      db_file := rows; trend_json := tf |})))).
  { intros dry_run st rows tf bal ts. unfold run. cbn [config_file].
    f_equal. unfold exec, mbind, M_bind, notify_text.
    destruct (truthy (summary_webhook cfg)); reflexivity. }
  split; [|split; [exact Hrun|]].
  - split; [|split; reflexivity].
    unfold setup, log, notify_text, emit, modify, mbind, M_bind, skip, mret,
      M_ret.
    change (live_webhook (setup_config a)) with (ans_live a).
    change (summary_webhook (setup_config a)) with (ans_summary a).
    destruct (truthy (ans_live a)), (truthy (ans_summary a)); destruct w;
      unfold with_trace; cbn [trace paused summ last_stakes db queue
                              last_balance_json app];
      rewrite <- ?app_assoc; reflexivity.
  - intros st rows tf bal ev r ch rs i weight amount Hi Hw Hs Hbal.
    eexists. split; [apply Hrun|].
    apply sizing_sized in Hs.
    set (wi := with_trace
                 (if truthy (summary_webhook cfg) then [NotifySummaryAt] else [])
                 (initial_world
                    {| config_file := Some cfg; state_file := st;
                       db_file := rows; trend_json := tf |})).
    destruct (arrival_is_mirrored cfg ev r ch rs i weight amount wi
                eq_refl eq_refl Hi Hw Hs (lets_through_unpaused cfg _ Hbal))
      as [Hrow Hstake].
    split; [exact Hrow|].
    intros Hpos. specialize (Hstake Hpos).
    assert (H0 : n_stakes wi = 0%Z).
    { unfold n_stakes, wi. simpl.
      destruct (truthy (summary_webhook cfg)); reflexivity. }
    lia.
Qed.

Lemma C7_thresholds_never_checked_witness :
  (resume_balance cfg_flap < low_balance cfg_flap)%Q /\
  exists w',
    run false false (disk_of cfg_flap) 0 [turn_at (3 # 2)] = Some w' /\
    [row_of Add 7 "hkA" (Qabs 10 * (1 # 2)) 10 (3 # 2)] `prefix_of` db w' /\
    (1 <= n_stakes w')%Z.
Proof.
  split; [reflexivity|].
  assert (Hbal : (low_balance cfg_flap <= 3 # 2)%Q \/
                 (resume_balance cfg_flap <= 3 # 2)%Q)
    by (right; vm_compute; discriminate).
  destruct (proj2 (proj2 (C7_thresholds_never_checked answers_flap cfg_flap w0))
              (Some ∅) [] TfMissing 0 evA (sample_reply (3 # 2) (Exited 0 "" ""))
              chain7 (fun _ _ => sample_reply (3 # 2) (Exited 0 "" ""))
              0%nat (1 # 2) (Qabs 10 * (1 # 2))
              eq_refl eq_refl eq_refl Hbal)
    as (w' & Hrun & Hrow & Hstake).
  exists w'. split; [exact Hrun|]. split; [exact Hrow|].
  apply Hstake. reflexivity.
Defined.

(** ** What dry-run leaves out and what it keeps (claim C8) *)

Lemma saves_after_error (cfg : config) (w : world) :
  saves (trace (after_error cfg w)) = saves (trace w).
Proof.
  unfold after_error, saves. simpl. rewrite List.filter_app.
  destruct (truthy (live_webhook cfg)); simpl; apply app_nil_r.
Qed.

(** Two turns over the same events, chain and balances, from worlds with the
    same control and the same writes of the state file, one in each mode:
    they steer alike and write the state file alike. *)
Lemma turn_rehearsal (d1 d2 : bool) (cfg : config) (ch : chain)
    (rs : Z -> nat -> reply) (w1 w2 : world) :
  control w1 = control w2 ->
  saves (trace w1) = saves (trace w2) ->
  control (exec (iteration d1 cfg ch rs) w1) =
  control (exec (iteration d2 cfg ch rs) w2) /\
  saves (trace (exec (iteration d1 cfg ch rs) w1)) =
  saves (trace (exec (iteration d2 cfg ch rs) w2)).
Proof.
  intros Hc Hs.
  split; [exact (proj2 (alike_iteration d1 d2 cfg ch rs w1 w2 Hc))|].
  unfold exec. rewrite !iteration_run.
  assert (Hq : queue w1 = queue w2) by (now injection Hc).
  destruct (alike_drain d1 d2 cfg (queue w1) w1 w2 Hc) as [Hr1 Hc1].
  destruct (drain_outcome d1 cfg (queue w1) w1 eq_refl) as (_ & _ & _ & Hs1).
  destruct (drain_outcome d2 cfg (queue w2) w2 eq_refl) as (_ & _ & _ & Hs2).
  unfold exec in Hs1, Hs2. rewrite <- Hq in Hs2 |- *.
  destruct (drain d1 cfg (queue w1) w1) as [[[]|] w1'],
           (drain d2 cfg (queue w1) w2) as [[[]|] w2'];
    cbn [fst snd] in *; try discriminate Hr1.
  - destruct (alike_poll_pass d1 d2 cfg ch rs w1' w2' Hc1) as [Hr2 Hc2].
    pose proof (poll_pass_calm d1 cfg ch rs w1') as (_ & _ & Hp1).
    pose proof (poll_pass_calm d2 cfg ch rs w2') as (_ & _ & Hp2).
    unfold exec in Hp1, Hp2.
    destruct (poll_pass d1 cfg ch rs w1') as [[[]|] w1''],
             (poll_pass d2 cfg ch rs w2') as [[[]|] w2''];
      cbn [fst snd] in *; try discriminate Hr2.
    + assert (Hl : last_stakes w1'' = last_stakes w2'') by (now injection Hc2).
      unfold saves. simpl. rewrite !List.filter_app. simpl.
      fold (saves (trace w1'')). fold (saves (trace w2'')).
      rewrite Hl. congruence.
    + rewrite !saves_after_error. congruence.
  - rewrite !saves_after_error. congruence.
Qed.

Lemma run_loop_cons (dry_run : bool) (cfg : config) (t : turn)
    (ts : list turn) (w : world) :
  exec (run_loop dry_run cfg (t :: ts)) w =
  exec (run_loop dry_run cfg ts)
    (exec (iteration dry_run cfg (chain_now t) (poll_replies t))
       (with_queue (queue w ++ arrivals t) w)).
Proof.
  simpl run_loop. unfold exec, mbind at 1, M_bind at 1, enqueue, modify.
  unfold mbind at 1, M_bind at 1.
  rewrite iteration_run.
  destruct (drain dry_run cfg _ _) as [[[]|] w1]; [|reflexivity].
  destruct (poll_pass dry_run cfg _ _ w1) as [[[]|] w2]; reflexivity.
Qed.

(** Over any turns, the two modes steer alike and write the state file
    alike. *)
Lemma run_loop_rehearsal (d1 d2 : bool) (cfg : config) (ts : list turn)
    (w1 w2 : world) :
  control w1 = control w2 ->
  saves (trace w1) = saves (trace w2) ->
  control (exec (run_loop d1 cfg ts) w1) =
  control (exec (run_loop d2 cfg ts) w2) /\
  saves (trace (exec (run_loop d1 cfg ts) w1)) =
  saves (trace (exec (run_loop d2 cfg ts) w2)).
Proof.
  revert w1 w2. induction ts as [|t ts IH]; intros w1 w2 Hc Hs.
  - split; assumption.
  - rewrite !run_loop_cons.
    assert (Hq : queue w1 = queue w2) by (now injection Hc).
    apply IH; apply turn_rehearsal; simpl; try assumption.
    + unfold control in *. simpl. injection Hc as Hp Hl _.
      now rewrite Hp, Hl, Hq.
    + unfold control in *. simpl. injection Hc as Hp Hl _.
      now rewrite Hp, Hl, Hq.
Qed.

(** The realtime path in dry-run, for a watched hotkey: the balance is
    fetched with [btcli], the safety block sets the flag and sends its
    messages, and the intent that gets through is logged. *)
Lemma process_event_rehearsed (cfg : config) (ev : push_event) (r : reply)
    (i : nat) (weight amount : Q) (w : world) :
  index_of (ev_hk ev) (hotkeys cfg) = Some i ->
  weights cfg !! i = Some weight ->
  sized cfg (ev_delta ev) weight = Some amount ->
  let go := lets_through cfg (paused w) (reply_balance r) in
  process_event true cfg ev r w =
  (Some tt,
   with_trace
     (trace w ++
      [Log LFetchBalance; Log (LCmd CmdBalance); Popen CmdBalance] ++
      safety_notes cfg (paused w) (reply_balance r) ++
      (if go
       then [Log (LDryRun (ev_action ev) amount (ev_netuid ev) (ev_hk ev))]
       else []))
     (with_paused (negb go) w)).
Proof.
  intros Hi Hw Hs. cbv zeta.
  rewrite (process_event_run true cfg ev r w i weight amount Hi Hw Hs).
  destruct (lets_through cfg (paused w) (reply_balance r)) eqn:Hgo;
    [rewrite dry_push_run | rewrite skip_run];
    unfold checked; destruct w; unfold with_trace, with_paused in *;
    cbn [trace paused summ last_stakes db queue last_balance_json] in *;
    rewrite ?Hgo; rewrite <- ?app_assoc, ?app_nil_r; reflexivity.
Qed.

(** The poll path in dry-run, for a stake seen away from its baseline: the
    new baseline is stored, the balance fetched with [btcli], the safety
    block run, and the intent that gets through is logged. *)
Lemma poll_hotkey_rehearsed (cfg : config) (netuid : Z) (mg : metagraph)
    (i : nat) (hk : string) (r : reply) (idx : nat)
    (stake_val last weight amount : Q) (w : world) :
  index_of hk (mg_hotkeys mg) = Some idx ->
  mg_stake mg !! idx = Some stake_val ->
  baseline (last_stakes w) netuid hk = Some last ->
  Qlt_bool (Qabs (stake_val - last)) eps = false ->
  weights cfg !! i = Some weight ->
  sized cfg (stake_val - last) weight = Some amount ->
  let go := lets_through cfg (paused w) (reply_balance r) in
  poll_hotkey true cfg netuid mg i hk r w =
  (Some tt,
   with_trace
     (trace w ++
      [Log LFetchBalance; Log (LCmd CmdBalance); Popen CmdBalance] ++
      safety_notes cfg (paused w) (reply_balance r) ++
      (if go
       then [Log (LDryRun (if Qlt_bool 0 (stake_val - last) then Add else Remove)
                    amount netuid hk)]
       else []))
     (with_paused (negb go)
        (with_last_stakes (set_baseline (last_stakes w) netuid hk stake_val)
           w))).
Proof.
  intros Hidx Hst Hb Hn Hw Hs. cbv zeta.
  rewrite (poll_hotkey_run true cfg netuid mg i hk r w idx stake_val last
             weight amount Hidx Hst Hb Hn Hw Hs).
  change (paused (rebased netuid hk stake_val w)) with (paused w).
  destruct (lets_through cfg (paused w) (reply_balance r)) eqn:Hgo;
    [rewrite dry_poll_run | rewrite skip_run];
    unfold checked, rebased; destruct w; unfold with_trace, with_paused,
      with_last_stakes in *;
    cbn [trace paused summ last_stakes db queue last_balance_json] in *;
    rewrite ?Hgo; rewrite <- ?app_assoc, ?app_nil_r; reflexivity.
Qed.

(** C8, counterexample: in dry-run an event for [hkA] meets a balance of
    0.8, under low = 1.  The [btcli] balance query is run, the loop pauses
    (a change that lasts) and the "paused" message is posted.  And a turn
    of the loop in dry-run whose poll pass sees the stake of [hkA] at 110
    moves the stored baseline from 100 to 110 and writes the state file. *)
Lemma C8_dry_run_queries_pauses_and_saves :
  let w1 := exec (process_event true cfg0 evA
                    (sample_reply (8 # 10) (Exited 0 "" ""))) w0 in
  let w2 := exec (run_loop true cfg0 [turn_at 10]) w100 in
  (trace w1 = [Log LFetchBalance; Log (LCmd CmdBalance); Popen CmdBalance;
               NotifyPaused (8 # 10)] /\
   paused w0 = false /\ paused w1 = true) /\
  (baseline (last_stakes w100) 7 "hkA" = Some 100 /\
   baseline (last_stakes w2) 7 "hkA" = Some 110 /\
   In (Popen CmdBalance) (trace w2) /\
   last (trace w2) = Some (SaveState (last_stakes w2))).
Proof.
  cbv zeta. split; [vm_compute; repeat split|].
  split; [reflexivity|]. split; [vm_compute; reflexivity|].
  split; [|vm_compute; reflexivity].
  vm_compute. tauto.
Qed.

(** C8, as the code has it: what dry-run leaves out is the trade.  Over any
    run of the loop in dry-run no [btcli stake] process is started, no row
    is written to the ledger, no counter of the summary moves and no trade
    embed is sent.  All the rest is done as outside dry-run: after the same
    turns the paused flag, the stored baseline and the queue are what they
    would be outside dry-run, and the state file has been written as often
    and with the same contents.  For an intent of either path, the balance
    is fetched by running [btcli], the safety block sets the flag and posts
    its "paused" and "resumed" messages, the poll path has stored the new
    baseline, and the intent that gets through the safety block is logged
    with its action, amount, subnet and hotkey. *)
Theorem C8_dry_run_skips_only_the_trade (cfg : config) (ts : list turn)
    (w : world) :
  let wd := exec (run_loop true cfg ts) w in
  let wl := exec (run_loop false cfg ts) w in
  (db wd = db w /\ summ wd = summ w /\
   stake_cmds (trace wd) = stake_cmds (trace w) /\
   trade_embeds (trace wd) = trade_embeds (trace w)) /\
  (paused wd = paused wl /\ last_stakes wd = last_stakes wl /\
   queue wd = queue wl /\ saves (trace wd) = saves (trace wl)) /\
  (forall ev r i weight amount,
     index_of (ev_hk ev) (hotkeys cfg) = Some i ->
     weights cfg !! i = Some weight ->
     fst (sizing cfg (ev_delta ev) weight w) = Some amount ->
     let go := lets_through cfg (paused w) (reply_balance r) in
     process_event true cfg ev r w =
     (Some tt,
      with_trace
        (trace w ++
         [Log LFetchBalance; Log (LCmd CmdBalance); Popen CmdBalance] ++
         safety_notes cfg (paused w) (reply_balance r) ++
         (if go
          then [Log (LDryRun (ev_action ev) amount (ev_netuid ev) (ev_hk ev))]
          else []))
        (with_paused (negb go) w))) /\
  (forall netuid mg i hk r idx stake_val last weight amount,
     index_of hk (mg_hotkeys mg) = Some idx ->
     mg_stake mg !! idx = Some stake_val ->
     baseline (last_stakes w) netuid hk = Some last ->
     (eps <= Qabs (stake_val - last))%Q ->
     weights cfg !! i = Some weight ->
     fst (sizing cfg (stake_val - last) weight w) = Some amount ->
     let go := lets_through cfg (paused w) (reply_balance r) in
     poll_hotkey true cfg netuid mg i hk r w =
     (Some tt,
      with_trace
        (trace w ++
         [Log LFetchBalance; Log (LCmd CmdBalance); Popen CmdBalance] ++
         safety_notes cfg (paused w) (reply_balance r) ++
         (if go
          then [Log (LDryRun
                       (if Qlt_bool 0 (stake_val - last) then Add else Remove)
                       amount netuid hk)]
          else []))
        (with_paused (negb go)
           (with_last_stakes
              (set_baseline (last_stakes w) netuid hk stake_val) w)))).
Proof.
  cbv zeta. split; [|split; [|split]].
  - exact (proj1 (dry_run_loop_is_quiet cfg ts w)).
  - destruct (run_loop_rehearsal true false cfg ts w w eq_refl eq_refl)
      as [Hc Hs].
    injection Hc as Hp Hl Hq. tauto.
  - intros ev r i weight amount Hi Hw Hs.
    apply (process_event_rehearsed cfg ev r i weight amount w Hi Hw).
    now apply sizing_sized in Hs.
  - intros netuid mg i hk r idx stake_val last weight amount
      Hidx Hst Hb Hn Hw Hs.
    apply (poll_hotkey_rehearsed cfg netuid mg i hk r idx stake_val last
             weight amount w Hidx Hst Hb); try assumption.
    + now apply Qlt_bool_false_iff.
    + now apply sizing_sized in Hs.
Qed.

Lemma C8_dry_run_skips_only_the_trade_witness :
  let wd := exec (run_loop true cfg0 [turn_at 10]) w100 in
  let wl := exec (run_loop false cfg0 [turn_at 10]) w100 in
  (db wd = [] /\ stake_cmds (trace wd) = []) /\
  (last_stakes wd = last_stakes wl /\ saves (trace wd) = saves (trace wl)) /\
  process_event true cfg0 evA (sample_reply (8 # 10) (Exited 0 "" "")) w0 =
  (Some tt,
   with_trace [Log LFetchBalance; Log (LCmd CmdBalance); Popen CmdBalance;
               NotifyPaused (8 # 10)] (with_paused true w0)) /\
  poll_hotkey true cfg0 7 mg7 0 "hkA" (sample_reply 10 (Exited 0 "" "")) w100 =
  (Some tt,
   with_trace [Log LFetchBalance; Log (LCmd CmdBalance); Popen CmdBalance;
               Log (LDryRun Add (Qabs (110 - 100) * (1 # 2)) 7 "hkA")]
     (with_last_stakes (set_baseline (last_stakes w100) 7 "hkA" 110) w100)).
Proof.
  cbv zeta.
  pose proof (C8_dry_run_skips_only_the_trade cfg0 [turn_at 10] w100)
    as (Hquiet & Hsteer & _ & Hpoll).
  pose proof (C8_dry_run_skips_only_the_trade cfg0 [] w0)
    as (_ & _ & Hpush & _).
  cbv zeta in *.
  split; [|split; [|split]].
  - destruct Hquiet as (Hdb & _ & Hst & _). split; [exact Hdb | exact Hst].
  - destruct Hsteer as (_ & Hl & _ & Hs). split; [exact Hl | exact Hs].
  - exact (Hpush evA (sample_reply (8 # 10) (Exited 0 "" "")) 0%nat (1 # 2)
             (Qabs 10 * (1 # 2)) eq_refl eq_refl eq_refl).
  - refine (Hpoll 7%Z mg7 0%nat "hkA"%string (sample_reply 10 (Exited 0 "" ""))
              1%nat 110 100 (1 # 2) (Qabs (110 - 100) * (1 # 2))
              eq_refl eq_refl eq_refl _ eq_refl eq_refl).
    vm_compute. discriminate.
Defined.
